(** * ESP32 temperature/humidity station: the resilience control loop

    A shallow embedding of [src/main.cpp] (the AHT20 + U8g2 + WebServer
    sketch): the guardians [checkWiFiConnection], [checkNTPSync] and
    [checkMemory], the presentation helper [printCentered], the HTTP
    handlers and the tick function [loop].

    The sketch is single threaded.  Every call into the platform (WiFi,
    display, sensor, serial port, HTTP server, watchdog) is recorded as an
    [event]; values read from the platform come from an environment that
    may answer depending on everything that happened before. *)

From Stdlib Require Import ZArith List String Ascii Bool Lia.
From Stdlib Require Import DecimalString.
From Stdlib Require DecimalFacts DecimalPos DecimalN.
From Stdlib Require Import Floats.SpecFloat.
Import ListNotations.

Open Scope string_scope.
Open Scope list_scope.
Open Scope Z_scope.

(** String concatenation, the [+] of the Arduino [String] class. *)
Infix "+++" := String.append (right associativity, at level 60).

(** ** Machine integers *)

Module CInt.

(** [unsigned long] and [uint32_t] on the ESP32: 32 bits, wrapping. *)
Definition to_uint32 (z : Z) : Z := z mod 2 ^ 32.

(** [u8g2_uint_t] (16 bits on this target) and [uint8_t]. *)
Definition to_uint16 (z : Z) : Z := z mod 2 ^ 16.
Definition to_uint8 (z : Z) : Z := z mod 2 ^ 8.

(** Conversion to a signed type of [w] bits keeps the low [w] bits. *)
Definition to_signed (w : Z) (z : Z) : Z :=
  (z + 2 ^ (w - 1)) mod 2 ^ w - 2 ^ (w - 1).

Definition to_int16 : Z -> Z := to_signed 16.
Definition to_int32 : Z -> Z := to_signed 32.

(** [int] arithmetic, wrapping to 32 bits. *)
Definition int_add (a b : Z) : Z := to_int32 (a + b).
Definition int_sub (a b : Z) : Z := to_int32 (a - b).
(** C division truncates toward zero. *)
Definition int_div (a b : Z) : Z := to_int32 (Z.quot a b).

(** [unsigned long] subtraction wraps around. *)
Definition ulong_sub (a b : Z) : Z := to_uint32 (a - b).

End CInt.

(** ** Text *)

Module Text.

(** The double quote and the line feed, which the sketch writes as
    escapes inside its literals. *)
Definition dq : string := String "034"%char EmptyString.
Definition nl : string := String "010"%char EmptyString.

(** The byte 0xB0 that the sketch writes as an escape in the format of
    the display line. *)
Definition xB0 : string := String "176"%char EmptyString.

(** [String(int)], [String(unsigned long)] and the [%d] conversion:
    decimal digits, with a minus sign for negative numbers. *)
Definition decimal (z : Z) : string := NilZero.string_of_int (Z.to_int z).

Fixpoint zeros (n : nat) : string :=
  match n with
  | O => EmptyString
  | S k => "0" +++ zeros k
  end.

(** The [%0<width>d] conversion of [sprintf]: the sign counts for the
    width and the zeros go between the sign and the digits. *)
Definition fmt_0d (width : nat) (z : Z) : string :=
  let ds := decimal (Z.abs z) in
  if z <? 0
  then "-" +++ zeros (width - 1 - String.length ds) +++ ds
  else zeros (width - String.length ds) +++ ds.

End Text.

(** ** Floating point *)

Module CFloat.

(** A C [float] is an IEEE-754 binary32 number. *)
Definition float := spec_float.

Definition isnan (f : float) : bool :=
  match f with
  | S754_nan => true
  | _ => false
  end.

(** Finite binary32 numbers with an integral value. *)
Definition of_Z (z : Z) : float := binary_normalize 24 128 z 0 false.

(** The value times ten, rounded to the nearest integer, ties to even. *)
Definition tenths (m : positive) (e : Z) : Z :=
  let n := 10 * Z.pos m in
  if 0 <=? e then n * 2 ^ e
  else
    let d := 2 ^ (- e) in
    let q := n / d in
    let r := n mod d in
    match 2 * r ?= d with
    | Lt => q
    | Gt => q + 1
    | Eq => if Z.even q then q else q + 1
    end.

Definition sign_text (s : bool) : string := if s then "-" else EmptyString.

(** Modelled from the spec: the Arduino core's [String(float, 1)] and the
    [%.1f] conversion of [sprintf] are platform code that is not in the
    repository; the spec describes the text they produce as
    "<value, 1 decimal>".  The model prints the value rounded to one
    decimal; the scenarios below only use values with an exact first
    decimal. *)
Definition fixed1 (f : float) : string :=
  match f with
  | S754_nan => "nan"
  | S754_infinity s => sign_text s +++ "inf"
  | S754_zero s => sign_text s +++ "0.0"
  | S754_finite s m e =>
      let t := tenths m e in
      sign_text s +++ Text.decimal (t / 10) +++ "." +++ Text.decimal (t mod 10)
  end.

End CFloat.

(** ** The platform *)

(** [wl_status_t] of the WiFi library. *)
Inductive wl_status_t :=
| WL_NO_SHIELD
| WL_IDLE_STATUS
| WL_NO_SSID_AVAIL
| WL_SCAN_COMPLETED
| WL_CONNECTED
| WL_CONNECT_FAILED
| WL_CONNECTION_LOST
| WL_DISCONNECTED.

(** [status == WL_CONNECTED] *)
Definition is_connected (s : wl_status_t) : bool :=
  match s with
  | WL_CONNECTED => true
  | _ => false
  end.

(** [HTTPMethod] of the WebServer library. *)
Inductive HTTPMethod :=
| HTTP_DELETE
| HTTP_GET
| HTTP_HEAD
| HTTP_POST
| HTTP_PUT
| HTTP_PATCH
| HTTP_OPTIONS.

(** [method == HTTP_GET] *)
Definition is_get (m : HTTPMethod) : bool :=
  match m with
  | HTTP_GET => true
  | _ => false
  end.

(** The three U8g2 fonts the sketch draws with. *)
Inductive font :=
| u8g2_font_ncenB08_tr
| u8g2_font_ncenB12_tf
| u8g2_font_ncenB18_tr.

Record IPAddress := mkIP { ip_a : Z; ip_b : Z; ip_c : Z; ip_d : Z }.

(** The fields of [struct tm] that the sketch reads. *)
Record tm := mkTm {
  tm_sec : Z;
  tm_min : Z;
  tm_hour : Z;
  tm_mday : Z;
  tm_mon : Z;
  tm_year : Z
}.

(** The fields as the [int] members of the C structure hold them. *)
Definition int_tm (t : tm) : tm :=
  {| tm_sec := CInt.to_int32 (tm_sec t);
     tm_min := CInt.to_int32 (tm_min t);
     tm_hour := CInt.to_int32 (tm_hour t);
     tm_mday := CInt.to_int32 (tm_mday t);
     tm_mon := CInt.to_int32 (tm_mon t);
     tm_year := CInt.to_int32 (tm_year t) |}.

(** The request the server is answering: what [server.uri()],
    [server.method()], [server.argName(i)] and [server.arg(i)] read. *)
Record Request := mkRequest {
  req_uri : string;
  req_method : HTTPMethod;
  req_args : list (string * string)
}.

(** An argument of [Serial.print] / [Serial.println]. *)
Inductive printable :=
| PStr (s : string)
| PNum (z : Z)
| PFloat (f : CFloat.float) (digits : Z)
| PIP (ip : IPAddress).

(** One call into the platform, with the value it returned where it
    returns one. *)
Inductive event :=
| EvWdtReset
| EvMillis (now : Z)
| EvDelay (ms : Z)
| EvRestart
| EvSerialPrint (x : printable)
| EvSerialPrintln (x : printable)
| EvWiFiStatus (s : wl_status_t)
| EvWiFiDisconnect
| EvWiFiBegin (ssid password : string)
| EvWiFiConfig (ip gw sn dns1 dns2 : IPAddress) (ok : bool)
| EvWiFiLocalIP (ip : IPAddress)
| EvConfigTime (gmtOffset daylightOffset : Z) (server : string)
| EvGetLocalTime (t : option tm)
| EvGetFreeHeap (bytes : Z)
| EvGetMinFreeHeap (bytes : Z)
| EvAhtGetEvent (humidity temp : CFloat.float)
| EvClearBuffer
| EvSetFont (f : font)
| EvGetUTF8Width (text : string) (w : Z)
| EvDrawStr (x y : Z) (text : string)
| EvSendBuffer
| EvHandleClient (r : option Request)
| EvSendHeader (name value : string)
| EvSend (code : Z) (content_type body : string).

(** What the platform answers.  Every answer may depend on the whole
    history of calls made so far. *)
Record Env := mkEnv {
  env_millis : list event -> Z;
  env_wifi_status : list event -> wl_status_t;
  env_wifi_config : list event -> bool;
  env_wifi_localIP : list event -> IPAddress;
  env_getLocalTime : list event -> option tm;
  env_freeHeap : list event -> Z;
  env_minFreeHeap : list event -> Z;
  env_aht : list event -> CFloat.float * CFloat.float;
  env_utf8_width : list event -> string -> Z;
  env_client : list event -> option Request
}.

(** ** Program state *)

(** The global variables of the sketch that change after start-up. *)
Record Globals := mkGlobals {
  currentTemperature : CFloat.float;
  currentHumidity : CFloat.float;
  currentTime : string;
  currentDate : string;
  firstDataReady : bool;
  lastWiFiCheck : Z;
  lastNTPCheck : Z;
  reconnectCount : Z
}.

(** The initializers of the globals. *)
Definition initial_globals : Globals :=
  {| currentTemperature := S754_zero false;
     currentHumidity := S754_zero false;
     currentTime := EmptyString;
     currentDate := EmptyString;
     firstDataReady := false;
     lastWiFiCheck := 0;
     lastNTPCheck := 0;
     reconnectCount := 0 |}.

(** The constants of the sketch. *)
Definition ssid : string := "jiajia".
Definition password : string := "9812061104".
Definition local_IP : IPAddress := mkIP 192 168 1 200.
Definition gateway : IPAddress := mkIP 192 168 1 1.
Definition subnet : IPAddress := mkIP 255 255 255 0.
Definition primaryDNS : IPAddress := mkIP 192 168 1 1.
Definition secondaryDNS : IPAddress := mkIP 8 8 8 8.
Definition ntpServer : string := "cn.pool.ntp.org".
Definition gmtOffset_sec : Z := 8 * 3600.
Definition daylightOffset_sec : Z := 0.
Definition wifiCheckInterval : Z := 30000.
Definition ntpCheckInterval : Z := 600000.
Definition maxReconnectCount : Z := 5.

(** The part of the globals that the HTTP handlers read. *)
Record SharedStatus := mkShared {
  sh_temperature : CFloat.float;
  sh_humidity : CFloat.float;
  sh_time : string;
  sh_date : string
}.

Definition shared (g : Globals) : SharedStatus :=
  {| sh_temperature := currentTemperature g;
     sh_humidity := currentHumidity g;
     sh_time := currentTime g;
     sh_date := currentDate g |}.

Definition set_lastWiFiCheck (v : Z) (g : Globals) : Globals :=
  {| currentTemperature := currentTemperature g;
     currentHumidity := currentHumidity g;
     currentTime := currentTime g;
     currentDate := currentDate g;
     firstDataReady := firstDataReady g;
     lastWiFiCheck := v;
     lastNTPCheck := lastNTPCheck g;
     reconnectCount := reconnectCount g |}.

Definition set_lastNTPCheck (v : Z) (g : Globals) : Globals :=
  {| currentTemperature := currentTemperature g;
     currentHumidity := currentHumidity g;
     currentTime := currentTime g;
     currentDate := currentDate g;
     firstDataReady := firstDataReady g;
     lastWiFiCheck := lastWiFiCheck g;
     lastNTPCheck := v;
     reconnectCount := reconnectCount g |}.

Definition set_reconnectCount (v : Z) (g : Globals) : Globals :=
  {| currentTemperature := currentTemperature g;
     currentHumidity := currentHumidity g;
     currentTime := currentTime g;
     currentDate := currentDate g;
     firstDataReady := firstDataReady g;
     lastWiFiCheck := lastWiFiCheck g;
     lastNTPCheck := lastNTPCheck g;
     reconnectCount := v |}.

(** [currentTemperature = temperature; currentHumidity = hum;] *)
Definition set_reading (t h : CFloat.float) (g : Globals) : Globals :=
  {| currentTemperature := t;
     currentHumidity := h;
     currentTime := currentTime g;
     currentDate := currentDate g;
     firstDataReady := firstDataReady g;
     lastWiFiCheck := lastWiFiCheck g;
     lastNTPCheck := lastNTPCheck g;
     reconnectCount := reconnectCount g |}.

(** What [currentTime] holds after a [sprintf] that fits. *)
Definition set_currentTime (time : string) (g : Globals) : Globals :=
  {| currentTemperature := currentTemperature g;
     currentHumidity := currentHumidity g;
     currentTime := time;
     currentDate := currentDate g;
     firstDataReady := firstDataReady g;
     lastWiFiCheck := lastWiFiCheck g;
     lastNTPCheck := lastNTPCheck g;
     reconnectCount := reconnectCount g |}.

(** What [currentDate] holds after a [sprintf] that fits. *)
Definition set_currentDate (date : string) (g : Globals) : Globals :=
  {| currentTemperature := currentTemperature g;
     currentHumidity := currentHumidity g;
     currentTime := currentTime g;
     currentDate := date;
     firstDataReady := firstDataReady g;
     lastWiFiCheck := lastWiFiCheck g;
     lastNTPCheck := lastNTPCheck g;
     reconnectCount := reconnectCount g |}.

(** [firstDataReady = true;] *)
Definition set_firstDataReady (g : Globals) : Globals :=
  {| currentTemperature := currentTemperature g;
     currentHumidity := currentHumidity g;
     currentTime := currentTime g;
     currentDate := currentDate g;
     firstDataReady := true;
     lastWiFiCheck := lastWiFiCheck g;
     lastNTPCheck := lastNTPCheck g;
     reconnectCount := reconnectCount g |}.

(** The globals after the four assignments and [firstDataReady = true] of a
    successful tick, when both texts fitted their buffers. *)
Definition set_status (t h : CFloat.float) (time date : string) (g : Globals)
  : Globals :=
  {| currentTemperature := t;
     currentHumidity := h;
     currentTime := time;
     currentDate := date;
     firstDataReady := true;
     lastWiFiCheck := lastWiFiCheck g;
     lastNTPCheck := lastNTPCheck g;
     reconnectCount := reconnectCount g |}.

(** ** Computations *)

(** How a computation ends: it returns, the device restarts
    ([ESP.restart()] does not return), a loop is still running when the
    fuel runs out, or the program leaves the behaviour that C defines (a
    [sprintf] writes past the end of its buffer): what the device does from
    there on is not modelled. *)
Inductive outcome (A : Type) :=
| Returned (a : A)
| Restarted
| OutOfFuel
| Undefined.

Arguments Returned {A} a.
Arguments Restarted {A}.
Arguments OutOfFuel {A}.
Arguments Undefined {A}.

Record Result (A : Type) := mkResult {
  res : outcome A;
  fin : Globals;
  out : list event
}.

Arguments mkResult {A} res fin out.
Arguments res {A} r.
Arguments fin {A} r.
Arguments out {A} r.

(** A computation reads the history of platform calls and the globals; it
    gives an outcome, the new globals and the calls it made. *)
Definition M (A : Type) : Type := list event -> Globals -> Result A.

Definition ret {A : Type} (a : A) : M A :=
  fun _ g => mkResult (Returned a) g [].

(** The result [r] of a continuation, after the calls [pre] made before
    it. *)
Definition extend {A : Type} (pre : list event) (r : Result A) : Result A :=
  mkResult (res r) (fin r) (pre ++ out r).

Definition bind {A B : Type} (m : M A) (k : A -> M B) : M B :=
  fun h g =>
    let r := m h g in
    match res r with
    | Returned a => extend (out r) (k a (h ++ out r) (fin r))
    | Restarted => mkResult Restarted (fin r) (out r)
    | OutOfFuel => mkResult OutOfFuel (fin r) (out r)
    | Undefined => mkResult Undefined (fin r) (out r)
    end.

Notation "x <- m ;; k" := (bind m (fun x => k))
  (at level 61, m at next level, right associativity).
Notation "m ;; k" := (bind m (fun _ => k))
  (at level 61, right associativity).

(** A platform call without a result. *)
Definition emit (e : event) : M unit :=
  fun _ g => mkResult (Returned tt) g [e].

(** A platform call whose result the environment chooses. *)
Definition ask {A : Type} (answer : list event -> A) (ev : A -> event) : M A :=
  fun h g => let a := answer h in mkResult (Returned a) g [ev a].

Definition get : M Globals :=
  fun _ g => mkResult (Returned g) g [].

Definition modify (f : Globals -> Globals) : M unit :=
  fun _ g => mkResult (Returned tt) (f g) [].

Definition no_return {A : Type} (e : event) : M A :=
  fun _ g => mkResult Restarted g [e].

Definition out_of_fuel {A : Type} : M A :=
  fun _ g => mkResult OutOfFuel g [].

Definition undefined {A : Type} : M A :=
  fun _ g => mkResult Undefined g [].

(** [sprintf(buffer, ...)] into [char buffer[size]], where the conversions
    give [text]: the text and its terminating zero fit when the text is
    shorter than [size]; then the buffer reads back as [text].  A longer
    text is written past the end of the buffer. *)
Definition sprintf (size : nat) (text : string) : M string :=
  if (String.length text <? size)%nat then ret text else undefined.

(** ** The sketch *)

Section Sketch.

Variable env : Env.

(** *** Platform calls *)

Definition esp_task_wdt_reset : M unit := emit EvWdtReset.

(** [millis()] returns an [unsigned long]. *)
Definition millis : M Z :=
  ask (fun h => CInt.to_uint32 (env_millis env h)) EvMillis.

Definition delay (ms : Z) : M unit := emit (EvDelay ms).

Definition ESP_restart {A : Type} : M A := no_return EvRestart.

Definition ESP_getFreeHeap : M Z :=
  ask (fun h => CInt.to_uint32 (env_freeHeap env h)) EvGetFreeHeap.

Definition ESP_getMinFreeHeap : M Z :=
  ask (fun h => CInt.to_uint32 (env_minFreeHeap env h)) EvGetMinFreeHeap.

Definition Serial_print (x : printable) : M unit := emit (EvSerialPrint x).
Definition Serial_println (x : printable) : M unit := emit (EvSerialPrintln x).

Definition WiFi_status : M wl_status_t := ask (env_wifi_status env) EvWiFiStatus.
Definition WiFi_disconnect : M unit := emit EvWiFiDisconnect.
Definition WiFi_begin (s p : string) : M unit := emit (EvWiFiBegin s p).
Definition WiFi_localIP : M IPAddress := ask (env_wifi_localIP env) EvWiFiLocalIP.

Definition WiFi_config (ip gw sn dns1 dns2 : IPAddress) : M bool :=
  ask (env_wifi_config env) (EvWiFiConfig ip gw sn dns1 dns2).

Definition configTime (gmt dst : Z) (server : string) : M unit :=
  emit (EvConfigTime gmt dst server).

(** [getLocalTime(&timeinfo)]: [Some] when it returns true; the fields of
    the [struct tm] that it fills are [int]. *)
Definition getLocalTime : M (option tm) :=
  ask (fun h => option_map int_tm (env_getLocalTime env h)) EvGetLocalTime.

(** [aht.getEvent(&humidity, &temp)]: the relative humidity and the
    temperature of the two events. *)
Definition aht_getEvent : M (CFloat.float * CFloat.float) :=
  ask (env_aht env) (fun ht => EvAhtGetEvent (fst ht) (snd ht)).

Definition display_clearBuffer : M unit := emit EvClearBuffer.
Definition display_setFont (f : font) : M unit := emit (EvSetFont f).
Definition display_sendBuffer : M unit := emit EvSendBuffer.

(** [display.drawStr(x, y, text)]: the coordinates are [u8g2_uint_t]. *)
Definition display_drawStr (x y : Z) (text : string) : M unit :=
  emit (EvDrawStr (CInt.to_uint16 x) (CInt.to_uint16 y) text).

(** [display.getUTF8Width(text)] returns a [u8g2_uint_t]. *)
Definition display_getUTF8Width (text : string) : M Z :=
  ask (fun h => CInt.to_uint16 (env_utf8_width env h text)) (EvGetUTF8Width text).

Definition server_sendHeader (name value : string) : M unit :=
  emit (EvSendHeader name value).

Definition server_send (code : Z) (content_type body : string) : M unit :=
  emit (EvSend code content_type body).

(** *** Network guardian *)

(** The polling loop of [checkWiFiConnection]:
    [while (WiFi.status() != WL_CONNECTED && retryTimeout > 0)].
    [retryTimeout] starts at 10 and counts down. *)
Fixpoint wifi_wait (retryTimeout : nat) : M unit :=
  st <- WiFi_status ;;
  match retryTimeout with
  | O => ret tt
  | S k =>
      if negb (is_connected st)
      then delay 1000 ;; Serial_print (PStr ".") ;; wifi_wait k
      else ret tt
  end.

Definition checkWiFiConnection : M unit :=
  currentMillis <- millis ;;
  g <- get ;;
  if wifiCheckInterval <=? CInt.ulong_sub currentMillis (lastWiFiCheck g) then
    modify (set_lastWiFiCheck currentMillis) ;;
    st <- WiFi_status ;;
    if negb (is_connected st) then
      Serial_println (PStr "WiFi disconnected! Attempting to reconnect...") ;;
      display_clearBuffer ;;
      display_setFont u8g2_font_ncenB08_tr ;;
      display_drawStr 0 15 "WiFi Lost!" ;;
      g <- get ;;
      display_drawStr 0 30
        ("Retry: " +++ Text.decimal (CInt.int_add (reconnectCount g) 1)) ;;
      display_sendBuffer ;;
      WiFi_disconnect ;;
      WiFi_begin ssid password ;;
      wifi_wait 10 ;;
      st <- WiFi_status ;;
      if is_connected st then
        Serial_println (PStr (Text.nl +++ "WiFi reconnected!")) ;;
        Serial_print (PStr "IP: ") ;;
        ip <- WiFi_localIP ;;
        Serial_println (PIP ip) ;;
        modify (set_reconnectCount 0) ;;
        ok <- WiFi_config local_IP gateway subnet primaryDNS secondaryDNS ;;
        if negb ok
        then Serial_println (PStr "Static IP configuration failed after reconnect")
        else ret tt
      else
        Serial_println (PStr (Text.nl +++ "WiFi reconnect failed!")) ;;
        modify (fun g => set_reconnectCount (CInt.int_add (reconnectCount g) 1) g) ;;
        g <- get ;;
        if maxReconnectCount <=? reconnectCount g then
          Serial_println (PStr "Max reconnect attempts reached. Restarting ESP32...") ;;
          display_clearBuffer ;;
          display_setFont u8g2_font_ncenB08_tr ;;
          display_drawStr 0 15 "WiFi Failed!" ;;
          display_drawStr 0 30 "Restarting..." ;;
          display_sendBuffer ;;
          delay 2000 ;;
          ESP_restart
        else ret tt
    else
      modify (set_reconnectCount 0)
  else ret tt.

(** *** Time guardian *)

Definition checkNTPSync : M unit :=
  currentMillis <- millis ;;
  g <- get ;;
  if ntpCheckInterval <=? CInt.ulong_sub currentMillis (lastNTPCheck g) then
    modify (set_lastNTPCheck currentMillis) ;;
    configTime gmtOffset_sec daylightOffset_sec ntpServer ;;
    t <- getLocalTime ;;
    match t with
    | Some _ => Serial_println (PStr "NTP time sync successful")
    | None => Serial_println (PStr "NTP time sync failed")
    end
  else ret tt.

(** *** Memory guardian *)

Definition checkMemory : M unit :=
  freeHeap <- ESP_getFreeHeap ;;
  minFreeHeap <- ESP_getMinFreeHeap ;;
  if freeHeap <? 30000 then
    Serial_print (PStr "WARNING: Low memory! Free: ") ;;
    Serial_print (PNum freeHeap) ;;
    Serial_print (PStr " bytes, Min: ") ;;
    Serial_print (PNum minFreeHeap) ;;
    Serial_println (PStr " bytes") ;;
    display_clearBuffer ;;
    display_setFont u8g2_font_ncenB08_tr ;;
    display_drawStr 0 15 "Low Memory!" ;;
    display_drawStr 0 30 ("Free: " +++ Text.decimal (freeHeap / 1024) +++ "KB") ;;
    display_sendBuffer ;;
    delay 2000
  else ret tt.

(** *** Presentation *)

(** [int16_t x = (128 - textWidth) / 2] for an [int16_t textWidth]. *)
Definition centered_x (textWidth : Z) : Z :=
  CInt.to_int16 (CInt.int_div (CInt.int_sub 128 textWidth) 2).

Definition printCentered (text : string) (y : Z) (f : font) : M unit :=
  display_setFont f ;;
  w <- display_getUTF8Width text ;;
  let textWidth := CInt.to_int16 w in
  let x := centered_x textWidth in
  display_drawStr x y text.

End Sketch.

(** *** Status server *)

(** The page that [handleRoot] builds, one element for each statement
    that appends to [html]; [temperature] and [humidity] stand for
    [String(currentTemperature, 1)] and [String(currentHumidity, 1)], [time]
    and [date] for [String(currentTime)] and [String(currentDate)]. *)
Definition root_html (temperature humidity time date : string) : string :=
  String.concat EmptyString [
    "<!DOCTYPE html>" +++ Text.nl;
    "<html>" +++ Text.nl +++ "<head>" +++ Text.nl;
    "<meta charset=" +++ Text.dq +++ "UTF-8" +++ Text.dq +++ ">" +++ Text.nl;
    "<meta name=" +++ Text.dq +++ "viewport" +++ Text.dq +++ " content=" +++ Text.dq +++ "width=device-width, initial-scale=1.0" +++ Text.dq +++ ">" +++ Text.nl;
    "<title>ESP32 温湿度监控</title>" +++ Text.nl;
    "<style>" +++ Text.nl;
    "body { font-family: Arial, sans-serif; margin: 0; padding: 20px; ";
    "background: linear-gradient(135deg, #667eea 0%, #764ba2 100%); ";
    "min-height: 100vh; display: flex; justify-content: center; align-items: center; }" +++ Text.nl;
    ".container { background: white; padding: 30px; border-radius: 20px; ";
    "box-shadow: 0 10px 40px rgba(0,0,0,0.2); max-width: 400px; width: 100%; text-align: center; }" +++ Text.nl;
    "h1 { color: #333; margin-bottom: 10px; font-size: 28px; }" +++ Text.nl;
    ".data-row { display: flex; justify-content: space-around; margin: 20px 0; }" +++ Text.nl;
    ".data-item { flex: 1; }" +++ Text.nl;
    ".data-value { font-size: 48px; font-weight: bold; margin: 10px 0; }" +++ Text.nl;
    ".data-label { font-size: 14px; color: #888; }" +++ Text.nl;
    ".hum-color { color: #3498db; }" +++ Text.nl;
    ".time { font-size: 24px; color: #666; margin: 10px 0; }" +++ Text.nl;
    ".date { font-size: 18px; color: #888; margin-bottom: 20px; }" +++ Text.nl;
    ".icon { font-size: 60px; margin-bottom: 10px; }" +++ Text.nl;
    ".refresh-info { font-size: 12px; color: #aaa; margin-top: 20px; }" +++ Text.nl;
    ".unit { font-size: 24px; }" +++ Text.nl;
    "</style>" +++ Text.nl;
    "<script>" +++ Text.nl;
    "const temperature = " +++ temperature +++ ";" +++ Text.nl;
    "let tempColor = '';" +++ Text.nl;
    "if (temperature < 20) {" +++ Text.nl;
    "  tempColor = '#3498db';" +++ Text.nl;
    "} else if (temperature >= 20 && temperature < 30) {" +++ Text.nl;
    "  const ratio = (temperature - 20) / 10;" +++ Text.nl;
    "  const r = Math.round(241 + ratio * (230 - 241));" +++ Text.nl;
    "  const g = Math.round(196 + ratio * (126 - 196));" +++ Text.nl;
    "  const b = Math.round(15 + ratio * (34 - 15));" +++ Text.nl;
    "  tempColor = 'rgb(' + r + ',' + g + ',' + b + ')';" +++ Text.nl;
    "} else {" +++ Text.nl;
    "  tempColor = '#e74c3c';" +++ Text.nl;
    "}" +++ Text.nl;
    "document.addEventListener('DOMContentLoaded', function() {" +++ Text.nl;
    "  document.querySelectorAll('.temp-color').forEach(el => el.style.color = tempColor);" +++ Text.nl;
    "});" +++ Text.nl;
    "setTimeout(function(){location.reload();}, 3000);" +++ Text.nl;
    "</script>" +++ Text.nl;
    "</head>" +++ Text.nl +++ "<body>" +++ Text.nl;
    "<div class=" +++ Text.dq +++ "container" +++ Text.dq +++ ">" +++ Text.nl;
    "<div class=" +++ Text.dq +++ "icon" +++ Text.dq +++ ">🌡️</div>" +++ Text.nl;
    "<h1>实时温湿度监控</h1>" +++ Text.nl;
    "<div class=" +++ Text.dq +++ "date" +++ Text.dq +++ ">" +++ date +++ "</div>" +++ Text.nl;
    "<div class=" +++ Text.dq +++ "time" +++ Text.dq +++ ">" +++ time +++ "</div>" +++ Text.nl;
    "<div class=" +++ Text.dq +++ "data-row" +++ Text.dq +++ ">" +++ Text.nl;
    "<div class=" +++ Text.dq +++ "data-item" +++ Text.dq +++ ">" +++ Text.nl;
    "<div class=" +++ Text.dq +++ "data-value temp-color" +++ Text.dq +++ ">" +++ temperature +++ "<span class=" +++ Text.dq +++ "unit" +++ Text.dq +++ ">°C</span></div>" +++ Text.nl;
    "<div class=" +++ Text.dq +++ "data-label" +++ Text.dq +++ ">温度</div>" +++ Text.nl;
    "</div>" +++ Text.nl;
    "<div class=" +++ Text.dq +++ "data-item" +++ Text.dq +++ ">" +++ Text.nl;
    "<div class=" +++ Text.dq +++ "data-value hum-color" +++ Text.dq +++ ">" +++ humidity +++ "<span class=" +++ Text.dq +++ "unit" +++ Text.dq +++ ">%</span></div>" +++ Text.nl;
    "<div class=" +++ Text.dq +++ "data-label" +++ Text.dq +++ ">湿度</div>" +++ Text.nl;
    "</div>" +++ Text.nl;
    "</div>" +++ Text.nl;
    "<div class=" +++ Text.dq +++ "refresh-info" +++ Text.dq +++ ">页面每3秒自动刷新</div>" +++ Text.nl;
    "</div>" +++ Text.nl;
    "</body>" +++ Text.nl +++ "</html>" +++ Text.nl
  ].

Section Server.

Variable env : Env.

Definition cors_headers : M unit :=
  server_sendHeader "Access-Control-Allow-Origin" "*" ;;
  server_sendHeader "Access-Control-Allow-Methods" "GET, POST, OPTIONS" ;;
  server_sendHeader "Access-Control-Allow-Headers" "Content-Type".

Definition handleRoot : M unit :=
  cors_headers ;;
  g <- get ;;
  let html :=
    root_html (CFloat.fixed1 (currentTemperature g))
              (CFloat.fixed1 (currentHumidity g))
              (currentTime g) (currentDate g) in
  server_send 200 "text/html" html.

Definition handleTemperature : M unit :=
  cors_headers ;;
  g <- get ;;
  let tempText := CFloat.fixed1 (currentTemperature g) +++ "°C" in
  server_send 200 "text/plain" tempText.

Definition handleHumidity : M unit :=
  cors_headers ;;
  g <- get ;;
  let humText := CFloat.fixed1 (currentHumidity g) +++ "%" in
  server_send 200 "text/plain" humText.

(** The text that [handleJson] builds, statement by statement. *)
Definition json_text (g : Globals) : string :=
  let json := "{" in
  let json := json +++ Text.dq +++ "temperature" +++ Text.dq +++ ": "
                   +++ CFloat.fixed1 (currentTemperature g) +++ "," in
  let json := json +++ Text.dq +++ "humidity" +++ Text.dq +++ ": "
                   +++ CFloat.fixed1 (currentHumidity g) +++ "," in
  let json := json +++ Text.dq +++ "time" +++ Text.dq +++ ": " +++ Text.dq
                   +++ currentTime g +++ Text.dq +++ "," in
  let json := json +++ Text.dq +++ "date" +++ Text.dq +++ ": " +++ Text.dq
                   +++ currentDate g +++ Text.dq +++ "," in
  let json := json +++ Text.dq +++ "status" +++ Text.dq +++ ": " +++ Text.dq
                   +++ "ok" +++ Text.dq in
  json +++ "}".

Definition handleJson : M unit :=
  cors_headers ;;
  g <- get ;;
  server_send 200 "application/json" (json_text g).

(** [(server.method() == HTTP_GET) ? "GET" : "POST"] *)
Definition method_text (m : HTTPMethod) : string :=
  if is_get m then "GET" else "POST".

(** [server.args()], an [int]. *)
Definition server_args (r : Request) : Z := Z.of_nat (List.length (req_args r)).

(** [server.argName(i)] and [server.arg(i)]; both are empty outside the
    argument list. *)
Definition server_argName (r : Request) (i : Z) : string :=
  fst (nth (Z.to_nat i) (req_args r) (EmptyString, EmptyString)).

Definition server_arg (r : Request) (i : Z) : string :=
  snd (nth (Z.to_nat i) (req_args r) (EmptyString, EmptyString)).

(** [for (uint8_t i = 0; i < server.args(); i++)]: the counter wraps at
    256, so the loop does not end when there are more than 255 arguments;
    [fuel] bounds the number of tests of the condition. *)
Fixpoint notFound_args (fuel : nat) (r : Request) (i : Z) (message : string)
  : option string :=
  match fuel with
  | O => None
  | S k =>
      if i <? server_args r
      then notFound_args k r (CInt.to_uint8 (i + 1))
             (message +++ " " +++ server_argName r i +++ ": "
                      +++ server_arg r i +++ Text.nl)
      else Some message
  end.

(** The message before the argument loop. *)
Definition notFound_head (r : Request) : string :=
  let message := "404 Not Found" +++ Text.nl +++ Text.nl in
  let message := message +++ "URI: " +++ req_uri r +++ Text.nl in
  let message := message +++ "Method: " +++ method_text (req_method r) +++ Text.nl in
  message +++ "Arguments: " +++ Text.decimal (server_args r) +++ Text.nl.

Definition handleNotFound (fuel : nat) (r : Request) : M unit :=
  match notFound_args fuel r 0 (notFound_head r) with
  | Some message => server_send 404 "text/plain" message
  | None => out_of_fuel
  end.

(** The routes that [setup] registers with [server.on]. *)
Definition routes : list (string * M unit) :=
  [ ("/", handleRoot);
    ("/temperature", handleTemperature);
    ("/humidity", handleHumidity);
    ("/json", handleJson) ].

Fixpoint find_route (uri : string) (rs : list (string * M unit)) : option (M unit) :=
  match rs with
  | [] => None
  | (path, handler) :: rest =>
      if String.eqb uri path then Some handler else find_route uri rest
  end.

(** [server.handleClient()]: when a request is pending, the handler
    registered for its path runs, [handleNotFound] (registered with
    [server.onNotFound]) when there is none. *)
Definition server_handleClient (fuel : nat) : M unit :=
  pending <- ask (env_client env) EvHandleClient ;;
  match pending with
  | None => ret tt
  | Some r =>
      match find_route (req_uri r) routes with
      | Some handler => handler
      | None => handleNotFound fuel r
      end
  end.

(** *** The tick *)

(** [sprintf] with the format [%02d:%02d:%02d]. *)
Definition format_time (t : tm) : string :=
  Text.fmt_0d 2 (tm_hour t) +++ ":" +++
  Text.fmt_0d 2 (tm_min t) +++ ":" +++
  Text.fmt_0d 2 (tm_sec t).

(** [sprintf] with the format [%04d-%02d-%02d], on [tm_year + 1900],
    [tm_mon + 1] and [tm_mday]. *)
Definition format_date (t : tm) : string :=
  Text.fmt_0d 4 (CInt.int_add (tm_year t) 1900) +++ "-" +++
  Text.fmt_0d 2 (CInt.int_add (tm_mon t) 1) +++ "-" +++
  Text.fmt_0d 2 (tm_mday t).

(** The text of the third display line:
    [sprintf(tempHumStr, "%.1f\xB0" "C  %.1f%%", temperature, hum)]. *)
Definition tempHum_text (hum temp : CFloat.float) : string :=
  CFloat.fixed1 temp +++ Text.xB0 +++ "C  " +++ CFloat.fixed1 hum +++ "%".

Definition loop (fuel : nat) : M unit :=
  esp_task_wdt_reset ;;
  checkWiFiConnection env ;;
  checkNTPSync env ;;
  checkMemory env ;;
  t <- getLocalTime env ;;
  match t with
  | None =>
      Serial_println (PStr "Failed to obtain time") ;;
      display_clearBuffer ;;
      display_setFont u8g2_font_ncenB08_tr ;;
      display_drawStr 0 32 "Syncing Time..." ;;
      display_sendBuffer ;;
      delay 500
  | Some timeinfo =>
      ht <- aht_getEvent env ;;
      let temperature := snd ht in
      let hum := fst ht in
      Serial_print (PStr "Temperature: ") ;;
      Serial_print (PFloat temperature 2) ;;
      Serial_print (PStr "°C, Humidity: ") ;;
      Serial_print (PFloat hum 2) ;;
      Serial_println (PStr "%") ;;
      if CFloat.isnan temperature || CFloat.isnan hum then
        Serial_println (PStr "Error: AHT20 reading invalid!") ;;
        display_clearBuffer ;;
        display_setFont u8g2_font_ncenB08_tr ;;
        display_drawStr 0 15 "Sensor Error!" ;;
        display_sendBuffer ;;
        delay 2000
      else
        modify (set_reading temperature hum) ;;
        time <- sprintf 32 (format_time timeinfo) ;;
        modify (set_currentTime time) ;;
        date <- sprintf 32 (format_date timeinfo) ;;
        modify (set_currentDate date) ;;
        modify set_firstDataReady ;;
        display_clearBuffer ;;
        dateStr <- sprintf 20 (format_date timeinfo) ;;
        printCentered env dateStr 12 u8g2_font_ncenB08_tr ;;
        timeStr <- sprintf 16 (format_time timeinfo) ;;
        printCentered env timeStr 38 u8g2_font_ncenB18_tr ;;
        tempHumStr <- sprintf 30 (tempHum_text hum temperature) ;;
        printCentered env tempHumStr 60 u8g2_font_ncenB12_tf ;;
        display_sendBuffer ;;
        Serial_print (PStr "Time: ") ;;
        Serial_print (PStr timeStr) ;;
        Serial_print (PStr "  Temp: ") ;;
        Serial_print (PFloat temperature 2) ;;
        Serial_print (PStr " C  WiFi: ") ;;
        st <- WiFi_status env ;;
        Serial_println (PStr (if is_connected st then "OK" else "LOST")) ;;
        server_handleClient fuel ;;
        delay 1000
  end.

End Server.

(** ** Runs and observations *)

(** [n] calls of a guardian in a row; a restart ends the run. *)
Fixpoint times (n : nat) (m : M unit) : M unit :=
  match n with
  | O => ret tt
  | S k => m ;; times k m
  end.

(** The results of up to [n] consecutive calls of the network guardian,
    one for each call made; no call follows a call that did not return. *)
Fixpoint guardian_calls (env : Env) (n : nat) (h : list event) (g : Globals)
  : list (Result unit) :=
  match n with
  | O => []
  | S k =>
      let r := checkWiFiConnection env h g in
      r :: match res r with
           | Returned _ => guardian_calls env k (h ++ out r) (fin r)
           | _ => []
           end
  end.

(** [n] ticks in a row. *)
Definition ticks (env : Env) (fuel : nat) (n : nat) : M unit :=
  times n (loop env fuel).

Definition is_restart (e : event) : bool :=
  match e with
  | EvRestart => true
  | _ => false
  end.

(** How often a trace asks for a device restart. *)
Definition restarts (tr : list event) : nat := List.length (filter is_restart tr).

Definition is_heap_sample (e : event) : bool :=
  match e with
  | EvGetFreeHeap _ => true
  | _ => false
  end.

(** How often a trace samples the free memory. *)
Definition heap_samples (tr : list event) : nat :=
  List.length (filter is_heap_sample tr).

(** The two visible parts of the low-memory warning: the serial line and
    the warning screen. *)
Definition is_memory_warning (e : event) : bool :=
  match e with
  | EvSerialPrint (PStr s) => String.eqb s "WARNING: Low memory! Free: "
  | EvDrawStr _ _ s => String.eqb s "Low Memory!"
  | _ => false
  end.

Definition warns_low_memory (tr : list event) : bool :=
  existsb is_memory_warning tr.

(** The link status that a trace observed last. *)
Definition last_status (tr : list event) : option wl_status_t :=
  fold_left (fun acc e => match e with
                          | EvWiFiStatus s => Some s
                          | _ => acc
                          end) tr None.

Definition is_begin (e : event) : bool :=
  match e with
  | EvWiFiBegin _ _ => true
  | _ => false
  end.

(** What one call of the network guardian did, read off the platform calls
    it made: nothing (not due), found the link up, reconnected, or failed
    to reconnect. *)
Inductive verdict :=
| NotDue
| LinkUp
| Reconnected
| ReconnectFailed.

Definition verdict_of (tr : list event) : verdict :=
  match last_status tr with
  | None => NotDue
  | Some s =>
      if existsb is_begin tr
      then if is_connected s then Reconnected else ReconnectFailed
      else LinkUp
  end.

(** The number of consecutive reconnect failures after one more call. *)
Definition streak_after (c : Z) (v : verdict) : Z :=
  match v with
  | NotDue => c
  | LinkUp => 0
  | Reconnected => 0
  | ReconnectFailed => c + 1
  end.

Definition failure_streak (c : Z) (vs : list verdict) : Z :=
  fold_left streak_after vs c.

Definition is_handle_client (e : event) : bool :=
  match e with
  | EvHandleClient _ => true
  | _ => false
  end.

Definition is_sensor_read (e : event) : bool :=
  match e with
  | EvAhtGetEvent _ _ => true
  | _ => false
  end.

(** An HTTP answer: [server.send]. *)
Definition is_answer (e : event) : bool :=
  match e with
  | EvSend _ _ _ => true
  | _ => false
  end.

(** [WiFi.config], the static network configuration. *)
Definition is_config (e : event) : bool :=
  match e with
  | EvWiFiConfig _ _ _ _ _ _ => true
  | _ => false
  end.

(** ** Scenarios *)

(** A platform on which nothing is due: the clock stands at 0, the link is
    up, the time is known, memory is plentiful and no request is pending. *)
Definition calm_env : Env :=
  {| env_millis := fun _ => 0;
     env_wifi_status := fun _ => WL_CONNECTED;
     env_wifi_config := fun _ => true;
     env_wifi_localIP := fun _ => local_IP;
     env_getLocalTime := fun _ => Some (mkTm 0 30 14 4 6 125);
     env_freeHeap := fun _ => 200000;
     env_minFreeHeap := fun _ => 150000;
     env_aht := fun _ => (CFloat.of_Z 60, CFloat.of_Z 25);
     env_utf8_width := fun _ _ => 50;
     env_client := fun _ => None |}.

(** The calm platform with a sensor that answers NaN. *)
Definition faulty_sensor_env : Env :=
  {| env_millis := env_millis calm_env;
     env_wifi_status := env_wifi_status calm_env;
     env_wifi_config := env_wifi_config calm_env;
     env_wifi_localIP := env_wifi_localIP calm_env;
     env_getLocalTime := env_getLocalTime calm_env;
     env_freeHeap := env_freeHeap calm_env;
     env_minFreeHeap := env_minFreeHeap calm_env;
     env_aht := fun _ => (CFloat.of_Z 60, S754_nan);
     env_utf8_width := env_utf8_width calm_env;
     env_client := fun _ => Some (mkRequest "/json" HTTP_GET []) |}.

(** A platform whose link [status] never changes and whose clock advances
    by a full check interval with every platform call. *)
Definition link_env (status : wl_status_t) : Env :=
  {| env_millis := fun h => 30000 * (1 + Z.of_nat (List.length h));
     env_wifi_status := fun _ => status;
     env_wifi_config := env_wifi_config calm_env;
     env_wifi_localIP := env_wifi_localIP calm_env;
     env_getLocalTime := env_getLocalTime calm_env;
     env_freeHeap := env_freeHeap calm_env;
     env_minFreeHeap := env_minFreeHeap calm_env;
     env_aht := env_aht calm_env;
     env_utf8_width := env_utf8_width calm_env;
     env_client := env_client calm_env |}.

(** A platform whose link is down until the sketch calls [WiFi.begin] and
    up from then on; the network check is due at once. *)
Definition recovering_env : Env :=
  {| env_millis := fun _ => 30000;
     env_wifi_status :=
       fun h => if (List.length (filter is_begin h) =? 0)%nat
                then WL_DISCONNECTED
                else WL_CONNECTED;
     env_wifi_config := env_wifi_config calm_env;
     env_wifi_localIP := env_wifi_localIP calm_env;
     env_getLocalTime := env_getLocalTime calm_env;
     env_freeHeap := env_freeHeap calm_env;
     env_minFreeHeap := env_minFreeHeap calm_env;
     env_aht := env_aht calm_env;
     env_utf8_width := env_utf8_width calm_env;
     env_client := env_client calm_env |}.


(** The stored state of the end-to-end scenario: 25.0 degrees, 60.0
    percent, 14:30:00 on 2025-07-04. *)
Definition scenario_globals : Globals :=
  set_status (CFloat.of_Z 25) (CFloat.of_Z 60) "14:30:00" "2025-07-04"
    initial_globals.

(** The body that the spec gives for the scenario, without blanks. *)
Definition compact_json_body : string :=
  "{" +++ Text.dq +++ "temperature" +++ Text.dq +++ ":25.0,"
      +++ Text.dq +++ "humidity" +++ Text.dq +++ ":60.0,"
      +++ Text.dq +++ "time" +++ Text.dq +++ ":" +++ Text.dq +++ "14:30:00" +++ Text.dq +++ ","
      +++ Text.dq +++ "date" +++ Text.dq +++ ":" +++ Text.dq +++ "2025-07-04" +++ Text.dq +++ ","
      +++ Text.dq +++ "status" +++ Text.dq +++ ":" +++ Text.dq +++ "ok" +++ Text.dq +++ "}".

(** The same record with one blank after the colon of every key. *)
Definition spaced_json_body (temperature humidity time date : string) : string :=
  "{" +++ Text.dq +++ "temperature" +++ Text.dq +++ ": " +++ temperature +++ ","
      +++ Text.dq +++ "humidity" +++ Text.dq +++ ": " +++ humidity +++ ","
      +++ Text.dq +++ "time" +++ Text.dq +++ ": " +++ Text.dq +++ time +++ Text.dq +++ ","
      +++ Text.dq +++ "date" +++ Text.dq +++ ": " +++ Text.dq +++ date +++ Text.dq +++ ","
      +++ Text.dq +++ "status" +++ Text.dq +++ ": " +++ Text.dq +++ "ok" +++ Text.dq +++ "}".

(** The three cross-origin headers that every handler of a registered
    route sends first. *)
Definition cors_events : list event :=
  [ EvSendHeader "Access-Control-Allow-Origin" "*";
    EvSendHeader "Access-Control-Allow-Methods" "GET, POST, OPTIONS";
    EvSendHeader "Access-Control-Allow-Headers" "Content-Type" ].

(** [occurs part text]: the text [part] is found somewhere in [text]. *)
Fixpoint occurs (part text : string) : bool :=
  String.prefix part text ||
  match text with
  | EmptyString => false
  | String _ rest => occurs part rest
  end.

(** The places of the status page that show a value, as they read while
    the globals still hold their initializers: the script constant, the date
    and the time lines (empty), and the two readings. *)
Definition not_ready_fragments : list string :=
  [ "const temperature = 0.0;";
    "<div class=" +++ Text.dq +++ "date" +++ Text.dq +++ "></div>";
    "<div class=" +++ Text.dq +++ "time" +++ Text.dq +++ "></div>";
    "<div class=" +++ Text.dq +++ "data-value temp-color" +++ Text.dq
      +++ ">0.0<span class=" +++ Text.dq +++ "unit" +++ Text.dq +++ ">°C</span></div>";
    "<div class=" +++ Text.dq +++ "data-value hum-color" +++ Text.dq
      +++ ">0.0<span class=" +++ Text.dq +++ "unit" +++ Text.dq +++ ">%</span></div>" ].

(** The JSON record as it reads while the globals still hold their
    initializers. *)
Definition not_ready_json : string :=
  "{" +++ Text.dq +++ "temperature" +++ Text.dq +++ ": 0.0,"
      +++ Text.dq +++ "humidity" +++ Text.dq +++ ": 0.0,"
      +++ Text.dq +++ "time" +++ Text.dq +++ ": " +++ Text.dq +++ Text.dq +++ ","
      +++ Text.dq +++ "date" +++ Text.dq +++ ": " +++ Text.dq +++ Text.dq +++ ","
      +++ Text.dq +++ "status" +++ Text.dq +++ ": " +++ Text.dq +++ "ok" +++ Text.dq +++ "}".

(** ** Frame conditions *)

(** [m] relates the globals before and after by [R], however it ends. *)
Definition preserves {A : Type} (R : Globals -> Globals -> Prop) (m : M A) : Prop :=
  forall h g, R g (fin (m h g)).

(** Every platform call of [m] satisfies [P]. *)
Definition emits {A : Type} (P : event -> Prop) (m : M A) : Prop :=
  forall h g, Forall P (out (m h g)).

(** [m] always returns: no restart, no endless loop. *)
Definition always_returns (m : M unit) : Prop :=
  forall h g, res (m h g) = Returned tt.

(** The shared status and the first-data flag are the same in [g'] as in
    [g]. *)
Definition same_status (g g' : Globals) : Prop :=
  shared g' = shared g /\ firstDataReady g' = firstDataReady g.

(** The calls that only the tick itself makes, never a guardian: reading
    the sensor and serving the HTTP client. *)
Definition guardian_event (e : event) : Prop :=
  is_sensor_read e = false /\ is_handle_client e = false.

(** The calls of the polling loop of the network guardian are none of
    these. *)
Definition wait_event (e : event) : Prop :=
  is_restart e = false /\ is_begin e = false /\ guardian_event e.

(** The globals are untouched. *)
Definition untouched (g g' : Globals) : Prop := g' = g.

Definition no_sensor_read (e : event) : Prop := is_sensor_read e = false.

(** ** The calls of a tick after the guardians *)

(** The tick when [getLocalTime] fails. *)
Definition time_fault_events : list event :=
  [ EvGetLocalTime None;
    EvSerialPrintln (PStr "Failed to obtain time");
    EvClearBuffer;
    EvSetFont u8g2_font_ncenB08_tr;
    EvDrawStr 0 32 "Syncing Time...";
    EvSendBuffer;
    EvDelay 500 ].

(** The tick from the sensor reading on, when the reading is invalid. *)
Definition sensor_fault_events (hum temp : CFloat.float) : list event :=
  [ EvAhtGetEvent hum temp;
    EvSerialPrint (PStr "Temperature: ");
    EvSerialPrint (PFloat temp 2);
    EvSerialPrint (PStr "°C, Humidity: ");
    EvSerialPrint (PFloat hum 2);
    EvSerialPrintln (PStr "%");
    EvSerialPrintln (PStr "Error: AHT20 reading invalid!");
    EvClearBuffer;
    EvSetFont u8g2_font_ncenB08_tr;
    EvDrawStr 0 15 "Sensor Error!";
    EvSendBuffer;
    EvDelay 2000 ].


(** ** More observations on traces *)

Definition sleep_of (e : event) : Z :=
  match e with
  | EvDelay ms => ms
  | _ => 0
  end.

(** The milliseconds that a trace spends in [delay]. *)
Definition sleep_ms (tr : list event) : Z :=
  fold_right (fun e acc => sleep_of e + acc) 0 tr.

Definition is_wdt_reset (e : event) : bool :=
  match e with
  | EvWdtReset => true
  | _ => false
  end.

(** How often a trace feeds the watchdog. *)
Definition wdt_feeds (tr : list event) : nat :=
  List.length (filter is_wdt_reset tr).

Definition is_status_poll (e : event) : bool :=
  match e with
  | EvWiFiStatus _ => true
  | _ => false
  end.

(** How often a trace reads the link status. *)
Definition status_polls (tr : list event) : nat :=
  List.length (filter is_status_poll tr).

Definition is_delay (e : event) : bool :=
  match e with
  | EvDelay _ => true
  | _ => false
  end.

Definition is_send_header (e : event) : bool :=
  match e with
  | EvSendHeader _ _ => true
  | _ => false
  end.

Definition is_time_query (e : event) : bool :=
  match e with
  | EvGetLocalTime _ => true
  | _ => false
  end.

(** How often a trace asks for the time. *)
Definition time_queries (tr : list event) : nat :=
  List.length (filter is_time_query tr).

(** The delays between consecutive watchdog feeds: the milliseconds slept
    before the first feed (on top of [acc]), between each feed and the next,
    and after the last one. *)
Fixpoint sleep_gaps (tr : list event) (acc : Z) : list Z :=
  match tr with
  | [] => [acc]
  | EvWdtReset :: rest => acc :: sleep_gaps rest 0
  | e :: rest => sleep_gaps rest (acc + sleep_of e)
  end.

(** Calls that are neither a watchdog feed nor a delay. *)
Definition plain_event (e : event) : Prop :=
  is_wdt_reset e = false /\ is_delay e = false.

(** Calls that a handler may make: no watchdog feed, no delay, no sensor
    reading, no nested [handleClient]. *)
Definition handler_event (e : event) : Prop :=
  plain_event e /\ guardian_event e.

(** ** Ownership of the globals *)

(** Only [lastWiFiCheck] and [reconnectCount] may differ. *)
Definition network_fields_only (g g' : Globals) : Prop :=
  same_status g g' /\ lastNTPCheck g' = lastNTPCheck g.

(** Only [lastNTPCheck] may differ. *)
Definition time_field_only (g g' : Globals) : Prop :=
  same_status g g' /\
  lastWiFiCheck g' = lastWiFiCheck g /\
  reconnectCount g' = reconnectCount g.

(** Once a reading is stored the first-data flag stays set. *)
Definition stays_ready (g g' : Globals) : Prop :=
  firstDataReady g = true -> firstDataReady g' = true.

(** The published temperature and humidity are numbers. *)
Definition valid_status (g : Globals) : Prop :=
  CFloat.isnan (currentTemperature g) = false /\
  CFloat.isnan (currentHumidity g) = false.

Definition keeps_valid (g g' : Globals) : Prop :=
  valid_status g -> valid_status g'.

(** ** The argument lines of the 404 page *)

Definition arg_line (a : string * string) : string :=
  " " +++ fst a +++ ": " +++ snd a +++ Text.nl.

Fixpoint arg_lines (args : list (string * string)) : string :=
  match args with
  | [] => EmptyString
  | a :: rest => arg_line a +++ arg_lines rest
  end.

(** ** The calls of a successful tick *)

(** A calendar time whose fields print in the widths of the formats: two
    digits for hour, minute, second, day and month, four for the year. *)
Definition calendar_time (t : tm) : Prop :=
  0 <= tm_hour t < 100 /\ 0 <= tm_min t < 100 /\ 0 <= tm_sec t < 100 /\
  0 <= tm_mday t < 100 /\ 0 <= tm_mon t <= 11 /\ -1900 <= tm_year t <= 8099.

(** The three texts of a tick fit the local buffers [timeStr[16]],
    [dateStr[20]] and [tempHumStr[30]], and so also the 32 bytes of
    [currentTime] and [currentDate]. *)
Definition texts_fit (t : tm) (hum temp : CFloat.float) : bool :=
  (String.length (format_time t) <? 16)%nat &&
  (String.length (format_date t) <? 20)%nat &&
  (String.length (tempHum_text hum temp) <? 30)%nat.

(** The platform calls of a tick from the sensor reading up to the call of
    [server.handleClient()], when the reading is valid: [w1], [w2] and [w3]
    are the measured widths of the three lines and [st] the link status
    read for the serial log. *)
Definition success_events (t : tm) (hum temp : CFloat.float)
  (w1 w2 w3 : Z) (st : wl_status_t) : list event :=
  [ EvAhtGetEvent hum temp;
    EvSerialPrint (PStr "Temperature: ");
    EvSerialPrint (PFloat temp 2);
    EvSerialPrint (PStr "°C, Humidity: ");
    EvSerialPrint (PFloat hum 2);
    EvSerialPrintln (PStr "%");
    EvClearBuffer;
    EvSetFont u8g2_font_ncenB08_tr;
    EvGetUTF8Width (format_date t) w1;
    EvDrawStr (CInt.to_uint16 (centered_x (CInt.to_int16 w1))) 12 (format_date t);
    EvSetFont u8g2_font_ncenB18_tr;
    EvGetUTF8Width (format_time t) w2;
    EvDrawStr (CInt.to_uint16 (centered_x (CInt.to_int16 w2))) 38 (format_time t);
    EvSetFont u8g2_font_ncenB12_tf;
    EvGetUTF8Width (tempHum_text hum temp) w3;
    EvDrawStr (CInt.to_uint16 (centered_x (CInt.to_int16 w3))) 60 (tempHum_text hum temp);
    EvSendBuffer;
    EvSerialPrint (PStr "Time: ");
    EvSerialPrint (PStr (format_time t));
    EvSerialPrint (PStr "  Temp: ");
    EvSerialPrint (PFloat temp 2);
    EvSerialPrint (PStr " C  WiFi: ");
    EvWiFiStatus st;
    EvSerialPrintln (PStr (if is_connected st then "OK" else "LOST")) ].

(** A computation that did not return ends the tick the same way. *)
Definition end_of_tick (o : outcome unit) : outcome unit :=
  match o with
  | Returned _ => Returned tt
  | Restarted => Restarted
  | OutOfFuel => OutOfFuel
  | Undefined => Undefined
  end.

(** The inter-tick sleep, reached when [server.handleClient()] returns. *)
Definition tick_sleep (o : outcome unit) : list event :=
  match o with
  | Returned _ => [EvDelay 1000]
  | _ => []
  end.

(** The paths that [setup] registers. *)
Definition registered (uri : string) : bool :=
  existsb (String.eqb uri) (map fst routes).

(** The last platform calls of the network guardian before the device
    restarts. *)
Definition restart_events : list event :=
  [ EvSerialPrintln (PStr "Max reconnect attempts reached. Restarting ESP32...");
    EvClearBuffer;
    EvSetFont u8g2_font_ncenB08_tr;
    EvDrawStr 0 15 "WiFi Failed!";
    EvDrawStr 0 30 "Restarting...";
    EvSendBuffer;
    EvDelay 2000;
    EvRestart ].

(** ** The waiting loops of [setup] *)

Section Setup.

Variable env : Env.

(** [while (WiFi.status() != WL_CONNECTED) { delay(500); Serial.print(".");
    esp_task_wdt_reset(); }]: the loop has no bound of its own; [fuel]
    bounds the number of tests of the condition. *)
Fixpoint setup_wait_wifi (fuel : nat) : M unit :=
  match fuel with
  | O => out_of_fuel
  | S k =>
      st <- WiFi_status env ;;
      if negb (is_connected st)
      then delay 500 ;; Serial_print (PStr ".") ;; esp_task_wdt_reset ;;
           setup_wait_wifi k
      else ret tt
  end.

(** [while (!getLocalTime(&timeinfo) && syncAttempts < maxSyncAttempts)
    { Serial.print("."); delay(500); esp_task_wdt_reset(); syncAttempts++; }]
    with [remaining = maxSyncAttempts - syncAttempts], which starts at 10. *)
Fixpoint setup_wait_ntp (remaining : nat) : M unit :=
  t <- getLocalTime env ;;
  match t with
  | Some _ => ret tt
  | None =>
      match remaining with
      | O => ret tt
      | S k =>
          Serial_print (PStr ".") ;; delay 500 ;; esp_task_wdt_reset ;;
          setup_wait_ntp k
      end
  end.

End Setup.

(** ** The earlier sketch with the DS18B20 sensor (first part of
    [src/main.cpp]) *)

Module SketchV1.

(** A call of [display.drawStr(x, y, text)] or
    [display.drawCircle(x, y, rad)]; the coordinates are [u8g2_uint_t]. *)
Inductive draw_call :=
| DrawStr (x y : Z) (text : string)
| DrawCircle (x y rad : Z).

(** [int16_t] addition and subtraction: computed in [int], stored in 16
    bits. *)
Definition add16 (a b : Z) : Z := CInt.to_int16 (CInt.int_add a b).
Definition sub16 (a b : Z) : Z := CInt.to_int16 (CInt.int_sub a b).

(** The drawing calls of [printTempCentered(temp, y, font)] after
    [display.setFont(font)], for the font metrics [fontAscent] and
    [fontDescent], the measured widths [numWidth] of the number and [cWidth]
    of the letter C (all as stored in their [int16_t] variables) and the text
    [tempNumStr] of the number. *)
Definition printTempCentered_calls
  (fontAscent fontDescent numWidth cWidth y : Z) (tempNumStr : string)
  : list draw_call :=
  let fontHeight := sub16 fontAscent fontDescent in
  let degreeWidth := 8 in
  let spacing := 2 in
  let totalWidth :=
    CInt.to_int16
      (CInt.int_add
         (CInt.int_add (CInt.int_add numWidth degreeWidth) cWidth)
         (CInt.to_int32 (spacing * 2))) in
  let startX := CInt.to_int16 (CInt.int_div (CInt.int_sub 128 totalWidth) 2) in
  let currentX := startX in
  let call1 := DrawStr (CInt.to_uint16 currentX) (CInt.to_uint16 y) tempNumStr in
  let currentX := add16 currentX (CInt.int_add numWidth spacing) in
  let circleCenterY :=
    CInt.to_int16
      (CInt.int_sub (CInt.int_sub y (CInt.int_div fontHeight 2)) 2) in
  let call2 :=
    DrawCircle
      (CInt.to_uint16 (CInt.int_add currentX (CInt.int_div degreeWidth 2)))
      (CInt.to_uint16 circleCenterY)
      (CInt.to_uint16 (CInt.int_sub (CInt.int_div degreeWidth 2) 1)) in
  let currentX := add16 currentX (CInt.int_add degreeWidth spacing) in
  let call3 := DrawStr (CInt.to_uint16 currentX) (CInt.to_uint16 y) "C" in
  [call1; call2; call3].

End SketchV1.

(** ** The first sketch with the Adafruit GFX display
    ([src/unnamed/part_000]) *)

Module SketchGfx.

Definition SCREEN_WIDTH : Z := 128.

(** [int16_t x = (SCREEN_WIDTH - (strlen(text) * 6 * textSize)) / 2] of
    [printCentered(text, y, textSize)]: [strlen] is a [size_t], so the
    product, the difference and the division are 32-bit unsigned; the
    result is stored in 16 bits. *)
Definition printCentered_x (len textSize : Z) : Z :=
  let width := CInt.to_uint32 (CInt.to_uint32 (len * 6) * CInt.to_uint32 textSize) in
  CInt.to_int16 (CInt.to_uint32 (CInt.to_uint32 SCREEN_WIDTH - width) / 2).

(** [int] multiplication. *)
Definition int_mul (a b : Z) : Z := CInt.to_int32 (a * b).

(** [printTempCentered(temp, y, textSize)]:
    [int symbolWidth = 2 * 6 * textSize;]
    [int tempNumWidth = strlen(tempNumStr) * 6 * textSize;]
    [int totalWidth = tempNumWidth + symbolWidth;]
    [int16_t x = (SCREEN_WIDTH - totalWidth) / 2;]
    the product with [strlen] is unsigned and is then stored in an [int]. *)
Definition printTempCentered_x (len textSize : Z) : Z :=
  let symbolWidth := int_mul (int_mul 2 6) textSize in
  let tempNumWidth :=
    CInt.to_int32
      (CInt.to_uint32 (CInt.to_uint32 (len * 6) * CInt.to_uint32 textSize)) in
  let totalWidth := CInt.int_add tempNumWidth symbolWidth in
  CInt.to_int16 (CInt.int_div (CInt.int_sub SCREEN_WIDTH totalWidth) 2).

End SketchGfx.

(** ** The calls of the network guardian, branch by branch *)

(** From the clock reading to [WiFi.begin], when the link is found down
    with [count] counted failures. *)
Definition lost_events (now : Z) (s0 : wl_status_t) (count : Z) : list event :=
  [ EvMillis now;
    EvWiFiStatus s0;
    EvSerialPrintln (PStr "WiFi disconnected! Attempting to reconnect...");
    EvClearBuffer;
    EvSetFont u8g2_font_ncenB08_tr;
    EvDrawStr 0 15 "WiFi Lost!";
    EvDrawStr 0 30 ("Retry: " +++ Text.decimal (CInt.int_add count 1));
    EvSendBuffer;
    EvWiFiDisconnect;
    EvWiFiBegin ssid password ].

(** After the polling loop, when the link is up again. *)
Definition reconnected_events (s2 : wl_status_t) (ip : IPAddress) (ok : bool)
  : list event :=
  [ EvWiFiStatus s2;
    EvSerialPrintln (PStr (Text.nl +++ "WiFi reconnected!"));
    EvSerialPrint (PStr "IP: ");
    EvWiFiLocalIP ip;
    EvSerialPrintln (PIP ip);
    EvWiFiConfig local_IP gateway subnet primaryDNS secondaryDNS ok ] ++
  (if ok then []
   else [EvSerialPrintln (PStr "Static IP configuration failed after reconnect")]).

(** After the polling loop, when the link is still down. *)
Definition failed_events (s2 : wl_status_t) : list event :=
  [ EvWiFiStatus s2;
    EvSerialPrintln (PStr (Text.nl +++ "WiFi reconnect failed!")) ].

(** The calls of the time guardian when a sync is due. *)
Definition resync_events (now : Z) (t : option tm) : list event :=
  [ EvMillis now;
    EvConfigTime gmtOffset_sec daylightOffset_sec ntpServer;
    EvGetLocalTime t;
    EvSerialPrintln
      (PStr (match t with
             | Some _ => "NTP time sync successful"
             | None => "NTP time sync failed"
             end)) ].

(** What the platform presents to one call of the network guardian made
    after the history [h] with the globals [g].  By the clock the check is due
    or not.  When it is due, the link is up at the first status query, or it
    is down and a reconnect is attempted; the attempt is judged by the status
    that the platform answers to the query after the polling loop. *)
Definition link_check (env : Env) (h : list event) (g : Globals) : verdict :=
  let now := CInt.to_uint32 (env_millis env h) in
  if wifiCheckInterval <=? CInt.ulong_sub now (lastWiFiCheck g) then
    let s0 := env_wifi_status env (h ++ [EvMillis now]) in
    if is_connected s0 then LinkUp
    else
      let pre := lost_events now s0 (reconnectCount g) in
      let w := out (wifi_wait env 10 (h ++ pre) (set_lastWiFiCheck now g)) in
      if is_connected (env_wifi_status env ((h ++ pre) ++ w))
      then Reconnected
      else ReconnectFailed
  else NotDue.

(** What the platform presents to each of up to [n] consecutive calls of
    the network guardian, each judged at the history and with the globals at
    which it is made. *)
Fixpoint platform_verdicts (env : Env) (n : nat) (h : list event) (g : Globals)
  : list verdict :=
  match n with
  | O => []
  | S k =>
      let r := checkWiFiConnection env h g in
      link_check env h g ::
      match res r with
      | Returned _ => platform_verdicts env k (h ++ out r) (fin r)
      | _ => []
      end
  end.

(** ** More scenarios *)

(** The calm platform without a time. *)
Definition timeless_env : Env :=
  {| env_millis := env_millis calm_env;
     env_wifi_status := env_wifi_status calm_env;
     env_wifi_config := env_wifi_config calm_env;
     env_wifi_localIP := env_wifi_localIP calm_env;
     env_getLocalTime := fun _ => None;
     env_freeHeap := env_freeHeap calm_env;
     env_minFreeHeap := env_minFreeHeap calm_env;
     env_aht := env_aht calm_env;
     env_utf8_width := env_utf8_width calm_env;
     env_client := env_client calm_env |}.

(** The calm platform with the request [rq] pending. *)
Definition client_env (rq : Request) : Env :=
  {| env_millis := env_millis calm_env;
     env_wifi_status := env_wifi_status calm_env;
     env_wifi_config := env_wifi_config calm_env;
     env_wifi_localIP := env_wifi_localIP calm_env;
     env_getLocalTime := env_getLocalTime calm_env;
     env_freeHeap := env_freeHeap calm_env;
     env_minFreeHeap := env_minFreeHeap calm_env;
     env_aht := env_aht calm_env;
     env_utf8_width := env_utf8_width calm_env;
     env_client := fun _ => Some rq |}.

(** A platform whose link comes up for one status query only, the fourth
    that is made, and is down at every other one; the network check is due at
    once. *)
Definition flapping_env : Env :=
  {| env_millis := fun _ => 30000;
     env_wifi_status :=
       fun h => if (status_polls h =? 3)%nat then WL_CONNECTED else WL_DISCONNECTED;
     env_wifi_config := env_wifi_config calm_env;
     env_wifi_localIP := env_wifi_localIP calm_env;
     env_getLocalTime := env_getLocalTime calm_env;
     env_freeHeap := env_freeHeap calm_env;
     env_minFreeHeap := env_minFreeHeap calm_env;
     env_aht := env_aht calm_env;
     env_utf8_width := env_utf8_width calm_env;
     env_client := env_client calm_env |}.

(** The calm platform with a font in which every text is [w] pixels wide. *)
Definition width_env (w : Z) : Env :=
  {| env_millis := env_millis calm_env;
     env_wifi_status := env_wifi_status calm_env;
     env_wifi_config := env_wifi_config calm_env;
     env_wifi_localIP := env_wifi_localIP calm_env;
     env_getLocalTime := env_getLocalTime calm_env;
     env_freeHeap := env_freeHeap calm_env;
     env_minFreeHeap := env_minFreeHeap calm_env;
     env_aht := env_aht calm_env;
     env_utf8_width := fun _ _ => w;
     env_client := env_client calm_env |}.

(** A request for an unregistered path with 256 arguments. *)
Definition crowded_request : Request :=
  mkRequest "/x" HTTP_GET (repeat ("a", "1") 256).

(** * Properties *)

(** ** Sequencing *)

Lemma extend_nil {A : Type} (r : Result A) : extend [] r = r.
Proof. destruct r; reflexivity. Qed.

Lemma extend_extend {A : Type} (p q : list event) (r : Result A) :
  extend p (extend q r) = extend (p ++ q) r.
Proof. unfold extend; cbn. rewrite app_assoc. reflexivity. Qed.

Lemma bind_returned {A B : Type} (m : M A) (k : A -> M B) h g a :
  res (m h g) = Returned a ->
  bind m k h g = extend (out (m h g)) (k a (h ++ out (m h g)) (fin (m h g))).
Proof. intros H. unfold bind. rewrite H. reflexivity. Qed.

Lemma bind_restarted {A B : Type} (m : M A) (k : A -> M B) h g :
  res (m h g) = Restarted ->
  bind m k h g = mkResult Restarted (fin (m h g)) (out (m h g)).
Proof. intros H. unfold bind. rewrite H. reflexivity. Qed.

Lemma bind_out_of_fuel {A B : Type} (m : M A) (k : A -> M B) h g :
  res (m h g) = OutOfFuel ->
  bind m k h g = mkResult OutOfFuel (fin (m h g)) (out (m h g)).
Proof. intros H. unfold bind. rewrite H. reflexivity. Qed.

Lemma bind_undefined {A B : Type} (m : M A) (k : A -> M B) h g :
  res (m h g) = Undefined ->
  bind m k h g = mkResult Undefined (fin (m h g)) (out (m h g)).
Proof. intros H. unfold bind. rewrite H. reflexivity. Qed.

(** A [sprintf] that fits gives the text and makes no platform call; one
    that does not fit ends the computation. *)
Lemma bind_sprintf_fits {B : Type} (size : nat) (text : string)
  (k : string -> M B) h g :
  (String.length text <? size)%nat = true ->
  bind (sprintf size text) k h g = k text h g.
Proof.
  intros H. unfold bind, sprintf. rewrite H. cbn.
  rewrite app_nil_r. apply extend_nil.
Qed.

Lemma bind_sprintf_overflow {B : Type} (size : nat) (text : string)
  (k : string -> M B) h g :
  (String.length text <? size)%nat = false ->
  bind (sprintf size text) k h g = mkResult Undefined g [].
Proof. intros H. unfold bind, sprintf. rewrite H. reflexivity. Qed.

Lemma bind_emit {B : Type} (e : event) (k : unit -> M B) h g :
  bind (emit e) k h g = extend [e] (k tt (h ++ [e]) g).
Proof. reflexivity. Qed.

Lemma bind_get {B : Type} (k : Globals -> M B) h g :
  bind get k h g = k g h g.
Proof. unfold bind, get; cbn. rewrite app_nil_r. apply extend_nil. Qed.

Lemma bind_modify {B : Type} (f : Globals -> Globals) (k : unit -> M B) h g :
  bind (modify f) k h g = k tt h (f g).
Proof. unfold bind, modify; cbn. rewrite app_nil_r. apply extend_nil. Qed.

Lemma bind_assoc {A B C : Type} (m : M A) (k1 : A -> M B) (k2 : B -> M C) h g :
  bind (bind m k1) k2 h g = bind m (fun a => bind (k1 a) k2) h g.
Proof.
  unfold bind at 1 2 3.
  destruct (res (m h g)) as [a| | |] eqn:Hm; cbn [res fin out extend]; try reflexivity.
  unfold bind.
  destruct (res (k1 a (h ++ out (m h g)) (fin (m h g)))) as [b| | |];
    cbn [res fin out extend]; try reflexivity.
  unfold extend; cbn [res fin out]. rewrite !app_assoc. reflexivity.
Qed.

Lemma bind_no_return {A B : Type} (e : event) (k : A -> M B) h g :
  bind (no_return e) k h g = mkResult Restarted g [e].
Proof. reflexivity. Qed.

Lemma bind_ask_named {A B : Type} (answer : list event -> A) (ev : A -> event)
  (k : A -> M B) h g :
  exists a, a = answer h /\
    bind (ask answer ev) k h g = extend [ev a] (k a (h ++ [ev a]) g).
Proof. exists (answer h). split; reflexivity. Qed.

(** Runs a computation one platform call at a time; an answer of the
    platform becomes a variable [a] with its equation. *)
Ltac run_step :=
  first
    [ rewrite bind_assoc | rewrite bind_emit | rewrite bind_get
    | rewrite bind_modify | rewrite bind_no_return
    | match goal with
      | |- context [bind (ask ?answer ?ev) ?k ?h ?g] =>
          let a := fresh "a" in
          let Ha := fresh "Ha" in
          destruct (bind_ask_named answer ev k h g) as [a [Ha ->]]
      end ].

Ltac run := repeat run_step.

(** Reads off the result once the last call is reached. *)
Ltac finish_run :=
  repeat rewrite extend_extend;
  unfold emit, ask, ret, get, modify, no_return, out_of_fuel, undefined;
  unfold extend; cbn [res fin out];
  repeat rewrite <- app_assoc; cbn [app].



Section Frames.

Variable R : Globals -> Globals -> Prop.
Hypothesis R_refl : forall g, R g g.
Hypothesis R_trans : forall a b c, R a b -> R b c -> R a c.

Lemma preserves_ret {A : Type} (a : A) : preserves R (ret a).
Proof. intros h g. apply R_refl. Qed.

Lemma preserves_emit (e : event) : preserves R (emit e).
Proof. intros h g. apply R_refl. Qed.

Lemma preserves_ask {A : Type} (answer : list event -> A) (ev : A -> event) :
  preserves R (ask answer ev).
Proof. intros h g. apply R_refl. Qed.

Lemma preserves_get : preserves R get.
Proof. intros h g. apply R_refl. Qed.

Lemma preserves_no_return {A : Type} (e : event) : preserves R (@no_return A e).
Proof. intros h g. apply R_refl. Qed.

Lemma preserves_out_of_fuel {A : Type} : preserves R (@out_of_fuel A).
Proof. intros h g. apply R_refl. Qed.

Lemma preserves_modify (f : Globals -> Globals) :
  (forall g, R g (f g)) -> preserves R (modify f).
Proof. intros H h g. apply H. Qed.

Lemma preserves_bind {A B : Type} (m : M A) (k : A -> M B) :
  preserves R m -> (forall a, preserves R (k a)) -> preserves R (bind m k).
Proof.
  intros Hm Hk h g. unfold bind.
  destruct (res (m h g)) as [a| | |]; cbn.
  - eapply R_trans; [apply Hm | apply Hk].
  - apply Hm.
  - apply Hm.
  - apply Hm.
Qed.

Lemma preserves_sprintf (size : nat) (text : string) :
  preserves R (sprintf size text).
Proof.
  intros h g. unfold sprintf.
  destruct (String.length text <? size)%nat; apply R_refl.
Qed.

End Frames.

Section Emissions.

Variable P : event -> Prop.

Lemma emits_ret {A : Type} (a : A) : emits P (ret a).
Proof. intros h g. constructor. Qed.

Lemma emits_get : emits P get.
Proof. intros h g. constructor. Qed.

Lemma emits_modify (f : Globals -> Globals) : emits P (modify f).
Proof. intros h g. constructor. Qed.

Lemma emits_out_of_fuel {A : Type} : emits P (@out_of_fuel A).
Proof. intros h g. constructor. Qed.

Lemma emits_sprintf (size : nat) (text : string) : emits P (sprintf size text).
Proof.
  intros h g. unfold sprintf.
  destruct (String.length text <? size)%nat; constructor.
Qed.

Lemma emits_emit (e : event) : P e -> emits P (emit e).
Proof. intros H h g. repeat constructor. exact H. Qed.

Lemma emits_no_return {A : Type} (e : event) : P e -> emits P (@no_return A e).
Proof. intros H h g. repeat constructor. exact H. Qed.

Lemma emits_ask {A : Type} (answer : list event -> A) (ev : A -> event) :
  (forall a, P (ev a)) -> emits P (ask answer ev).
Proof. intros H h g. repeat constructor. apply H. Qed.

Lemma emits_bind {A B : Type} (m : M A) (k : A -> M B) :
  emits P m -> (forall a, emits P (k a)) -> emits P (bind m k).
Proof.
  intros Hm Hk h g. unfold bind.
  destruct (res (m h g)) as [a| | |]; cbn.
  - apply Forall_app. split; [apply Hm | apply Hk].
  - apply Hm.
  - apply Hm.
  - apply Hm.
Qed.

End Emissions.

Lemma returns_bind (m : M unit) (k : unit -> M unit) :
  always_returns m -> (forall a, always_returns (k a)) -> always_returns (bind m k).
Proof.
  intros Hm Hk h g. rewrite (bind_returned m k h g tt) by apply Hm. cbn. apply Hk.
Qed.

Lemma same_status_refl g : same_status g g.
Proof. split; reflexivity. Qed.

Lemma same_status_trans a b c : same_status a b -> same_status b c -> same_status a c.
Proof. intros [H1 H2] [H3 H4]. split; congruence. Qed.

(** Unfolds the platform calls down to [emit], [ask] and the like. *)
Ltac unfold_calls :=
  unfold cors_headers, esp_task_wdt_reset, millis, delay, ESP_restart, ESP_getFreeHeap,
    ESP_getMinFreeHeap, Serial_print, Serial_println, WiFi_status,
    WiFi_disconnect, WiFi_begin, WiFi_localIP, WiFi_config, configTime,
    getLocalTime, aht_getEvent, display_clearBuffer, display_setFont,
    display_sendBuffer, display_drawStr, display_getUTF8Width,
    server_sendHeader, server_send in *.

(** Walks through a computation built from binds, branches and platform
    calls, for a frame condition on the globals. *)
Ltac frame_walk refl trans :=
  repeat first
    [ apply (preserves_bind _ trans); [| intros ?]
    | apply (preserves_ret _ refl)
    | apply (preserves_emit _ refl)
    | apply (preserves_ask _ refl)
    | apply (preserves_get _ refl)
    | apply (preserves_no_return _ refl)
    | apply (preserves_out_of_fuel _ refl)
    | apply (preserves_sprintf _ refl)
    | apply preserves_modify; intros ?
    | match goal with
      | |- preserves _ (if ?c then _ else _) => destruct c
      | |- preserves _ (match ?x with _ => _ end) => destruct x
      end ].

(** The same walk for a condition on the platform calls. *)
Ltac emit_walk :=
  repeat first
    [ apply emits_bind; [| intros ?]
    | apply emits_ret
    | apply emits_get
    | apply emits_modify
    | apply emits_out_of_fuel
    | apply emits_sprintf
    | apply emits_emit
    | apply emits_no_return
    | apply emits_ask; intros ?
    | match goal with
      | |- emits _ (if ?c then _ else _) => destruct c
      | |- emits _ (match ?x with _ => _ end) => destruct x
      end ].

(** ** Network guardian *)

Section Guardian.

Variable env : Env.

Lemma wifi_wait_returns n : always_returns (wifi_wait env n).
Proof.
  induction n as [|n IH]; intros h g; cbn [wifi_wait]; unfold_calls; run.
  - reflexivity.
  - destruct (is_connected _); cbn; run; [reflexivity | apply IH].
Qed.

Lemma wifi_wait_fin n h g : fin (wifi_wait env n h g) = g.
Proof.
  revert h. induction n as [|n IH]; intros h; cbn [wifi_wait]; unfold_calls; run.
  - reflexivity.
  - destruct (is_connected _); cbn; run; [reflexivity | apply IH].
Qed.

Lemma wifi_wait_emits n : emits wait_event (wifi_wait env n).
Proof.
  induction n as [|n IH]; cbn [wifi_wait]; unfold_calls.
  - emit_walk; repeat split.
  - emit_walk; try exact IH; repeat split.
Qed.

End Guardian.


(** ** Machine integers and text *)

Lemma to_int32_small z : - 2147483648 <= z < 2147483648 -> CInt.to_int32 z = z.
Proof.
  intros Hz. unfold CInt.to_int32, CInt.to_signed.
  change (2 ^ (32 - 1)) with 2147483648. change (2 ^ 32) with 4294967296.
  rewrite Z.mod_small; lia.
Qed.

Lemma to_int16_small z : - 32768 <= z < 32768 -> CInt.to_int16 z = z.
Proof.
  intros Hz. unfold CInt.to_int16, CInt.to_signed.
  change (2 ^ (16 - 1)) with 32768. change (2 ^ 16) with 65536.
  rewrite Z.mod_small; lia.
Qed.

Lemma to_uint16_small z : 0 <= z < 65536 -> CInt.to_uint16 z = z.
Proof. intros Hz. unfold CInt.to_uint16. apply Z.mod_small. exact Hz. Qed.

Example fixed1_samples :
  CFloat.fixed1 (CFloat.of_Z 25) = "25.0" /\
  CFloat.fixed1 (CFloat.of_Z 60) = "60.0" /\
  CFloat.fixed1 (S754_zero false) = "0.0" /\
  CFloat.fixed1 (S754_finite true 5 (-1)) = "-2.5".
Proof. repeat split. Qed.

Example fmt_0d_samples :
  Text.fmt_0d 2 7 = "07" /\ Text.fmt_0d 4 2025 = "2025" /\
  Text.fmt_0d 2 (-5) = "-5" /\ Text.fmt_0d 4 (-5) = "-005".
Proof. repeat split. Qed.

Example format_samples :
  format_time (mkTm 59 59 23 1 0 125) = "23:59:59" /\
  format_date (mkTm 59 59 23 1 0 125) = "2025-01-01".
Proof. split; reflexivity. Qed.

(** ** Presentation: centering *)

Lemma centered_x_in_range w :
  0 <= w <= 128 ->
  centered_x (CInt.to_int16 w) = (128 - w) / 2 /\
  0 <= centered_x (CInt.to_int16 w) <= 128 - w.
Proof.
  intros Hw. unfold centered_x, CInt.int_div, CInt.int_sub.
  rewrite (to_int16_small w) by lia.
  rewrite (to_int32_small (128 - w)) by lia.
  rewrite Z.quot_div_nonneg by lia.
  assert (Hq : 0 <= (128 - w) / 2 <= 128 - w).
  { split; [apply Z.div_pos; lia | apply Z.div_le_upper_bound; lia]. }
  rewrite to_int32_small by lia.
  rewrite to_int16_small by lia.
  split; [reflexivity | exact Hq].
Qed.

(** C8.  When the width [w] that the display measures for a text is
    between 0 and 128, [printCentered] sets the font, measures the text and
    draws it at the horizontal origin [x = (128 - w) / 2] (integer
    division), and [0 <= x <= 128 - w]. *)
Theorem printCentered_origin
  (env : Env) (h : list event) (g : Globals) (text : string) (y : Z) (f : font) :
  let w := CInt.to_uint16 (env_utf8_width env (h ++ [EvSetFont f]) text) in
  let x := centered_x (CInt.to_int16 w) in
  0 <= w <= 128 ->
  x = (128 - w) / 2 /\
  0 <= x <= 128 - w /\
  printCentered env text y f h g =
    mkResult (Returned tt) g
      [EvSetFont f; EvGetUTF8Width text w; EvDrawStr x (CInt.to_uint16 y) text].
Proof.
  intros w x Hw.
  destruct (centered_x_in_range w Hw) as [Hx Hb].
  split; [exact Hx | split; [exact Hb |]].
  unfold printCentered. unfold_calls. run. subst a. cbn.
  fold w. fold x.
  rewrite (to_uint16_small x) by lia.
  reflexivity.
Qed.

Lemma printCentered_origin_witness :
  0 <= 50 <= 128 /\
  centered_x (CInt.to_int16 50) = 39 /\
  out (printCentered calm_env "14:30:00" 38 u8g2_font_ncenB18_tr [] initial_globals) =
    [EvSetFont u8g2_font_ncenB18_tr; EvGetUTF8Width "14:30:00" 50;
     EvDrawStr 39 38 "14:30:00"].
Proof.
  pose proof (printCentered_origin calm_env [] initial_globals "14:30:00" 38
                u8g2_font_ncenB18_tr) as H.
  cbv zeta in H.
  assert (Hw : 0 <= CInt.to_uint16
                      (env_utf8_width calm_env ([] ++ [EvSetFont u8g2_font_ncenB18_tr])
                         "14:30:00") <= 128) by (vm_compute; split; discriminate).
  destruct (H Hw) as [_ [_ E]].
  split; [lia | split; [reflexivity | rewrite E; reflexivity]].
Defined.

(** ** Memory guardian *)

Lemma checkMemory_cases (env : Env) (h : list event) (g : Globals) :
  let freeBytes := CInt.to_uint32 (env_freeHeap env h) in
  let r := checkMemory env h g in
  res r = Returned tt /\ fin r = g /\
  heap_samples (out r) = 1%nat /\
  warns_low_memory (out r) = (freeBytes <? 30000).
Proof.
  intros freeBytes r. subst r.
  unfold checkMemory. unfold_calls. run. subst a. fold freeBytes.
  destruct (freeBytes <? 30000); run; repeat split; reflexivity.
Qed.



Lemma heap_samples_app (a b : list event) :
  heap_samples (a ++ b) = (heap_samples a + heap_samples b)%nat.
Proof. unfold heap_samples. rewrite filter_app, length_app. reflexivity. Qed.

(** C5, as the sketch has it.  The memory guardian has no throttle: every
    call returns and samples the free memory exactly once, so [n] calls in
    a row sample it [n] times, whatever time passes between them. *)
Theorem checkMemory_samples_every_call
  (env : Env) (n : nat) (h : list event) (g : Globals) :
  let r := times n (checkMemory env) h g in
  res r = Returned tt /\ heap_samples (out r) = n.
Proof.
  revert h g. induction n as [|n IH]; intros h g.
  - split; reflexivity.
  - cbn [times].
    destruct (checkMemory_cases env h g) as [Hr [Hf [Hs _]]].
    rewrite (bind_returned _ _ h g tt Hr). unfold extend; cbn [res out].
    destruct (IH (h ++ out (checkMemory env h g)) (fin (checkMemory env h g)))
      as [IHr IHs].
    split; [exact IHr |].
    rewrite heap_samples_app, Hs, IHs. reflexivity.
Qed.

(** C5 as stated does not hold: two calls at the same instant sample the
    free memory twice. *)
Lemma checkMemory_twice_samples_twice :
  ~ (heap_samples (out (times 2 (checkMemory calm_env) [] initial_globals)) <= 1)%nat.
Proof. vm_compute. intros H. inversion H as [|m H1]. inversion H1. Qed.

(** ** Status server *)

Lemma append_assoc (a b c : string) : (a +++ b) +++ c = a +++ (b +++ c).
Proof. induction a as [|x a IH]; simpl; [reflexivity | rewrite IH; reflexivity]. Qed.

Lemma notFound_args_extends (fuel : nat) (r : Request) :
  forall i message m,
    notFound_args fuel r i message = Some m -> exists rest, m = message +++ rest.
Proof.
  induction fuel as [|k IH]; intros i message m; simpl.
  - discriminate.
  - destruct (i <? server_args r).
    + intros H. apply IH in H. destruct H as [rest ->].
      eexists. rewrite append_assoc. reflexivity.
    + intros H. injection H as <-. exists EmptyString.
      clear. induction message as [|x s IH]; simpl; [reflexivity | rewrite <- IH; reflexivity].
Qed.

Lemma notFound_args_terminates (r : Request) :
  server_args r <= 255 ->
  forall k i message,
    0 <= i -> server_args r - i = Z.of_nat k ->
    exists m, notFound_args (S k) r i message = Some m.
Proof.
  intros Hn. induction k as [|k IH]; intros i message Hi Hk.
  - simpl. replace (i <? server_args r) with false by (symmetry; apply Z.ltb_ge; lia).
    eexists; reflexivity.
  - cbn [notFound_args].
    replace (i <? server_args r) with true by (symmetry; apply Z.ltb_lt; lia).
    apply IH.
    + unfold CInt.to_uint8. apply Z.mod_pos_bound. reflexivity.
    + unfold CInt.to_uint8. change (2 ^ 8) with 256.
      rewrite Z.mod_small; lia.
Qed.

Lemma notFound_head_start (r : Request) :
  let method :=
    match req_method r with
    | HTTP_GET => "GET"
    | _ => "POST"
    end in
  exists rest,
    notFound_head r =
      ("404 Not Found" +++ Text.nl +++ Text.nl +++ "URI: " +++ req_uri r +++ Text.nl
        +++ "Method: " +++ method +++ Text.nl) +++ rest.
Proof.
  intros method. unfold notFound_head.
  exists ("Arguments: " +++ Text.decimal (server_args r) +++ Text.nl).
  replace (method_text (req_method r)) with method
    by (unfold method, method_text; destruct (req_method r); reflexivity).
  repeat rewrite append_assoc. reflexivity.
Qed.

(** C10.  Whatever the 404 handler sends is a 404 text response whose body
    starts with the title, the URI line and the method line, and the method
    line reads GET when the request method is GET and POST for every other
    method.  With at most 255 arguments the handler does send this response
    and returns. *)
Theorem handleNotFound_method_line (r : Request) (h : list event) (g : Globals) :
  let method :=
    match req_method r with
    | HTTP_GET => "GET"
    | _ => "POST"
    end in
  let start :=
    "404 Not Found" +++ Text.nl +++ Text.nl +++ "URI: " +++ req_uri r +++ Text.nl
      +++ "Method: " +++ method +++ Text.nl in
  (forall fuel e, In e (out (handleNotFound fuel r h g)) ->
     exists rest, e = EvSend 404 "text/plain" (start +++ rest)) /\
  (server_args r <= 255 ->
     exists rest,
       handleNotFound (S (List.length (req_args r))) r h g =
         mkResult (Returned tt) g [EvSend 404 "text/plain" (start +++ rest)]).
Proof.
  intros method start.
  destruct (notFound_head_start r) as [rest0 Hhead]. fold method in Hhead. fold start in Hhead.
  assert (Hbody : forall fuel m,
             notFound_args fuel r 0 (notFound_head r) = Some m ->
             exists rest, m = start +++ rest).
  { intros fuel m Hm. apply notFound_args_extends in Hm. destruct Hm as [rest ->].
    rewrite Hhead, append_assoc. eexists; reflexivity. }
  split.
  - intros fuel e. unfold handleNotFound.
    destruct (notFound_args fuel r 0 (notFound_head r)) as [m|] eqn:Hm; cbn.
    + intros [<- | []]. destruct (Hbody fuel m Hm) as [rest ->]. eexists; reflexivity.
    + intros [].
  - intros Hn.
    destruct (notFound_args_terminates r Hn (List.length (req_args r)) 0 (notFound_head r))
      as [m Hm]; [lia | unfold server_args; lia |].
    unfold handleNotFound. rewrite Hm.
    destruct (Hbody _ m Hm) as [rest ->]. exists rest. reflexivity.
Qed.

Lemma handleNotFound_method_line_witness :
  server_args (mkRequest "/x" HTTP_PUT [("a", "1"); ("b", "2")]) <= 255 /\
  exists rest,
    handleNotFound 3 (mkRequest "/x" HTTP_PUT [("a", "1"); ("b", "2")]) [] initial_globals =
      mkResult (Returned tt) initial_globals
        [EvSend 404 "text/plain"
           (("404 Not Found" +++ Text.nl +++ Text.nl +++ "URI: " +++ "/x" +++ Text.nl
              +++ "Method: " +++ "POST" +++ Text.nl) +++ rest)].
Proof.
  assert (Hn : server_args (mkRequest "/x" HTTP_PUT [("a", "1"); ("b", "2")]) <= 255)
    by (vm_compute; discriminate).
  split; [exact Hn |].
  exact (proj2 (handleNotFound_method_line
                  (mkRequest "/x" HTTP_PUT [("a", "1"); ("b", "2")]) [] initial_globals) Hn).
Defined.

Lemma handlers_from_shared (h : list event) (g : Globals) :
  let t := CFloat.fixed1 (sh_temperature (shared g)) in
  let u := CFloat.fixed1 (sh_humidity (shared g)) in
  handleRoot h g =
    mkResult (Returned tt) g
      (cors_events ++
       [EvSend 200 "text/html" (root_html t u (sh_time (shared g)) (sh_date (shared g)))]) /\
  handleTemperature h g =
    mkResult (Returned tt) g (cors_events ++ [EvSend 200 "text/plain" (t +++ "°C")]) /\
  handleHumidity h g =
    mkResult (Returned tt) g (cors_events ++ [EvSend 200 "text/plain" (u +++ "%")]) /\
  handleJson h g =
    mkResult (Returned tt) g
      (cors_events ++
       [EvSend 200 "application/json"
          (spaced_json_body t u (sh_time (shared g)) (sh_date (shared g)))]).
Proof.
  cbv zeta. repeat split.
  unfold handleJson. unfold_calls. run.
  unfold extend, emit, json_text, spaced_json_body, cors_events, shared.
  cbn [res fin out app sh_temperature sh_humidity sh_time sh_date].
  repeat rewrite append_assoc. reflexivity.
Qed.

(** C4, as the sketch has it.  With 25.0 degrees, 60.0 percent, 14:30:00
    and 2025-07-04 stored, the /json handler sends the three cross-origin
    headers and answers 200 with content type application/json; the body
    has the five fields of the scenario in order, with one blank after the
    colon of every key. *)
Theorem handleJson_scenario (h : list event) (g : Globals) :
  shared g = mkShared (CFloat.of_Z 25) (CFloat.of_Z 60) "14:30:00" "2025-07-04" ->
  handleJson h g =
    mkResult (Returned tt) g
      (cors_events ++
       [EvSend 200 "application/json"
          (spaced_json_body "25.0" "60.0" "14:30:00" "2025-07-04")]).
Proof.
  intros Hs.
  destruct (handlers_from_shared h g) as [_ [_ [_ Hj]]].
  rewrite Hj, Hs. reflexivity.
Qed.

Lemma handleJson_scenario_witness :
  shared scenario_globals =
    mkShared (CFloat.of_Z 25) (CFloat.of_Z 60) "14:30:00" "2025-07-04" /\
  handleJson [] scenario_globals =
    mkResult (Returned tt) scenario_globals
      (cors_events ++
       [EvSend 200 "application/json"
          (spaced_json_body "25.0" "60.0" "14:30:00" "2025-07-04")]).
Proof.
  split; [reflexivity | apply (handleJson_scenario [] scenario_globals); reflexivity].
Defined.

(** C4 as stated does not hold: the body without blanks is not what the
    handler sends for the stored state of the scenario. *)
Lemma handleJson_body_is_not_compact :
  ~ In (EvSend 200 "application/json" compact_json_body)
       (out (handleJson [] scenario_globals)).
Proof.
  vm_compute. intros [H | [H | [H | [H | []]]]]; discriminate H.
Qed.

Section GuardianCases.

Variable env : Env.

Lemma wait_events_no_restart w : Forall wait_event w -> filter is_restart w = [].
Proof.
  induction 1 as [|e w [He _] _ IH]; cbn; [reflexivity | rewrite He; exact IH].
Qed.

Lemma wait_events_no_begin w : Forall wait_event w -> existsb is_begin w = false.
Proof.
  induction 1 as [|e w [_ [He _]] _ IH]; cbn; [reflexivity | rewrite He; exact IH].
Qed.

Lemma wait_events_guardian w : Forall wait_event w -> Forall guardian_event w.
Proof. apply Forall_impl. intros e [_ [_ H]]. exact H. Qed.

(** A trace of guardian calls around the calls [w] of the polling loop. *)
Ltac guardian_trace Hw :=
  repeat (apply Forall_cons; [split; reflexivity |]);
  try (apply Forall_app; split; [apply wait_events_guardian; exact Hw |]);
  repeat (apply Forall_cons; [split; reflexivity |]);
  apply Forall_nil.

(** Counts the restarts in such a trace. *)
Ltac no_restart_in_trace Hw :=
  unfold restarts; cbn [filter is_restart];
  rewrite filter_app, (wait_events_no_restart _ Hw); reflexivity.

(** What one call of the network guardian does, by the verdict that its
    own platform calls show. *)
Lemma checkWiFi_cases (h : list event) (g : Globals) :
  let r := checkWiFiConnection env h g in
  let now := CInt.to_uint32 (env_millis env h) in
  let bumped := CInt.int_add (reconnectCount g) 1 in
  Forall guardian_event (out r) /\
  match verdict_of (out r) with
  | NotDue =>
      res r = Returned tt /\ fin r = g /\ restarts (out r) = 0%nat
  | LinkUp =>
      res r = Returned tt /\
      fin r = set_reconnectCount 0 (set_lastWiFiCheck now g) /\
      restarts (out r) = 0%nat
  | Reconnected =>
      res r = Returned tt /\
      fin r = set_reconnectCount 0 (set_lastWiFiCheck now g) /\
      restarts (out r) = 0%nat /\
      exists pre ok post,
        out r = pre ++ EvWiFiConfig local_IP gateway subnet primaryDNS secondaryDNS ok :: post /\
        existsb is_begin pre = true
  | ReconnectFailed =>
      fin r = set_reconnectCount bumped (set_lastWiFiCheck now g) /\
      if maxReconnectCount <=? bumped
      then res r = Restarted /\ restarts (out r) = 1%nat /\
           exists pre, out r = pre ++ [EvRestart]
      else res r = Returned tt /\ restarts (out r) = 0%nat
  end.
Proof.
  intros r now bumped.
  assert (E : r = checkWiFiConnection env h g) by reflexivity.
  clearbody r. revert E.
  unfold checkWiFiConnection. unfold_calls. run. subst a. fold now.
  destruct (wifiCheckInterval <=? CInt.ulong_sub now (lastWiFiCheck g)) eqn:Hdue.
  - run. clear Ha. rename a into s0.
    destruct (is_connected s0) eqn:Hs0; cbn [negb].
    + run. finish_run. intros ->. cbn [res fin out].
      split; [solve [repeat constructor] |].
      unfold verdict_of. cbn. auto.
    + run. rewrite (bind_returned _ _ _ _ tt (wifi_wait_returns env 10 _ _)).
      rewrite !wifi_wait_fin.
      match goal with
      | |- context [out (wifi_wait env 10 ?h' ?g')] =>
          pose proof (wifi_wait_emits env 10 h' g') as Hw
      end.
      set (w := out (wifi_wait env 10 _ _)) in *. clearbody w.
      run. clear Ha. rename a into s2.
      destruct (is_connected s2) eqn:Hs2.
      * run. clear Ha Ha0. rename a0 into ok.
        destruct ok; cbn [negb]; finish_run; intros ->; cbn [res fin out].
        all: match goal with |- Forall _ ?tr /\ _ => set (TR := tr) end.
        all: assert (Hv : verdict_of TR = Reconnected)
          by (unfold verdict_of, last_status, TR;
              cbn [fold_left existsb is_begin orb];
              rewrite fold_left_app; cbn [fold_left]; rewrite Hs2; reflexivity).
        all: rewrite Hv; split; [subst TR; guardian_trace Hw |].
        all: split; [reflexivity | split; [reflexivity | split]].
        all: try (subst TR; no_restart_in_trace Hw).
        -- exists (firstn 10 TR ++ w ++
                   [EvWiFiStatus s2;
                    EvSerialPrintln (PStr (Text.nl +++ "WiFi reconnected!"));
                    EvSerialPrint (PStr "IP: "); EvWiFiLocalIP a;
                    EvSerialPrintln (PIP a)]), true, [].
           split; [subst TR; cbn [firstn app]; rewrite <- app_assoc; reflexivity |].
           reflexivity.
        -- exists (firstn 10 TR ++ w ++
                   [EvWiFiStatus s2;
                    EvSerialPrintln (PStr (Text.nl +++ "WiFi reconnected!"));
                    EvSerialPrint (PStr "IP: "); EvWiFiLocalIP a;
                    EvSerialPrintln (PIP a)]), false,
                  [EvSerialPrintln
                     (PStr "Static IP configuration failed after reconnect")].
           split; [subst TR; cbn [firstn app]; rewrite <- app_assoc; reflexivity |].
           reflexivity.
      * run. cbn [reconnectCount set_reconnectCount set_lastWiFiCheck]. fold bumped.
        destruct (maxReconnectCount <=? bumped) eqn:Hmax; run; finish_run;
          intros ->; cbn [res fin out].
        all: match goal with |- Forall _ ?tr /\ _ => set (TR := tr) end.
        all: assert (Hv : verdict_of TR = ReconnectFailed)
          by (unfold verdict_of, last_status, TR;
              cbn [fold_left existsb is_begin orb];
              rewrite fold_left_app; cbn [fold_left]; rewrite Hs2; reflexivity).
        all: rewrite Hv; split; [subst TR; guardian_trace Hw |].
        all: split; [reflexivity | split; [reflexivity |]].
        -- split; [subst TR; no_restart_in_trace Hw |].
           exists (firstn 10 TR ++ w ++
                   [EvWiFiStatus s2;
                    EvSerialPrintln (PStr (Text.nl +++ "WiFi reconnect failed!"));
                    EvSerialPrintln
                      (PStr "Max reconnect attempts reached. Restarting ESP32...");
                    EvClearBuffer; EvSetFont u8g2_font_ncenB08_tr;
                    EvDrawStr (CInt.to_uint16 0) (CInt.to_uint16 15) "WiFi Failed!";
                    EvDrawStr (CInt.to_uint16 0) (CInt.to_uint16 30) "Restarting...";
                    EvSendBuffer; EvDelay 2000]).
           subst TR; cbn [firstn app]. rewrite <- !app_assoc. reflexivity.
        -- subst TR; no_restart_in_trace Hw.
  - finish_run. intros ->. cbn [res fin out]. split; [solve [repeat constructor] |].
    unfold verdict_of. cbn. auto.
Qed.


(** Every link status that the polling loop reads is the answer of the
    platform at that point of the history. *)
Lemma wifi_wait_statuses (n : nat) :
  forall h g p1 s p2,
    out (wifi_wait env n h g) = p1 ++ EvWiFiStatus s :: p2 ->
    s = env_wifi_status env (h ++ p1).
Proof.
  induction n as [|n IH]; intros h g p1 s p2; cbn [wifi_wait]; unfold_calls; run.
  - finish_run. subst a.
    destruct p1 as [|e p1]; cbn [app]; intros E.
    + injection E as <- _. rewrite app_nil_r. reflexivity.
    + injection E as _ E. destruct p1; discriminate E.
  - subst a. set (s0 := env_wifi_status env h).
    destruct (is_connected s0); cbn [negb].
    + finish_run.
      destruct p1 as [|e p1]; cbn [app]; intros E.
      * injection E as <- _. rewrite app_nil_r. reflexivity.
      * injection E as _ E. destruct p1; discriminate E.
    + run. finish_run.
      destruct p1 as [|e1 p1]; cbn [app]; intros E.
      * injection E as <- _. rewrite app_nil_r. reflexivity.
      * injection E as -> E.
        destruct p1 as [|e2 p1]; cbn [app] in E; [discriminate E |].
        injection E as -> E.
        destruct p1 as [|e3 p1]; cbn [app] in E; [discriminate E |].
        injection E as -> E.
        apply IH in E. rewrite E.
        f_equal. rewrite <- !app_assoc. reflexivity.
Qed.

(** One call of the guardian, started with fewer than 5 counted failures:
    the counter follows the consecutive failures, and the call restarts
    exactly when the counter reaches 5. *)
Lemma checkWiFi_step (h : list event) (g : Globals) :
  0 <= reconnectCount g < maxReconnectCount ->
  let r := checkWiFiConnection env h g in
  let c := streak_after (reconnectCount g) (verdict_of (out r)) in
  reconnectCount (fin r) = c /\
  0 <= c <= maxReconnectCount /\
  (c < maxReconnectCount -> res r = Returned tt /\ restarts (out r) = 0%nat) /\
  (c = maxReconnectCount ->
     res r = Restarted /\ restarts (out r) = 1%nat /\
     verdict_of (out r) = ReconnectFailed).
Proof.
  intros Hc r c.
  destruct (checkWiFi_cases h g) as [_ Hcases]. fold r in Hcases.
  subst c. unfold maxReconnectCount in *.
  destruct (verdict_of (out r)); cbn [streak_after].
  - destruct Hcases as [Hres [Hfin Hrs]]. rewrite Hfin.
    repeat split; try lia; try assumption.
  - destruct Hcases as [Hres [Hfin Hrs]]. rewrite Hfin. cbn.
    repeat split; try lia; try assumption.
  - destruct Hcases as [Hres [Hfin [Hrs _]]]. rewrite Hfin. cbn.
    repeat split; try lia; try assumption.
  - destruct Hcases as [Hfin Hcases].
    unfold CInt.int_add in *.
    rewrite (to_int32_small (reconnectCount g + 1)) in * by lia.
    rewrite Hfin. cbn [reconnectCount set_reconnectCount].
    destruct (5 <=? reconnectCount g + 1) eqn:Hmax.
    + apply Z.leb_le in Hmax. destruct Hcases as [Hres [Hrs _]].
      repeat split; try lia; try assumption.
    + apply Z.leb_gt in Hmax. destruct Hcases as [Hres Hrs].
      repeat split; try lia; try assumption.
Qed.

Lemma restarts_app (a b : list event) :
  restarts (a ++ b) = (restarts a + restarts b)%nat.
Proof. unfold restarts. rewrite filter_app, length_app. reflexivity. Qed.

Lemma guardian_calls_streak (n : nat) :
  forall h g,
    0 <= reconnectCount g < maxReconnectCount ->
    let rs := guardian_calls env n h g in
    forall k r,
      nth_error rs k = Some r ->
      let c := failure_streak (reconnectCount g)
                 (map (fun x => verdict_of (out x)) (firstn (S k) rs)) in
      reconnectCount (fin r) = c /\
      c <= maxReconnectCount /\
      (c < maxReconnectCount -> res r = Returned tt /\ restarts (out r) = 0%nat) /\
      (c = maxReconnectCount ->
         res r = Restarted /\ restarts (out r) = 1%nat /\
         verdict_of (out r) = ReconnectFailed /\ S k = List.length rs).
Proof.
  induction n as [|n IH]; intros h g Hc rs k r Hk.
  - destruct k; discriminate Hk.
  - subst rs. cbn [guardian_calls] in *.
    pose proof (checkWiFi_step h g Hc) as Hstep. cbv zeta in Hstep.
    set (r0 := checkWiFiConnection env h g) in *.
    set (c1 := streak_after (reconnectCount g) (verdict_of (out r0))) in *.
    destruct Hstep as [Hfin [Hrange [Hlt Heq]]].
    destruct k as [|k].
    + injection Hk as <-. cbn [firstn map failure_streak fold_left]. fold c1.
      split; [exact Hfin | split; [lia | split; [exact Hlt |]]].
      intros E. destruct (Heq E) as [Hres [Hrs Hv]].
      rewrite Hres. cbn. auto.
    + cbn [nth_error] in Hk.
      destruct (res r0) as [[]| | |] eqn:Hres; try (destruct k; discriminate Hk).
      assert (Hc1 : 0 <= reconnectCount (fin r0) < maxReconnectCount).
      { rewrite Hfin. split; [lia |].
        destruct (Z.eq_dec c1 maxReconnectCount) as [E|E]; [| lia].
        destruct (Heq E) as [Hbad _]. discriminate Hbad. }
      specialize (IH (h ++ out r0) (fin r0) Hc1 k r Hk). cbv zeta in IH.
      cbn [firstn map failure_streak fold_left] in *. fold c1.
      rewrite Hfin in IH.
      destruct IH as [I1 [I2 [I3 I4]]].
      split; [exact I1 | split; [exact I2 | split; [exact I3 |]]].
      intros E. destruct (I4 E) as [J1 [J2 [J3 J4]]].
      repeat split; try assumption. cbn [List.length]. rewrite <- J4. reflexivity.
Qed.

Lemma guardian_calls_restart_once (n : nat) :
  forall h g,
    0 <= reconnectCount g < maxReconnectCount ->
    (restarts (List.concat (map out (guardian_calls env n h g))) <= 1)%nat.
Proof.
  induction n as [|n IH]; intros h g Hc.
  - cbn. lia.
  - cbn [guardian_calls map List.concat].
    pose proof (checkWiFi_step h g Hc) as Hstep. cbv zeta in Hstep.
    set (r0 := checkWiFiConnection env h g) in *.
    set (c1 := streak_after (reconnectCount g) (verdict_of (out r0))) in *.
    destruct Hstep as [Hfin [Hrange [Hlt Heq]]].
    rewrite restarts_app.
    destruct (Z.eq_dec c1 maxReconnectCount) as [E|E].
    + destruct (Heq E) as [Hres [Hrs _]]. rewrite Hres, Hrs. cbn. lia.
    + destruct (Hlt ltac:(lia)) as [Hres Hrs]. rewrite Hres, Hrs.
      apply IH. rewrite Hfin. lia.
Qed.

End GuardianCases.

(** ** The tick *)

Section Tick.

Variable env : Env.

Lemma untouched_refl g : untouched g g.
Proof. reflexivity. Qed.

Lemma untouched_trans a b c : untouched a b -> untouched b c -> untouched a c.
Proof. unfold untouched. congruence. Qed.

Lemma wifi_wait_preserves n : preserves same_status (wifi_wait env n).
Proof. intros h g. rewrite wifi_wait_fin. apply same_status_refl. Qed.

Lemma checkWiFi_preserves : preserves same_status (checkWiFiConnection env).
Proof.
  unfold checkWiFiConnection. unfold_calls.
  frame_walk same_status_refl same_status_trans;
    try apply wifi_wait_preserves; split; reflexivity.
Qed.

Lemma checkWiFi_emits : emits guardian_event (checkWiFiConnection env).
Proof. intros h g. apply (checkWiFi_cases env h g). Qed.

Lemma checkWiFi_res h g :
  res (checkWiFiConnection env h g) = Returned tt \/
  res (checkWiFiConnection env h g) = Restarted.
Proof.
  destruct (checkWiFi_cases env h g) as [_ H]. cbv zeta in H.
  destruct (verdict_of _).
  - left. apply H.
  - left. apply H.
  - left. apply H.
  - destruct H as [_ H]. destruct (maxReconnectCount <=? _).
    + right. apply H.
    + left. apply H.
Qed.

Lemma checkNTPSync_returns : always_returns (checkNTPSync env).
Proof.
  intros h g. unfold checkNTPSync. unfold_calls. run.
  destruct (ntpCheckInterval <=? _); [| reflexivity].
  run. destruct a0; reflexivity.
Qed.

Lemma checkNTPSync_preserves : preserves same_status (checkNTPSync env).
Proof.
  unfold checkNTPSync. unfold_calls.
  frame_walk same_status_refl same_status_trans; split; reflexivity.
Qed.

Lemma checkNTPSync_emits : emits guardian_event (checkNTPSync env).
Proof.
  unfold checkNTPSync. unfold_calls. emit_walk; split; reflexivity.
Qed.

Lemma checkMemory_emits : emits guardian_event (checkMemory env).
Proof.
  unfold checkMemory. unfold_calls. emit_walk; split; reflexivity.
Qed.

(** The handlers only read the globals and never read the sensor. *)
Lemma find_route_handler uri handler :
  find_route uri routes = Some handler ->
  preserves untouched handler /\ emits no_sensor_read handler.
Proof.
  unfold routes. cbn [find_route].
  repeat (destruct (String.eqb uri _);
          [ intros H; injection H as <-;
            split;
            [ unfold handleRoot, handleTemperature, handleHumidity, handleJson;
              unfold_calls; frame_walk untouched_refl untouched_trans
            | unfold handleRoot, handleTemperature, handleHumidity, handleJson;
              unfold_calls; emit_walk; reflexivity ]
          | ]).
  discriminate.
Qed.

Lemma handleNotFound_quiet fuel r :
  preserves untouched (handleNotFound fuel r) /\
  emits no_sensor_read (handleNotFound fuel r).
Proof.
  unfold handleNotFound. unfold_calls.
  destruct (notFound_args fuel r 0 (notFound_head r)); split.
  - apply (preserves_emit _ untouched_refl).
  - apply emits_emit. reflexivity.
  - apply (preserves_out_of_fuel _ untouched_refl).
  - apply emits_out_of_fuel.
Qed.

Lemma server_handleClient_quiet fuel :
  preserves untouched (server_handleClient env fuel) /\
  emits no_sensor_read (server_handleClient env fuel).
Proof.
  unfold server_handleClient. split.
  - apply (preserves_bind _ untouched_trans).
    + apply (preserves_ask _ untouched_refl).
    + intros [r|]; [| apply (preserves_ret _ untouched_refl)].
      destruct (find_route (req_uri r) routes) as [handler|] eqn:Hr.
      * apply (find_route_handler _ _ Hr).
      * apply handleNotFound_quiet.
  - apply emits_bind.
    + apply emits_ask. reflexivity.
    + intros [r|]; [| apply emits_ret].
      destruct (find_route (req_uri r) routes) as [handler|] eqn:Hr.
      * apply (find_route_handler _ _ Hr).
      * apply handleNotFound_quiet.
Qed.


Lemma ltb_below (n small large : nat) :
  (small <= large)%nat -> (n <? large)%nat = false -> (n <? small)%nat = false.
Proof.
  intros Hle H. apply Nat.ltb_ge in H. apply Nat.ltb_ge. lia.
Qed.

(** The whole result of one tick.  The five ways a tick can go: the network
    guardian restarts the device; the time is not available; the reading is
    invalid; the reading is stored, shown and the client served; or one of
    the texts does not fit its buffer. *)
Lemma loop_trace (fuel : nat) (h : list event) (g : Globals) :
  let r := loop env fuel h g in
  let wifi := checkWiFiConnection env (h ++ [EvWdtReset]) g in
  let ntp := checkNTPSync env ((h ++ [EvWdtReset]) ++ out wifi) (fin wifi) in
  let mem := checkMemory env (((h ++ [EvWdtReset]) ++ out wifi) ++ out ntp) (fin ntp) in
  let pre := [EvWdtReset] ++ out wifi ++ out ntp ++ out mem in
  match res wifi with
  | Returned _ =>
      match env_getLocalTime env (h ++ pre) with
      | None => r = mkResult (Returned tt) (fin ntp) (pre ++ time_fault_events)
      | Some t0 =>
          let t := int_tm t0 in
          let ht := env_aht env ((h ++ pre) ++ [EvGetLocalTime (Some t)]) in
          let hum := fst ht in
          let temp := snd ht in
          if CFloat.isnan temp || CFloat.isnan hum
          then r = mkResult (Returned tt) (fin ntp)
                     (pre ++ EvGetLocalTime (Some t) :: sensor_fault_events hum temp)
          else if texts_fit t hum temp
          then
            exists w1 w2 w3 st,
              let g1 := set_status temp hum (format_time t) (format_date t) (fin ntp) in
              let mid := EvGetLocalTime (Some t) :: success_events t hum temp w1 w2 w3 st in
              let hc := server_handleClient env fuel (h ++ pre ++ mid) g1 in
              r = mkResult (end_of_tick (res hc)) g1
                    (pre ++ mid ++ out hc ++ tick_sleep (res hc))
          else
            res r = Undefined /\
            (fin r = set_reading temp hum (fin ntp) \/
             fin r = set_currentTime (format_time t) (set_reading temp hum (fin ntp)) \/
             fin r = set_status temp hum (format_time t) (format_date t) (fin ntp)) /\
            exists post,
              out r = pre ++ EvGetLocalTime (Some t) :: EvAhtGetEvent hum temp :: post /\
              Forall handler_event post /\
              filter is_answer post = []
      end
  | _ => r = mkResult Restarted (fin wifi) ([EvWdtReset] ++ out wifi)
  end.
Proof.
  intros r wifi ntp mem pre.
  assert (E : r = loop env fuel h g) by reflexivity.
  clearbody r. revert E.
  unfold loop, printCentered. cbv zeta. unfold_calls. run.
  destruct (checkWiFi_res (h ++ [EvWdtReset]) g) as [Hw | Hw];
    fold wifi in Hw; rewrite Hw.
  - rewrite (bind_returned _ _ _ _ tt Hw). fold wifi.
    rewrite (bind_returned _ _ _ _ tt (checkNTPSync_returns _ _)). fold ntp.
    destruct (checkMemory_cases env (((h ++ [EvWdtReset]) ++ out wifi) ++ out ntp)
                (fin ntp)) as [Hm [Hmf _]]. fold mem in Hm, Hmf.
    rewrite (bind_returned _ _ _ _ tt Hm). fold mem. rewrite Hmf.
    assert (Hpre : (((h ++ [EvWdtReset]) ++ out wifi) ++ out ntp) ++ out mem = h ++ pre)
      by (subst pre; rewrite <- !app_assoc; reflexivity).
    rewrite Hpre.
    run. subst a. destruct (env_getLocalTime env (h ++ pre)) as [t0|]; cbn [option_map].
    + set (t := int_tm t0). run. subst a. cbv zeta.
      set (ht := env_aht env ((h ++ pre) ++ [EvGetLocalTime (Some t)])).
      destruct ht as [hum temp]. cbn [fst snd].
      destruct (CFloat.isnan temp || CFloat.isnan hum) eqn:Hnan.
      * run. finish_run. intros ->. f_equal.
        subst pre. cbn [app]. rewrite <- !app_assoc. reflexivity.
      * run. unfold texts_fit.
        destruct (String.length (format_time t) <? 32)%nat eqn:F1;
          [ rewrite (bind_sprintf_fits _ _ _ _ _ F1)
          | rewrite (bind_sprintf_overflow _ _ _ _ _ F1),
              (ltb_below _ 16 32 ltac:(lia) F1); cbn [andb];
            finish_run; intros ->; cbn [res fin out];
            split; [reflexivity | split; [left; reflexivity |]];
            eexists; split;
            [ subst pre; cbn [app]; rewrite <- !app_assoc; cbn [app]; reflexivity
            | split; [repeat (apply Forall_cons; [repeat split |]); apply Forall_nil
                     | reflexivity] ] ].
        run.
        destruct (String.length (format_date t) <? 32)%nat eqn:F2;
          [ rewrite (bind_sprintf_fits _ _ _ _ _ F2)
          | rewrite (bind_sprintf_overflow _ _ _ _ _ F2),
              (ltb_below _ 20 32 ltac:(lia) F2), Bool.andb_false_r; cbn [andb];
            finish_run; intros ->; cbn [res fin out];
            split; [reflexivity | split; [right; left; reflexivity |]];
            eexists; split;
            [ subst pre; cbn [app]; rewrite <- !app_assoc; cbn [app]; reflexivity
            | split; [repeat (apply Forall_cons; [repeat split |]); apply Forall_nil
                     | reflexivity] ] ].
        run.
        destruct (String.length (format_date t) <? 20)%nat eqn:F3;
          [ rewrite (bind_sprintf_fits _ _ _ _ _ F3)
          | rewrite (bind_sprintf_overflow _ _ _ _ _ F3), Bool.andb_false_r; cbn [andb];
            finish_run; intros ->; cbn [res fin out];
            split; [reflexivity | split; [right; right; reflexivity |]];
            eexists; split;
            [ subst pre; cbn [app]; rewrite <- !app_assoc; cbn [app]; reflexivity
            | split; [repeat (apply Forall_cons; [repeat split |]); apply Forall_nil
                     | reflexivity] ] ].
        run. clear Ha. rename a into w1.
        destruct (String.length (format_time t) <? 16)%nat eqn:F4;
          [ rewrite (bind_sprintf_fits _ _ _ _ _ F4)
          | rewrite (bind_sprintf_overflow _ _ _ _ _ F4); cbn [andb];
            finish_run; intros ->; cbn [res fin out];
            split; [reflexivity | split; [right; right; reflexivity |]];
            eexists; split;
            [ subst pre; cbn [app]; rewrite <- !app_assoc; cbn [app]; reflexivity
            | split; [repeat (apply Forall_cons; [repeat split |]); apply Forall_nil
                     | reflexivity] ] ].
        run. clear Ha. rename a into w2.
        destruct (String.length (tempHum_text hum temp) <? 30)%nat eqn:F5;
          [ rewrite (bind_sprintf_fits _ _ _ _ _ F5)
          | rewrite (bind_sprintf_overflow _ _ _ _ _ F5); cbn [andb];
            finish_run; intros ->; cbn [res fin out];
            split; [reflexivity | split; [right; right; reflexivity |]];
            eexists; split;
            [ subst pre; cbn [app]; rewrite <- !app_assoc; cbn [app]; reflexivity
            | split; [repeat (apply Forall_cons; [repeat split |]); apply Forall_nil
                     | reflexivity] ] ].
        cbn [andb].
        run. clear Ha Ha0.
        rename a into w3. rename a0 into st.
        intros E. exists w1, w2, w3, st. cbv zeta.
        set (g1 := set_status temp hum (format_time t) (format_date t) (fin ntp)).
        set (mid := EvGetLocalTime (Some t) :: success_events t hum temp w1 w2 w3 st).
        revert E.
        change (set_firstDataReady
                  (set_currentDate (format_date t)
                     (set_currentTime (format_time t)
                        (set_reading temp hum (fin ntp))))) with g1.
        match goal with
        | |- context [bind (server_handleClient env fuel) ?k ?h' ?g'] =>
            assert (Hh : h' = h ++ pre ++ mid)
              by (subst mid; repeat rewrite <- app_assoc; reflexivity);
            rewrite Hh
        end.
        set (hc := server_handleClient env fuel (h ++ pre ++ mid) g1).
        pose proof (proj1 (server_handleClient_quiet fuel) (h ++ pre ++ mid) g1)
          as Hfin. fold hc in Hfin. unfold untouched in Hfin.
        destruct (res hc) as [[]| | |] eqn:Hres;
          [ rewrite (bind_returned _ _ _ _ tt Hres)
          | rewrite (bind_restarted _ _ _ _ Hres)
          | rewrite (bind_out_of_fuel _ _ _ _ Hres)
          | rewrite (bind_undefined _ _ _ _ Hres) ];
          fold hc; finish_run; rewrite ?Hfin; intros ->;
          cbn [end_of_tick tick_sleep]; f_equal;
          subst pre mid; cbn [app]; repeat rewrite <- app_assoc; cbn [app];
          rewrite ?app_nil_r; reflexivity.
    + run. finish_run. intros ->. f_equal.
      subst pre. cbn [app]. rewrite <- !app_assoc. reflexivity.
  - rewrite (bind_restarted _ _ _ _ Hw). fold wifi.
    finish_run. intros ->. reflexivity.
Qed.

Lemma guardians_do_not_read l hum temp :
  Forall guardian_event l -> ~ In (EvAhtGetEvent hum temp) l.
Proof.
  intros Hl Hin. rewrite Forall_forall in Hl.
  destruct (Hl _ Hin) as [Hbad _]. discriminate Hbad.
Qed.

Lemma no_sensor_read_not_in l hum temp :
  Forall no_sensor_read l -> ~ In (EvAhtGetEvent hum temp) l.
Proof.
  intros Hl Hin. rewrite Forall_forall in Hl.
  specialize (Hl _ Hin). discriminate Hl.
Qed.

Lemma guardians_status (h : list event) (g : Globals) :
  let wifi := checkWiFiConnection env h g in
  let ntp := checkNTPSync env (h ++ out wifi) (fin wifi) in
  let mem := checkMemory env ((h ++ out wifi) ++ out ntp) (fin ntp) in
  same_status g (fin wifi) /\ same_status g (fin ntp) /\
  Forall guardian_event (out wifi ++ out ntp ++ out mem).
Proof.
  intros wifi ntp mem.
  pose proof (checkWiFi_preserves h g) as H1. fold wifi in H1.
  pose proof (checkNTPSync_preserves (h ++ out wifi) (fin wifi)) as H2. fold ntp in H2.
  split; [exact H1 | split; [exact (same_status_trans _ _ _ H1 H2) |]].
  apply Forall_app; split; [apply checkWiFi_emits |].
  apply Forall_app; split; [apply checkNTPSync_emits | apply checkMemory_emits].
Qed.

(** A tick whose sensor reading is invalid: the watchdog is fed, the three
    guardians run and return, the time is read, the sensor is read, the
    error is shown for two seconds, and the tick returns with the shared
    status as it was. *)
Lemma invalid_reading_tick (fuel : nat) (h : list event) (g : Globals)
  (hum temp : CFloat.float) :
  let r := loop env fuel h g in
  let wifi := checkWiFiConnection env (h ++ [EvWdtReset]) g in
  let ntp := checkNTPSync env ((h ++ [EvWdtReset]) ++ out wifi) (fin wifi) in
  let mem := checkMemory env (((h ++ [EvWdtReset]) ++ out wifi) ++ out ntp) (fin ntp) in
  In (EvAhtGetEvent hum temp) (out r) ->
  CFloat.isnan temp || CFloat.isnan hum = true ->
  same_status g (fin ntp) /\
  exists t,
    r = mkResult (Returned tt) (fin ntp)
          ([EvWdtReset] ++ out wifi ++ out ntp ++ out mem ++
           EvGetLocalTime (Some t) :: sensor_fault_events hum temp).
Proof.
  intros r wifi ntp mem Hin Hnan.
  destruct (guardians_status (h ++ [EvWdtReset]) g) as [Hs1 [Hs2 Hg]].
  fold wifi in Hs1, Hs2, Hg. fold ntp in Hs2, Hg. fold mem in Hg.
  split; [exact Hs2 |].
  assert (Hpre : ~ In (EvAhtGetEvent hum temp)
                     ([EvWdtReset] ++ out wifi ++ out ntp ++ out mem)).
  { intros [Hbad | Hbad]; [discriminate Hbad |].
    exact (guardians_do_not_read _ _ _ Hg Hbad). }
  assert (Hwifi : ~ In (EvAhtGetEvent hum temp) ([EvWdtReset] ++ out wifi)).
  { intros Hbad. apply Hpre. apply in_app_or in Hbad. apply in_or_app.
    destruct Hbad as [Hbad | Hbad]; [left; exact Hbad | right].
    apply in_or_app. left. exact Hbad. }
  pose proof (loop_trace fuel h g) as T. cbv zeta in T.
  fold r wifi in T. fold ntp in T. fold mem in T.
  destruct (res wifi) as [[]| | |];
    try (exfalso; rewrite T in Hin; exact (Hwifi Hin)).
  destruct (env_getLocalTime env _) as [t0|].
  - destruct (env_aht env _) as [hum' temp']. cbn [fst snd] in T.
    destruct (CFloat.isnan temp' || CFloat.isnan hum') eqn:Hok.
    + rewrite T in Hin. cbn [out] in Hin.
      apply in_app_or in Hin. destruct Hin as [Hin | Hin]; [exfalso; exact (Hpre Hin) |].
      cbn in Hin. destruct Hin as [Hin | Hin]; [discriminate Hin |].
      destruct Hin as [Hin | Hin].
      * injection Hin as -> ->. exists (int_tm t0). rewrite T.
        rewrite <- !app_assoc. reflexivity.
      * exfalso.
        repeat (destruct Hin as [Hin | Hin]; [discriminate Hin |]). exact Hin.
    + exfalso.
      assert (Hrest : forall post,
                 Forall no_sensor_read post ->
                 In (EvAhtGetEvent hum temp)
                    (([EvWdtReset] ++ out wifi ++ out ntp ++ out mem) ++
                     EvGetLocalTime (Some (int_tm t0)) :: EvAhtGetEvent hum' temp' :: post) ->
                 False).
      { intros post Hpost Hin'.
        apply in_app_or in Hin'. destruct Hin' as [Hin' | Hin']; [exact (Hpre Hin') |].
        destruct Hin' as [Hin' | Hin']; [discriminate Hin' |].
        destruct Hin' as [Hin' | Hin'].
        - injection Hin' as -> ->. rewrite Hnan in Hok. discriminate Hok.
        - exact (no_sensor_read_not_in _ _ _ Hpost Hin'). }
      destruct (texts_fit (int_tm t0) hum' temp').
      * destruct T as (w1 & w2 & w3 & st & T). cbv zeta in T.
        rewrite T in Hin. cbn [out] in Hin.
        match type of Hin with
        | context [out (server_handleClient env fuel ?h' ?g')] =>
            assert (Hout : Forall no_sensor_read (out (server_handleClient env fuel h' g')))
              by apply (proj2 (server_handleClient_quiet fuel));
            set (hc := server_handleClient env fuel h' g') in *
        end.
        apply (Hrest (List.tl (success_events (int_tm t0) hum' temp' w1 w2 w3 st) ++
                      out hc ++ tick_sleep (res hc))); [| exact Hin].
        clearbody hc. cbn [success_events List.tl].
        repeat (apply Forall_cons; [reflexivity |]).
        apply Forall_app. split; [exact Hout |].
        destruct (res hc); repeat constructor.
      * destruct T as (_ & _ & post & Eo & Hpost & _). rewrite Eo in Hin.
        apply (Hrest post); [| exact Hin].
        revert Hpost. apply Forall_impl. intros e [_ [He _]]. exact He.
  - exfalso. rewrite T in Hin. cbn [out] in Hin.
    apply in_app_or in Hin. destruct Hin as [Hin | Hin]; [exact (Hpre Hin) |].
    cbn in Hin. repeat (destruct Hin as [Hin | Hin]; [discriminate Hin |]). exact Hin.
Qed.

(** C1.  In a tick whose sensor reading is invalid (the temperature or the
    humidity is NaN), the status that the HTTP handlers read
    ([currentTemperature], [currentHumidity], [currentTime], [currentDate])
    is the same after the tick as before it. *)
Theorem invalid_reading_keeps_status (fuel : nat) (h : list event) (g : Globals)
  (hum temp : CFloat.float) :
  let r := loop env fuel h g in
  In (EvAhtGetEvent hum temp) (out r) ->
  CFloat.isnan temp || CFloat.isnan hum = true ->
  shared (fin r) = shared g.
Proof.
  intros r Hin Hnan.
  destruct (invalid_reading_tick fuel h g hum temp Hin Hnan) as [[Hs _] [t E]].
  fold r in E. rewrite E. exact Hs.
Qed.

(** C3, as the sketch has it.  A tick whose sensor reading is invalid
    feeds the watchdog first, then runs the three guardians (network, time,
    memory), reads the time and the sensor, shows the sensor error, sleeps
    2000 ms and returns; it draws no reading and leaves the shared status
    and the first-data flag as they were. *)
Theorem invalid_reading_tick_runs_guardians (fuel : nat) (h : list event)
  (g : Globals) (hum temp : CFloat.float) :
  let r := loop env fuel h g in
  let wifi := checkWiFiConnection env (h ++ [EvWdtReset]) g in
  let ntp := checkNTPSync env ((h ++ [EvWdtReset]) ++ out wifi) (fin wifi) in
  let mem := checkMemory env (((h ++ [EvWdtReset]) ++ out wifi) ++ out ntp) (fin ntp) in
  In (EvAhtGetEvent hum temp) (out r) ->
  CFloat.isnan temp || CFloat.isnan hum = true ->
  res r = Returned tt /\
  (exists t,
     out r = [EvWdtReset] ++ out wifi ++ out ntp ++ out mem ++
             EvGetLocalTime (Some t) :: sensor_fault_events hum temp) /\
  shared (fin r) = shared g /\
  firstDataReady (fin r) = firstDataReady g.
Proof.
  intros r wifi ntp mem Hin Hnan.
  destruct (invalid_reading_tick fuel h g hum temp Hin Hnan) as [[Hs Hf] [t E]].
  fold r wifi ntp mem in E. rewrite E. cbn [res fin out].
  split; [reflexivity | split; [exists t; reflexivity | split; assumption]].
Qed.

Lemma times_preserves (R : Globals -> Globals -> Prop) (m : M unit) (n : nat) :
  (forall g, R g g) -> (forall a b c, R a b -> R b c -> R a c) ->
  preserves R m -> preserves R (times n m).
Proof.
  intros Hrefl Htrans Hm. induction n as [|n IH]; cbn [times].
  - apply (preserves_ret _ Hrefl).
  - apply (preserves_bind _ Htrans); [exact Hm | intros _; exact IH].
Qed.

End Tick.

Lemma invalid_reading_keeps_status_witness :
  In (EvAhtGetEvent (CFloat.of_Z 60) S754_nan)
     (out (loop faulty_sensor_env 1 [] scenario_globals)) /\
  CFloat.isnan S754_nan || CFloat.isnan (CFloat.of_Z 60) = true /\
  shared (fin (loop faulty_sensor_env 1 [] scenario_globals)) = shared scenario_globals.
Proof.
  assert (Hin : In (EvAhtGetEvent (CFloat.of_Z 60) S754_nan)
                   (out (loop faulty_sensor_env 1 [] scenario_globals)))
    by (vm_compute; repeat (first [left; reflexivity | right])).
  split; [exact Hin | split; [reflexivity |]].
  exact (invalid_reading_keeps_status faulty_sensor_env 1 [] scenario_globals
           (CFloat.of_Z 60) S754_nan Hin eq_refl).
Defined.

Lemma invalid_reading_tick_witness :
  In (EvAhtGetEvent (CFloat.of_Z 60) S754_nan)
     (out (loop faulty_sensor_env 1 [] scenario_globals)) /\
  res (loop faulty_sensor_env 1 [] scenario_globals) = Returned tt.
Proof.
  assert (Hin : In (EvAhtGetEvent (CFloat.of_Z 60) S754_nan)
                   (out (loop faulty_sensor_env 1 [] scenario_globals)))
    by (vm_compute; repeat (first [left; reflexivity | right])).
  split; [exact Hin |].
  exact (proj1 (invalid_reading_tick_runs_guardians faulty_sensor_env 1 []
                  scenario_globals (CFloat.of_Z 60) S754_nan Hin eq_refl)).
Defined.

(** C3 as stated does not hold: with a request pending, a tick whose
    reading is NaN returns without calling [server.handleClient()] and
    without the 1000 ms sleep that ends a successful tick. *)
Lemma invalid_reading_tick_skips_server :
  In (EvAhtGetEvent (CFloat.of_Z 60) S754_nan)
     (out (loop faulty_sensor_env 1 [] initial_globals)) /\
  existsb is_handle_client (out (loop faulty_sensor_env 1 [] initial_globals)) = false /\
  ~ In (EvDelay 1000) (out (loop faulty_sensor_env 1 [] initial_globals)).
Proof.
  split; [vm_compute; repeat (first [left; reflexivity | right]) |].
  split; [vm_compute; reflexivity |].
  vm_compute. intros H.
  repeat (destruct H as [H | H]; [discriminate H |]). exact H.
Qed.

Example successful_tick_serves_client :
  existsb is_handle_client (out (loop calm_env 1 [] initial_globals)) = true /\
  In (EvDelay 1000) (out (loop calm_env 1 [] initial_globals)).
Proof.
  split; [vm_compute; reflexivity |].
  vm_compute. repeat (first [left; reflexivity | right]).
Qed.

(** * Further properties *)

(** ** The guardians, call by call *)

Lemma ulong_sub_elapsed (last d : Z) :
  0 <= last < 2 ^ 32 -> 0 <= d < 2 ^ 32 ->
  CInt.ulong_sub (CInt.to_uint32 (last + d)) last = d.
Proof.
  intros Hl Hd. unfold CInt.ulong_sub, CInt.to_uint32.
  rewrite Zminus_mod_idemp_l.
  replace (last + d - last) with d by lia.
  apply Z.mod_small. exact Hd.
Qed.

Lemma to_uint32_range (z : Z) : 0 <= CInt.to_uint32 z < 2 ^ 32.
Proof. unfold CInt.to_uint32. apply Z.mod_pos_bound. reflexivity. Qed.

Lemma fold_status_from (l : list event) :
  forall acc,
    fold_left (fun acc e => match e with
                            | EvWiFiStatus s => Some s
                            | _ => acc
                            end) l acc =
    match last_status l with
    | Some s => Some s
    | None => acc
    end.
Proof.
  unfold last_status.
  induction l as [|e l IH]; intros acc; cbn [fold_left]; [reflexivity |].
  destruct e; try apply IH.
  rewrite (IH (Some s)), (IH None).
  destruct (fold_left _ l None); reflexivity.
Qed.

Lemma last_status_app (a b : list event) :
  last_status (a ++ b) =
    match last_status b with
    | Some s => Some s
    | None => last_status a
    end.
Proof.
  unfold last_status at 1. rewrite fold_left_app. apply fold_status_from.
Qed.

Section GuardianTraces.

Variable env : Env.

(** The whole result of one call of the network guardian. *)
Lemma checkWiFi_trace (h : list event) (g : Globals) :
  let r := checkWiFiConnection env h g in
  let now := CInt.to_uint32 (env_millis env h) in
  let g1 := set_lastWiFiCheck now g in
  let s0 := env_wifi_status env (h ++ [EvMillis now]) in
  let pre := lost_events now s0 (reconnectCount g) in
  let w := out (wifi_wait env 10 (h ++ pre) g1) in
  let s2 := env_wifi_status env ((h ++ pre) ++ w) in
  let bumped := CInt.int_add (reconnectCount g) 1 in
  if wifiCheckInterval <=? CInt.ulong_sub now (lastWiFiCheck g) then
    if is_connected s0 then
      r = mkResult (Returned tt) (set_reconnectCount 0 g1) [EvMillis now; EvWiFiStatus s0]
    else if is_connected s2 then
      exists ip ok,
        r = mkResult (Returned tt) (set_reconnectCount 0 g1)
              (pre ++ w ++ reconnected_events s2 ip ok)
    else if maxReconnectCount <=? bumped then
      r = mkResult Restarted (set_reconnectCount bumped g1)
            (pre ++ w ++ failed_events s2 ++ restart_events)
    else
      r = mkResult (Returned tt) (set_reconnectCount bumped g1)
            (pre ++ w ++ failed_events s2)
  else
    r = mkResult (Returned tt) g [EvMillis now].
Proof.
  intros r now g1 s0 pre w s2 bumped.
  assert (E : r = checkWiFiConnection env h g) by reflexivity.
  clearbody r. revert E.
  unfold checkWiFiConnection. unfold_calls. run. subst a. fold now.
  destruct (wifiCheckInterval <=? CInt.ulong_sub now (lastWiFiCheck g)) eqn:Hdue.
  - run. subst a. fold s0. fold g1.
    destruct (is_connected s0) eqn:Hs0; cbn [negb].
    + run. finish_run. intros ->. reflexivity.
    + run. rewrite (bind_returned _ _ _ _ tt (wifi_wait_returns env 10 _ _)).
      rewrite !wifi_wait_fin.
      repeat rewrite <- app_assoc. cbn [app].
      set (w0 := out (wifi_wait env 10 _ _)).
      assert (Hw0 : w0 = w) by reflexivity. clearbody w0. subst w0.
      run.
      assert (Hs2 : a = s2)
        by (subst a; unfold s2; rewrite <- app_assoc; reflexivity).
      clear Ha. subst a.
      destruct (is_connected s2) eqn:Hc2.
      * run. clear Ha Ha0. rename a into ip. rename a0 into ok.
        exists ip, ok. revert E.
        destruct ok; cbn [negb]; finish_run; intros ->; reflexivity.
      * run. cbn [reconnectCount set_reconnectCount].
        change (CInt.int_add (reconnectCount g1) 1) with bumped.
        destruct (maxReconnectCount <=? bumped) eqn:Hmax; run; finish_run;
          intros ->; reflexivity.
  - finish_run. intros ->. reflexivity.
Qed.


(** The whole result of one call of the time guardian. *)
Lemma checkNTPSync_trace (h : list event) (g : Globals) :
  let r := checkNTPSync env h g in
  let now := CInt.to_uint32 (env_millis env h) in
  let t := option_map int_tm
             (env_getLocalTime env
                (h ++ [EvMillis now;
                       EvConfigTime gmtOffset_sec daylightOffset_sec ntpServer])) in
  r = if ntpCheckInterval <=? CInt.ulong_sub now (lastNTPCheck g)
      then mkResult (Returned tt) (set_lastNTPCheck now g) (resync_events now t)
      else mkResult (Returned tt) g [EvMillis now].
Proof.
  intros r now t. subst r.
  unfold checkNTPSync. unfold_calls. run. subst a. fold now.
  destruct (ntpCheckInterval <=? CInt.ulong_sub now (lastNTPCheck g)).
  - run. assert (Ht : a = t)
      by (subst a; unfold t; rewrite <- app_assoc; reflexivity).
    clear Ha. subst a.
    destruct t; finish_run; reflexivity.
  - finish_run. reflexivity.
Qed.

(** The whole result of one call of the memory guardian. *)
Lemma checkMemory_trace (h : list event) (g : Globals) :
  let r := checkMemory env h g in
  let freeHeap := CInt.to_uint32 (env_freeHeap env h) in
  let minFreeHeap := CInt.to_uint32 (env_minFreeHeap env (h ++ [EvGetFreeHeap freeHeap])) in
  r = mkResult (Returned tt) g
        ([EvGetFreeHeap freeHeap; EvGetMinFreeHeap minFreeHeap] ++
         if freeHeap <? 30000
         then [ EvSerialPrint (PStr "WARNING: Low memory! Free: ");
                EvSerialPrint (PNum freeHeap);
                EvSerialPrint (PStr " bytes, Min: ");
                EvSerialPrint (PNum minFreeHeap);
                EvSerialPrintln (PStr " bytes");
                EvClearBuffer;
                EvSetFont u8g2_font_ncenB08_tr;
                EvDrawStr 0 15 "Low Memory!";
                EvDrawStr 0 30 ("Free: " +++ Text.decimal (freeHeap / 1024) +++ "KB");
                EvSendBuffer;
                EvDelay 2000 ]
         else []).
Proof.
  intros r freeHeap minFreeHeap. subst r.
  unfold checkMemory. unfold_calls. run. subst a a0. fold freeHeap. fold minFreeHeap.
  destruct (freeHeap <? 30000); run; finish_run; reflexivity.
Qed.

Lemma sleep_ms_app (a b : list event) : sleep_ms (a ++ b) = sleep_ms a + sleep_ms b.
Proof.
  induction a as [|e a IH]; cbn [app sleep_ms fold_right]; [reflexivity |].
  fold (sleep_ms (a ++ b)). fold (sleep_ms a). rewrite IH. lia.
Qed.

Lemma wdt_feeds_app (a b : list event) :
  wdt_feeds (a ++ b) = (wdt_feeds a + wdt_feeds b)%nat.
Proof. unfold wdt_feeds. rewrite filter_app, length_app. reflexivity. Qed.

Lemma status_polls_app (a b : list event) :
  status_polls (a ++ b) = (status_polls a + status_polls b)%nat.
Proof. unfold status_polls. rewrite filter_app, length_app. reflexivity. Qed.

(** The calls of the polling loop: a status query, then 1000 ms and a dot
    for every query but the last. *)
Lemma wifi_wait_counts (n : nat) :
  forall h g,
    let w := out (wifi_wait env n h g) in
    (1 <= status_polls w <= n + 1)%nat /\
    sleep_ms w = 1000 * (Z.of_nat (status_polls w) - 1) /\
    wdt_feeds w = 0%nat /\
    (last_status w <> Some WL_CONNECTED -> status_polls w = (n + 1)%nat).
Proof.
  induction n as [|n IH]; intros h g w; subst w; cbn [wifi_wait]; unfold_calls; run.
  - finish_run. cbn. repeat split; try lia.
  - clear Ha. rename a into s.
    destruct (is_connected s) eqn:Hs; cbn [negb].
    + finish_run. cbn. repeat split; try lia.
      intros H. exfalso. apply H. destruct s; try discriminate Hs. reflexivity.
    + run. finish_run.
      match goal with
      | |- context [out (wifi_wait env n ?h' ?g')] =>
          specialize (IH h' g'); cbv zeta in IH;
          set (w := out (wifi_wait env n h' g')) in *
      end.
      destruct IH as [[I1 I2] [I3 [I4 I5]]].
      change (EvWiFiStatus s :: EvDelay 1000 :: EvSerialPrint (PStr ".") :: w)
        with ([EvWiFiStatus s; EvDelay 1000; EvSerialPrint (PStr ".")] ++ w).
      rewrite status_polls_app, sleep_ms_app, wdt_feeds_app.
      change (status_polls [EvWiFiStatus s; EvDelay 1000; EvSerialPrint (PStr ".")])
        with 1%nat.
      change (sleep_ms [EvWiFiStatus s; EvDelay 1000; EvSerialPrint (PStr ".")])
        with 1000.
      change (wdt_feeds [EvWiFiStatus s; EvDelay 1000; EvSerialPrint (PStr ".")])
        with 0%nat.
      repeat split; try lia.
      intros H. rewrite I5; [lia |].
      intros Hc. apply H. rewrite last_status_app, Hc. reflexivity.
Qed.


Lemma wifi_wait_stops_when_connected (n : nat) :
  forall h g p1 s p2,
    out (wifi_wait env n h g) = p1 ++ EvWiFiStatus s :: p2 ->
    is_connected s = true -> p2 = [].
Proof.
  induction n as [|n IH]; intros h g p1 s p2; cbn [wifi_wait]; unfold_calls; run.
  - finish_run. clear Ha.
    destruct p1 as [|e p1]; cbn [app]; intros E _.
    + injection E as _ <-. reflexivity.
    + injection E as _ E. destruct p1; discriminate E.
  - clear Ha. rename a into s0.
    destruct (is_connected s0) eqn:Hs0; cbn [negb].
    + finish_run.
      destruct p1 as [|e p1]; cbn [app]; intros E _.
      * injection E as _ <-. reflexivity.
      * injection E as _ E. destruct p1; discriminate E.
    + run. finish_run.
      destruct p1 as [|e1 p1]; cbn [app]; intros E Hs.
      * injection E as <- _. rewrite Hs in Hs0. discriminate Hs0.
      * injection E as _ E.
        destruct p1 as [|e2 p1]; cbn [app] in E; [discriminate E |].
        injection E as _ E.
        destruct p1 as [|e3 p1]; cbn [app] in E; [discriminate E |].
        injection E as _ E.
        exact (IH _ _ _ _ _ E Hs).
Qed.

(** X1.  The polling loop of the network guardian is bounded: it reads
    the link status at least once and at most 11 times, sleeps exactly
    1000 ms between two reads (so 10 s at most), stops right after the first
    connected status, and when the last status it reads is not connected it
    has used all 11 reads. *)
Theorem wifi_wait_bounded (h : list event) (g : Globals) :
  let r := wifi_wait env 10 h g in
  res r = Returned tt /\ fin r = g /\
  (1 <= status_polls (out r) <= 11)%nat /\
  sleep_ms (out r) = 1000 * (Z.of_nat (status_polls (out r)) - 1) /\
  sleep_ms (out r) <= 10000 /\
  (forall p1 s p2,
     out r = p1 ++ EvWiFiStatus s :: p2 -> is_connected s = true -> p2 = []) /\
  (last_status (out r) <> Some WL_CONNECTED -> status_polls (out r) = 11%nat).
Proof.
  intros r.
  destruct (wifi_wait_counts 10 h g) as [[H1 H2] [H3 [_ H5]]]. fold r in H1, H2, H3, H5.
  split; [apply wifi_wait_returns |].
  split; [apply wifi_wait_fin |].
  split; [split; [exact H1 | exact H2] |].
  split; [exact H3 |].
  split; [rewrite H3; lia |].
  split; [apply wifi_wait_stops_when_connected | exact H5].
Qed.

(** X2.  The network check is throttled by the elapsed time, also across
    the wrap of the 32-bit clock: when [d] milliseconds have passed since
    [lastWiFiCheck], a call with [d < 30000] only reads the clock and changes
    nothing; a call with [d >= 30000] stores the clock reading in
    [lastWiFiCheck] and reads the link status next. *)
Theorem wifi_check_interval (h : list event) (g : Globals) (d : Z) :
  let r := checkWiFiConnection env h g in
  let now := CInt.to_uint32 (env_millis env h) in
  let s0 := env_wifi_status env (h ++ [EvMillis now]) in
  0 <= lastWiFiCheck g < 2 ^ 32 ->
  0 <= d < 2 ^ 32 ->
  now = CInt.to_uint32 (lastWiFiCheck g + d) ->
  (d < wifiCheckInterval -> r = mkResult (Returned tt) g [EvMillis now]) /\
  (wifiCheckInterval <= d ->
     lastWiFiCheck (fin r) = now /\
     0 <= lastWiFiCheck (fin r) < 2 ^ 32 /\
     exists rest, out r = EvMillis now :: EvWiFiStatus s0 :: rest).
Proof.
  intros r now s0 Hl Hd Hnow.
  pose proof (checkWiFi_trace h g) as T. cbv zeta in T.
  fold now in T. fold s0 in T. fold r in T.
  assert (He : CInt.ulong_sub now (lastWiFiCheck g) = d)
    by (rewrite Hnow; apply ulong_sub_elapsed; assumption).
  rewrite He in T. split.
  - intros Hlt. apply Z.leb_gt in Hlt. rewrite Hlt in T. exact T.
  - intros Hge. apply Z.leb_le in Hge. rewrite Hge in T.
    assert (Hr : 0 <= now < 2 ^ 32) by apply to_uint32_range.
    destruct (is_connected s0).
    + rewrite T. cbn [fin out lastWiFiCheck set_reconnectCount set_lastWiFiCheck].
      split; [reflexivity | split; [exact Hr | eexists; reflexivity]].
    + destruct (is_connected _).
      * destruct T as (ip & ok & ->).
        cbn [fin out lastWiFiCheck set_reconnectCount set_lastWiFiCheck].
        split; [reflexivity | split; [exact Hr | eexists; reflexivity]].
      * destruct (maxReconnectCount <=? _); rewrite T;
          cbn [fin out lastWiFiCheck set_reconnectCount set_lastWiFiCheck];
          (split; [reflexivity | split; [exact Hr | eexists; reflexivity]]).
Qed.

(** X3.  The time guardian is throttled the same way and a failed sync is
    not fatal: with [d < 600000] ms since [lastNTPCheck] a call only reads
    the clock; with [d >= 600000] it stores the clock reading, calls
    [configTime] with the offsets and the server of the sketch, queries the
    time once, logs the outcome and returns, whether or not the time is
    available. *)
Theorem ntp_sync_interval (h : list event) (g : Globals) (d : Z) :
  let r := checkNTPSync env h g in
  let now := CInt.to_uint32 (env_millis env h) in
  0 <= lastNTPCheck g < 2 ^ 32 ->
  0 <= d < 2 ^ 32 ->
  now = CInt.to_uint32 (lastNTPCheck g + d) ->
  (d < ntpCheckInterval -> r = mkResult (Returned tt) g [EvMillis now]) /\
  (ntpCheckInterval <= d ->
     exists t,
       r = mkResult (Returned tt) (set_lastNTPCheck now g) (resync_events now t)).
Proof.
  intros r now Hl Hd Hnow.
  pose proof (checkNTPSync_trace h g) as T. cbv zeta in T.
  fold now in T. fold r in T.
  assert (He : CInt.ulong_sub now (lastNTPCheck g) = d)
    by (rewrite Hnow; apply ulong_sub_elapsed; assumption).
  rewrite He in T. split.
  - intros Hlt. apply Z.leb_gt in Hlt. rewrite Hlt in T. exact T.
  - intros Hge. apply Z.leb_le in Hge. rewrite Hge in T.
    eexists. exact T.
Qed.

(** What a restart of the network guardian looks like. *)
Lemma checkWiFi_restart_shape (h : list event) (g : Globals) :
  let r := checkWiFiConnection env h g in
  res r = Restarted ->
  (exists before, out r = before ++ restart_events) /\
  maxReconnectCount <= reconnectCount (fin r).
Proof.
  intros r Hres.
  pose proof (checkWiFi_trace h g) as T. cbv zeta in T. fold r in T.
  destruct (wifiCheckInterval <=? _); [| rewrite T in Hres; discriminate Hres].
  destruct (is_connected _); [rewrite T in Hres; discriminate Hres |].
  destruct (is_connected _).
  { destruct T as (ip & ok & T). rewrite T in Hres. discriminate Hres. }
  destruct (maxReconnectCount <=? _) eqn:Hmax;
    [| rewrite T in Hres; discriminate Hres].
  rewrite T. cbn [out fin reconnectCount set_reconnectCount]. split.
  - eexists. rewrite !app_assoc. reflexivity.
  - apply Z.leb_le. exact Hmax.
Qed.

(** X4.  Whenever the network guardian restarts the device, the last
    things it does are: log the reason, show WiFi Failed! and Restarting...
    on the display, send the buffer, wait 2000 ms, restart; and the failure
    counter has reached the maximum. *)
Theorem restart_leaves_message (h : list event) (g : Globals) :
  let r := checkWiFiConnection env h g in
  res r = Restarted ->
  (exists before, out r = before ++ restart_events) /\
  maxReconnectCount <= reconnectCount (fin r).
Proof.
  intros r Hres. split.
  - exact (proj1 (checkWiFi_restart_shape h g Hres)).
  - exact (proj2 (checkWiFi_restart_shape h g Hres)).
Qed.

(** The sleep of one call of the network guardian. *)
Lemma checkWiFi_sleep (h : list event) (g : Globals) :
  let r := checkWiFiConnection env h g in
  0 <= sleep_ms (out r) /\
  wdt_feeds (out r) = 0%nat /\
  match res r with
  | Returned _ => sleep_ms (out r) <= 10000
  | _ => sleep_ms (out r) <= 12000
  end.
Proof.
  intros r.
  pose proof (checkWiFi_trace h g) as T. cbv zeta in T. fold r in T.
  destruct (wifiCheckInterval <=? _); [| rewrite T; cbn; repeat split; lia].
  destruct (is_connected _); [rewrite T; cbn; repeat split; lia |].
  match type of T with
  | context [out (wifi_wait env 10 ?h' ?g')] =>
      destruct (wifi_wait_counts 10 h' g') as (Hp & Hs & Hf & _);
      set (w := out (wifi_wait env 10 h' g')) in *
  end.
  assert (Hw0 : 0 <= sleep_ms w) by (rewrite Hs; lia).
  assert (Hb : sleep_ms w <= 10000) by (rewrite Hs; lia).
  assert (L1 : forall a b c, sleep_ms (lost_events a b c) = 0) by reflexivity.
  assert (L2 : forall a b c, wdt_feeds (lost_events a b c) = 0%nat) by reflexivity.
  assert (R1 : forall a b c, sleep_ms (reconnected_events a b c) = 0)
    by (intros a b c; destruct c; reflexivity).
  assert (R2 : forall a b c, wdt_feeds (reconnected_events a b c) = 0%nat)
    by (intros a b c; destruct c; reflexivity).
  assert (F1 : forall a, sleep_ms (failed_events a) = 0) by reflexivity.
  assert (F2 : forall a, wdt_feeds (failed_events a) = 0%nat) by reflexivity.
  assert (S1 : sleep_ms restart_events = 2000) by reflexivity.
  assert (S2 : wdt_feeds restart_events = 0%nat) by reflexivity.
  destruct (is_connected _).
  - destruct T as (ip & ok & ->). cbn [res out].
    rewrite !sleep_ms_app, !wdt_feeds_app, Hf, L1, L2, R1, R2.
    repeat split; lia.
  - destruct (maxReconnectCount <=? _); rewrite T; cbn [res out];
      rewrite !sleep_ms_app, !wdt_feeds_app, Hf, L1, L2, F1, F2, ?S1, ?S2;
      repeat split; lia.
Qed.

End GuardianTraces.

(** ** The network guardian against the platform *)

Section GuardianVerdicts.

Variable env : Env.

Lemma existsb_begin_app (a b : list event) :
  existsb is_begin (a ++ b) = existsb is_begin a || existsb is_begin b.
Proof. apply existsb_app. Qed.

Lemma wifi_wait_last_status (h : list event) (g : Globals) (s2 : wl_status_t)
  (tl : list event) :
  last_status tl = None ->
  last_status (out (wifi_wait env 10 h g) ++ EvWiFiStatus s2 :: tl) = Some s2.
Proof.
  intros Htl.
  change (EvWiFiStatus s2 :: tl) with ([EvWiFiStatus s2] ++ tl).
  rewrite !last_status_app, Htl. reflexivity.
Qed.

(** The verdict read off the platform calls of a call of the guardian is
    the one that the platform presented to it. *)
Lemma link_check_verdict (h : list event) (g : Globals) :
  verdict_of (out (checkWiFiConnection env h g)) = link_check env h g.
Proof.
  pose proof (checkWiFi_trace env h g) as T. cbv zeta in T.
  unfold link_check. cbv zeta.
  set (now := CInt.to_uint32 (env_millis env h)) in *.
  set (s0 := env_wifi_status env (h ++ [EvMillis now])) in *.
  set (pre := lost_events now s0 (reconnectCount g)) in *.
  set (w := out (wifi_wait env 10 (h ++ pre) (set_lastWiFiCheck now g))) in *.
  set (s2 := env_wifi_status env ((h ++ pre) ++ w)) in *.
  assert (Hw : existsb is_begin w = false).
  { apply wait_events_no_begin. apply wifi_wait_emits. }
  assert (Hpre : existsb is_begin pre = true) by reflexivity.
  assert (Hlast : forall tl, last_status tl = None ->
            last_status (pre ++ w ++ EvWiFiStatus s2 :: tl) = Some s2).
  { intros tl Htl. rewrite last_status_app. unfold w.
    rewrite (wifi_wait_last_status _ _ s2 tl Htl). reflexivity. }
  destruct (wifiCheckInterval <=? _).
  - destruct (is_connected s0) eqn:Hs0.
    + rewrite T. reflexivity.
    + destruct (is_connected s2) eqn:Hs2.
      * destruct T as (ip & ok & T). rewrite T. cbn [out]. unfold verdict_of.
        rewrite !existsb_begin_app, Hpre. cbn [orb].
        unfold reconnected_events. cbn [app].
        rewrite Hlast by (destruct ok; reflexivity).
        rewrite Hs2. reflexivity.
      * destruct (maxReconnectCount <=? _); rewrite T; cbn [out]; unfold verdict_of;
          rewrite !existsb_begin_app, Hpre; cbn [orb];
          unfold failed_events; cbn [app];
          rewrite Hlast by reflexivity; rewrite Hs2; reflexivity.
  - rewrite T. reflexivity.
Qed.

Lemma platform_verdicts_read (n : nat) :
  forall h g,
    map (fun x => verdict_of (out x)) (guardian_calls env n h g) =
    platform_verdicts env n h g.
Proof.
  induction n as [|n IH]; intros h g; [reflexivity |].
  cbn [guardian_calls platform_verdicts map].
  rewrite link_check_verdict. f_equal.
  destruct (res (checkWiFiConnection env h g)); [apply IH | reflexivity ..].
Qed.

(** C2.  Start the network guardian with [reconnectCount = 0] and call it
    any number of times, on any platform.  Each call is judged by what the
    platform presents to it: the check is not due, the link is up, the
    reconnect attempt ends connected, or it ends not connected (a failure).
    After every call the counter equals the number of consecutive failures
    that the platform has presented so far; as long as that number is below 5
    the call returns and asks for no restart; the call at which it reaches 5
    is a failed reconnect, asks for the restart exactly once and is the last
    call of the run.  The whole run asks for at most one restart, and the
    platform calls of every call show the verdict that was presented. *)
Theorem restart_exactly_at_fifth_failure (n : nat) (h : list event) (g : Globals) :
  reconnectCount g = 0 ->
  let rs := guardian_calls env n h g in
  let vs := platform_verdicts env n h g in
  List.length vs = List.length rs /\
  map (fun x => verdict_of (out x)) rs = vs /\
  (forall k r,
     nth_error rs k = Some r ->
     let c := failure_streak 0 (firstn (S k) vs) in
     reconnectCount (fin r) = c /\
     c <= maxReconnectCount /\
     (c < maxReconnectCount -> res r = Returned tt /\ restarts (out r) = 0%nat) /\
     (c = maxReconnectCount ->
        res r = Restarted /\ restarts (out r) = 1%nat /\
        nth_error vs k = Some ReconnectFailed /\ S k = List.length rs)) /\
  (restarts (List.concat (map out rs)) <= 1)%nat.
Proof.
  intros H0 rs vs.
  assert (Hc : 0 <= reconnectCount g < maxReconnectCount)
    by (rewrite H0; unfold maxReconnectCount; lia).
  assert (Hvs : map (fun x => verdict_of (out x)) rs = vs)
    by apply platform_verdicts_read.
  split; [rewrite <- Hvs; apply length_map |].
  split; [exact Hvs |].
  split.
  - intros k r Hk. cbv zeta.
    pose proof (guardian_calls_streak env n h g Hc k r Hk) as H. cbv zeta in H.
    fold rs in H. rewrite <- firstn_map, Hvs, H0 in H.
    destruct H as (H1 & H2 & H3 & H4).
    split; [exact H1 | split; [exact H2 | split; [exact H3 |]]].
    intros E. destruct (H4 E) as (J1 & J2 & J3 & J4).
    split; [exact J1 | split; [exact J2 | split; [| exact J4]]].
    rewrite <- Hvs, nth_error_map, Hk. cbn [option_map]. rewrite J3. reflexivity.
  - exact (guardian_calls_restart_once env n h g Hc).
Qed.

Lemma wifi_wait_no_config n : emits (fun e => is_config e = false) (wifi_wait env n).
Proof.
  induction n as [|n IH]; cbn [wifi_wait]; unfold_calls.
  - emit_walk; reflexivity.
  - emit_walk; try exact IH; reflexivity.
Qed.

Lemma no_config_filter (l : list event) :
  Forall (fun e => is_config e = false) l -> filter is_config l = [].
Proof.
  induction 1 as [|e l He _ IH]; cbn [filter]; [reflexivity | rewrite He; exact IH].
Qed.

(** C6, as the sketch has it.  A call of the network guardian attempts a
    reconnect when the check is due and the first status is not connected.
    The attempt succeeds when the status read after the polling loop is
    connected: the call then returns with [reconnectCount] reset to 0 and its
    platform calls end, after [WiFi.begin] and the polling loop, with the
    notice, the address and [WiFi.config] with the address, gateway, subnet
    and the two DNS servers of the sketch.  When that status is not
    connected the attempt has failed, whatever the polling loop saw: the
    counter goes up by one and [WiFi.config] is not called.  On a platform
    whose link stays up once it is up, a connected status inside the polling
    loop is enough for the attempt to succeed. *)
Theorem reconnect_success_resets_and_reconfigures (h : list event) (g : Globals) :
  let r := checkWiFiConnection env h g in
  let now := CInt.to_uint32 (env_millis env h) in
  let s0 := env_wifi_status env (h ++ [EvMillis now]) in
  let pre := lost_events now s0 (reconnectCount g) in
  let w := out (wifi_wait env 10 (h ++ pre) (set_lastWiFiCheck now g)) in
  let s2 := env_wifi_status env ((h ++ pre) ++ w) in
  let attempt :=
    (wifiCheckInterval <=? CInt.ulong_sub now (lastWiFiCheck g)) &&
    negb (is_connected s0) in
  let effects :=
    res r = Returned tt /\
    fin r = set_reconnectCount 0 (set_lastWiFiCheck now g) /\
    reconnectCount (fin r) = 0 /\
    exists ip ok,
      out r = pre ++ w ++ reconnected_events s2 ip ok /\
      filter is_config (out r) =
        [EvWiFiConfig local_IP gateway subnet primaryDNS secondaryDNS ok] in
  (attempt = true -> is_connected s2 = true -> effects) /\
  (attempt = true -> is_connected s2 = false ->
   reconnectCount (fin r) = CInt.int_add (reconnectCount g) 1 /\
   filter is_config (out r) = []) /\
  ((forall h1 h2, env_wifi_status env h1 = WL_CONNECTED ->
                  env_wifi_status env (h1 ++ h2) = WL_CONNECTED) ->
   attempt = true -> In (EvWiFiStatus WL_CONNECTED) w -> effects).
Proof.
  intros r now s0 pre w s2 attempt effects.
  pose proof (checkWiFi_trace env h g) as T. cbv zeta in T.
  fold r now in T. fold s0 in T. fold pre in T. fold w in T. fold s2 in T.
  assert (Hw : filter is_config w = [])
    by (apply no_config_filter; apply wifi_wait_no_config).
  assert (Hpre : filter is_config pre = []) by reflexivity.
  assert (Hgood : attempt = true -> is_connected s2 = true -> effects).
  { intros Ha Hs2. subst attempt effects. apply Bool.andb_true_iff in Ha.
    destruct Ha as [Hdue Hs0]. apply Bool.negb_true_iff in Hs0.
    rewrite Hdue, Hs0, Hs2 in T. destruct T as (ip & ok & T).
    rewrite T. cbn [res fin out].
    split; [reflexivity | split; [reflexivity | split; [reflexivity |]]].
    exists ip, ok. split; [reflexivity |].
    rewrite !filter_app, Hpre, Hw. destruct ok; reflexivity. }
  split; [exact Hgood |]. split.
  - intros Ha Hs2. subst attempt. apply Bool.andb_true_iff in Ha.
    destruct Ha as [Hdue Hs0]. apply Bool.negb_true_iff in Hs0.
    rewrite Hdue, Hs0, Hs2 in T.
    destruct (maxReconnectCount <=? _); rewrite T; cbn [fin out];
      (split; [reflexivity |]); rewrite !filter_app, Hpre, Hw; reflexivity.
  - intros Hstable Ha Hin. apply (Hgood Ha).
    apply in_split in Hin. destruct Hin as (p1 & p2 & Ew).
    pose proof (wifi_wait_statuses env 10 (h ++ pre) (set_lastWiFiCheck now g)
                  p1 WL_CONNECTED p2 Ew) as Hc.
    fold w in Ew. unfold s2. rewrite Ew, app_assoc.
    rewrite (Hstable _ _ (eq_sym Hc)). reflexivity.
Qed.

End GuardianVerdicts.

Lemma recovering_env_stable (h1 h2 : list event) :
  env_wifi_status recovering_env h1 = WL_CONNECTED ->
  env_wifi_status recovering_env (h1 ++ h2) = WL_CONNECTED.
Proof.
  cbn [recovering_env env_wifi_status].
  rewrite filter_app, length_app.
  destruct (List.length (filter is_begin h1)); cbn; [discriminate | reflexivity].
Qed.

Lemma reconnect_success_witness :
  res (checkWiFiConnection recovering_env [] (set_reconnectCount 3 initial_globals)) =
    Returned tt /\
  reconnectCount
    (fin (checkWiFiConnection recovering_env [] (set_reconnectCount 3 initial_globals))) = 0 /\
  filter is_config
    (out (checkWiFiConnection recovering_env [] (set_reconnectCount 3 initial_globals))) =
    [EvWiFiConfig local_IP gateway subnet primaryDNS secondaryDNS true].
Proof.
  pose proof (reconnect_success_resets_and_reconfigures recovering_env []
                (set_reconnectCount 3 initial_globals)) as H.
  cbv zeta in H. destruct H as (_ & _ & H).
  specialize (H recovering_env_stable ltac:(vm_compute; reflexivity)
                ltac:(vm_compute; left; reflexivity)).
  destruct H as (H1 & _ & H3 & ip & ok & _ & H4).
  split; [exact H1 | split; [exact H3 |]].
  rewrite H4. vm_compute in H4. injection H4 as <-. reflexivity.
Defined.

(** The claim as the spec words it fails on a link that comes up during
    the polling loop and is down again at the query that decides: a connected
    status is read within the polling window (the fourth of five status
    reads), yet the call counts a failure, from 2 to 3, and does not call
    [WiFi.config]; started with 4 counted failures the same call restarts the
    device. *)
Lemma connected_within_window_is_not_success :
  existsb is_begin
    (out (checkWiFiConnection flapping_env [] (set_reconnectCount 2 initial_globals))) = true /\
  In (EvWiFiStatus WL_CONNECTED)
    (out (checkWiFiConnection flapping_env [] (set_reconnectCount 2 initial_globals))) /\
  status_polls
    (out (checkWiFiConnection flapping_env [] (set_reconnectCount 2 initial_globals))) = 5%nat /\
  res (checkWiFiConnection flapping_env [] (set_reconnectCount 2 initial_globals)) =
    Returned tt /\
  reconnectCount
    (fin (checkWiFiConnection flapping_env [] (set_reconnectCount 2 initial_globals))) = 3 /\
  filter is_config
    (out (checkWiFiConnection flapping_env [] (set_reconnectCount 2 initial_globals))) = [] /\
  In (EvWiFiStatus WL_CONNECTED)
    (out (checkWiFiConnection flapping_env [] (set_reconnectCount 4 initial_globals))) /\
  res (checkWiFiConnection flapping_env [] (set_reconnectCount 4 initial_globals)) =
    Restarted.
Proof.
  split; [vm_compute; reflexivity |].
  split; [vm_compute; repeat (first [left; reflexivity | right]) |].
  split; [vm_compute; reflexivity |].
  split; [vm_compute; reflexivity |].
  split; [vm_compute; reflexivity |].
  split; [vm_compute; reflexivity |].
  split; [vm_compute; repeat (first [left; reflexivity | right]) |].
  vm_compute. reflexivity.
Qed.

(** Five failed reconnects in a row: on a platform whose link is down at
    every query and whose clock makes every check due, the first four calls
    return with the counter at 1, 2, 3 and 4, and the fifth restarts the
    device, once; no sixth call is made. *)
Lemma restart_at_fifth_failure_witness :
  platform_verdicts (link_env WL_DISCONNECTED) 7 [] initial_globals =
    [ReconnectFailed; ReconnectFailed; ReconnectFailed; ReconnectFailed; ReconnectFailed] /\
  exists r,
    nth_error (guardian_calls (link_env WL_DISCONNECTED) 7 [] initial_globals) 4 = Some r /\
    res r = Restarted /\
    restarts (out r) = 1%nat /\
    List.length (guardian_calls (link_env WL_DISCONNECTED) 7 [] initial_globals) = 5%nat.
Proof.
  split; [vm_compute; reflexivity |].
  pose proof (restart_exactly_at_fifth_failure (link_env WL_DISCONNECTED) 7 []
                initial_globals eq_refl) as H.
  cbv zeta in H. destruct H as (_ & _ & H & _).
  destruct (nth_error (guardian_calls (link_env WL_DISCONNECTED) 7 [] initial_globals) 4)
    as [r|] eqn:Hr; [| vm_compute in Hr; discriminate Hr].
  destruct (H 4%nat r Hr) as (_ & _ & _ & H4).
  destruct (H4 ltac:(vm_compute; reflexivity)) as (J1 & J2 & _ & J4).
  exists r. split; [reflexivity |]. split; [exact J1 |]. split; [exact J2 |].
  symmetry. exact J4.
Defined.

Example five_failures_then_restart :
  map (fun r => (res r, reconnectCount (fin r), restarts (out r)))
      (guardian_calls (link_env WL_DISCONNECTED) 7 [] initial_globals) =
    [ (Returned tt, 1, 0%nat); (Returned tt, 2, 0%nat); (Returned tt, 3, 0%nat);
      (Returned tt, 4, 0%nat); (Restarted, 5, 1%nat) ].
Proof. vm_compute. reflexivity. Qed.


Lemma wifi_check_interval_witness :
  checkWiFiConnection calm_env []
    (set_lastWiFiCheck 4294966296 initial_globals) =
  mkResult (Returned tt) (set_lastWiFiCheck 4294966296 initial_globals) [EvMillis 0].
Proof.
  apply (proj1 (wifi_check_interval calm_env []
                  (set_lastWiFiCheck 4294966296 initial_globals) 1000
                  ltac:(cbn; lia) ltac:(lia) eq_refl)).
  reflexivity.
Defined.

Lemma ntp_sync_interval_witness :
  exists t,
    checkNTPSync (link_env WL_CONNECTED) []
      (set_lastNTPCheck 4294397296 initial_globals) =
    mkResult (Returned tt)
      (set_lastNTPCheck 30000 (set_lastNTPCheck 4294397296 initial_globals))
      (resync_events 30000 t).
Proof.
  apply (proj2 (ntp_sync_interval (link_env WL_CONNECTED) []
                  (set_lastNTPCheck 4294397296 initial_globals) 600000
                  ltac:(cbn; lia) ltac:(lia) eq_refl)).
  unfold ntpCheckInterval. lia.
Defined.

(** ** The tick, path by path *)

Section TickTrace.

Variable env : Env.

(** The whole result of one request served by [server.handleClient()]. *)
Lemma server_handleClient_trace (fuel : nat) (h : list event) (g : Globals) :
  server_handleClient env fuel h g =
    match env_client env h with
    | None => mkResult (Returned tt) g [EvHandleClient None]
    | Some rq =>
        extend [EvHandleClient (Some rq)]
          (match find_route (req_uri rq) routes with
           | Some handler => handler
           | None => handleNotFound fuel rq
           end (h ++ [EvHandleClient (Some rq)]) g)
    end.
Proof.
  unfold server_handleClient. run. subst a.
  destruct (env_client env h); [reflexivity |]. finish_run. reflexivity.
Qed.

(** *** What the handlers call *)

Lemma handlers_emit_handler_events uri handler :
  find_route uri routes = Some handler -> emits handler_event handler.
Proof.
  unfold routes. cbn [find_route].
  repeat (destruct (String.eqb uri _);
          [ intros H; injection H as <-;
            unfold handleRoot, handleTemperature, handleHumidity, handleJson;
            unfold_calls; emit_walk; repeat split
          | ]).
  discriminate.
Qed.

Lemma handleNotFound_emits fuel rq : emits handler_event (handleNotFound fuel rq).
Proof.
  unfold handleNotFound. unfold_calls.
  destruct (notFound_args fuel rq 0 (notFound_head rq)).
  - apply emits_emit. repeat split.
  - apply emits_out_of_fuel.
Qed.

Lemma handler_events_facts (l : list event) :
  Forall handler_event l ->
  sleep_ms l = 0 /\ wdt_feeds l = 0%nat /\
  filter is_handle_client l = [] /\ filter is_sensor_read l = [].
Proof.
  induction 1 as [|e l [[H1 H2] [H3 H4]] _ IH]; [repeat split |].
  destruct IH as (I1 & I2 & I3 & I4).
  unfold wdt_feeds in *. cbn [sleep_ms fold_right filter].
  fold (sleep_ms l). rewrite H1, H3, H4, I1, I2, I3, I4.
  destruct e; try discriminate H2; repeat split.
Qed.

Lemma guardian_events_facts (l : list event) :
  Forall guardian_event l ->
  filter is_handle_client l = [] /\ filter is_sensor_read l = [].
Proof.
  induction 1 as [|e l [H1 H2] _ IH]; [repeat split |].
  destruct IH as (I1 & I2). cbn [filter]. rewrite H1, H2, I1, I2. split; reflexivity.
Qed.

(** One call of [server.handleClient()]: the request is looked at once, the
    handler only sends, and the globals stay as they are. *)
Lemma server_handleClient_facts (fuel : nat) (h : list event) (g : Globals) :
  let hc := server_handleClient env fuel h g in
  fin hc = g /\
  exists rest,
    out hc = EvHandleClient (env_client env h) :: rest /\
    Forall handler_event rest.
Proof.
  intros hc. split; [apply (proj1 (server_handleClient_quiet env fuel)) |].
  subst hc. rewrite server_handleClient_trace.
  destruct (env_client env h) as [rq|]; [| eexists; split; [reflexivity | constructor]].
  unfold extend. cbn [out app]. eexists. split; [reflexivity |].
  destruct (find_route (req_uri rq) routes) as [handler|] eqn:Hr.
  - apply (handlers_emit_handler_events _ _ Hr).
  - apply handleNotFound_emits.
Qed.

End TickTrace.

Section TickFacts.

Variable env : Env.

Lemma checkNTPSync_quiet (h : list event) (g : Globals) :
  sleep_ms (out (checkNTPSync env h g)) = 0 /\
  wdt_feeds (out (checkNTPSync env h g)) = 0%nat.
Proof.
  pose proof (checkNTPSync_trace env h g) as T. cbv zeta in T. rewrite T.
  destruct (ntpCheckInterval <=? _); [destruct (env_getLocalTime _ _) |];
    split; reflexivity.
Qed.

Lemma checkMemory_sleep (h : list event) (g : Globals) :
  0 <= sleep_ms (out (checkMemory env h g)) <= 2000 /\
  wdt_feeds (out (checkMemory env h g)) = 0%nat.
Proof.
  pose proof (checkMemory_trace env h g) as T. cbv zeta in T. rewrite T.
  destruct (_ <? 30000); cbn; repeat split; lia.
Qed.

Lemma tick_sleep_facts (o : outcome unit) :
  filter is_handle_client (tick_sleep o) = [] /\
  filter is_sensor_read (tick_sleep o) = [] /\
  wdt_feeds (tick_sleep o) = 0%nat /\
  0 <= sleep_ms (tick_sleep o) <= 1000 /\
  (end_of_tick o = Returned tt -> sleep_ms (tick_sleep o) = 1000).
Proof.
  destruct o as [[]| | |]; cbn; repeat split; try lia; discriminate.
Qed.

(** One tick: the watchdog feed comes first and is the only one; the
    delays of the rest add up to 14 s at most. *)
Lemma tick_summary (fuel : nat) (h : list event) (g : Globals) :
  let r := loop env fuel h g in
  exists rest,
    out r = EvWdtReset :: rest /\
    wdt_feeds rest = 0%nat /\
    0 <= sleep_ms rest <= 14000 /\
    (res r = Returned tt -> 500 <= sleep_ms rest).
Proof.
  intros r.
  pose proof (loop_trace env fuel h g) as T. cbv zeta in T. fold r in T.
  destruct (checkWiFi_sleep env (h ++ [EvWdtReset]) g) as (Sw0 & Fw & Sw).
  set (wifi := checkWiFiConnection env (h ++ [EvWdtReset]) g) in *.
  destruct (checkNTPSync_quiet ((h ++ [EvWdtReset]) ++ out wifi) (fin wifi)) as [Sn Fn].
  set (ntp := checkNTPSync env ((h ++ [EvWdtReset]) ++ out wifi) (fin wifi)) in *.
  destruct (checkMemory_sleep (((h ++ [EvWdtReset]) ++ out wifi) ++ out ntp) (fin ntp))
    as [Sm Fm].
  set (mem := checkMemory env (((h ++ [EvWdtReset]) ++ out wifi) ++ out ntp) (fin ntp)) in *.
  destruct (res wifi) as [[]| | |].
  - destruct (env_getLocalTime env _) as [t0|]; [pose (t := int_tm t0); fold t in T |].
    + cbv zeta in T. destruct (env_aht env _) as [hum temp]. cbn [fst snd] in T.
      destruct (CFloat.isnan temp || CFloat.isnan hum);
        [| destruct (texts_fit t hum temp)].
      * rewrite T. cbn [out res]. eexists. split; [reflexivity |].
        rewrite !wdt_feeds_app, !sleep_ms_app, Fw, Fn, Fm, Sn.
        change (sleep_ms (EvGetLocalTime (Some t) :: sensor_fault_events hum temp))
          with 2000.
        split; [reflexivity | split; [lia | intros _; lia]].
      * destruct T as (w1 & w2 & w3 & st & T). cbv zeta in T. rewrite T. cbn [out res].
        match goal with
        | |- context [out (server_handleClient env fuel ?h' ?g')] =>
            destruct (server_handleClient_facts env fuel h' g') as (_ & rest & Eo & Hr);
            cbv zeta in Eo; rewrite Eo;
            destruct (tick_sleep_facts (res (server_handleClient env fuel h' g')))
              as (_ & _ & Fs & Ss & Ss1)
        end.
        destruct (handler_events_facts rest Hr) as (Sr & Fr & _).
        change (EvHandleClient ?p :: rest) with ([EvHandleClient p] ++ rest).
        eexists. split; [reflexivity |].
        rewrite !wdt_feeds_app, !sleep_ms_app, Fw, Fn, Fm, Fs, Fr, Sn, Sr.
        change (sleep_ms (EvGetLocalTime (Some t) :: success_events t hum temp w1 w2 w3 st))
          with 0.
        change (sleep_ms [EvHandleClient ?p]) with 0.
        split; [reflexivity | split; [lia | intros Hret; rewrite (Ss1 Hret); lia]].
      * destruct T as (Hres & _ & post & Eo & Hpost & _).
        destruct (handler_events_facts post Hpost) as (Sp & Fp & _).
        rewrite Eo, Hres. eexists. split; [reflexivity |].
        change (EvGetLocalTime (Some t) :: EvAhtGetEvent hum temp :: post)
          with ([EvGetLocalTime (Some t); EvAhtGetEvent hum temp] ++ post).
        rewrite !wdt_feeds_app, !sleep_ms_app, Fw, Fn, Fm, Sn, Fp, Sp.
        change (sleep_ms [EvGetLocalTime (Some t); EvAhtGetEvent hum temp]) with 0.
        split; [reflexivity | split; [lia | discriminate]].
    + rewrite T. cbn [out res]. eexists. split; [reflexivity |].
      rewrite !wdt_feeds_app, !sleep_ms_app, Fw, Fn, Fm, Sn.
      change (sleep_ms time_fault_events) with 500.
      split; [reflexivity | split; [lia | intros _; lia]].
  - rewrite T. cbn [out res]. eexists. split; [reflexivity |].
    rewrite Fw. split; [reflexivity | split; [lia | discriminate]].
  - rewrite T. cbn [out res]. eexists. split; [reflexivity |].
    rewrite Fw. split; [reflexivity | split; [lia | discriminate]].
  - rewrite T. cbn [out res]. eexists. split; [reflexivity |].
    rewrite Fw. split; [reflexivity | split; [lia | discriminate]].
Qed.

(** X5.  Every tick feeds the watchdog exactly once, and that is its first
    platform call, whichever way the tick goes. *)
Theorem tick_feeds_watchdog_once (fuel : nat) (h : list event) (g : Globals) :
  let r := loop env fuel h g in
  (exists rest, out r = EvWdtReset :: rest) /\
  wdt_feeds (out r) = 1%nat.
Proof.
  intros r. destruct (tick_summary fuel h g) as (rest & E & F & _). fold r in E.
  split; [exists rest; exact E |].
  rewrite E. unfold wdt_feeds in *. cbn [filter is_wdt_reset List.length].
  rewrite F. reflexivity.
Qed.

(** X6.  The delays that one tick asks for add up to at most 14000 ms
    (10 s of reconnect polling, 2 s of memory warning, 2 s of sensor error),
    well below the 30 s of the watchdog; a tick that returns has slept at
    least 500 ms. *)
Theorem tick_sleep_bounds (fuel : nat) (h : list event) (g : Globals) :
  let r := loop env fuel h g in
  sleep_ms (out r) <= 14000 /\
  (res r = Returned tt -> 500 <= sleep_ms (out r)).
Proof.
  intros r. destruct (tick_summary fuel h g) as (rest & E & _ & S1 & S2).
  fold r in E, S2. rewrite E.
  change (sleep_ms (EvWdtReset :: rest)) with (0 + sleep_ms rest).
  split; [lia | intros Hr; specialize (S2 Hr); lia].
Qed.

Lemma filter_nil_not_in (f : event -> bool) (l : list event) (e : event) :
  filter f l = [] -> f e = true -> ~ In e l.
Proof.
  intros Hf He Hin.
  assert (H : In e (filter f l)) by (apply filter_In; split; assumption).
  rewrite Hf in H. exact H.
Qed.

Lemma tick_prefix_guardian (h : list event) (g : Globals) :
  let wifi := checkWiFiConnection env (h ++ [EvWdtReset]) g in
  let ntp := checkNTPSync env ((h ++ [EvWdtReset]) ++ out wifi) (fin wifi) in
  let mem := checkMemory env (((h ++ [EvWdtReset]) ++ out wifi) ++ out ntp) (fin ntp) in
  Forall guardian_event ([EvWdtReset] ++ out wifi ++ out ntp ++ out mem).
Proof.
  cbv zeta. apply Forall_app. split; [repeat constructor |].
  exact (proj2 (proj2 (guardians_status env (h ++ [EvWdtReset]) g))).
Qed.

(** The tick that gets as far as [server.handleClient()]: the network
    guardian returned, the time was there, the reading was valid and the
    three texts fitted their buffers. *)
Lemma published_tick (fuel : nat) (h : list event) (g : Globals) (t0 : tm) :
  let r := loop env fuel h g in
  let wifi := checkWiFiConnection env (h ++ [EvWdtReset]) g in
  let ntp := checkNTPSync env ((h ++ [EvWdtReset]) ++ out wifi) (fin wifi) in
  let mem := checkMemory env (((h ++ [EvWdtReset]) ++ out wifi) ++ out ntp) (fin ntp) in
  let pre := [EvWdtReset] ++ out wifi ++ out ntp ++ out mem in
  let t := int_tm t0 in
  let ht := env_aht env ((h ++ pre) ++ [EvGetLocalTime (Some t)]) in
  let hum := fst ht in
  let temp := snd ht in
  res wifi = Returned tt ->
  env_getLocalTime env (h ++ pre) = Some t0 ->
  CFloat.isnan temp || CFloat.isnan hum = false ->
  texts_fit t hum temp = true ->
  exists w1 w2 w3 st,
    let g1 := set_status temp hum (format_time t) (format_date t) (fin ntp) in
    let mid := EvGetLocalTime (Some t) :: success_events t hum temp w1 w2 w3 st in
    let hc := server_handleClient env fuel (h ++ pre ++ mid) g1 in
    r = mkResult (end_of_tick (res hc)) g1 (pre ++ mid ++ out hc ++ tick_sleep (res hc)).
Proof.
  intros r wifi ntp mem pre t ht hum temp Hw Ht Hnan Hfit.
  pose proof (loop_trace env fuel h g) as T. cbv zeta in T.
  fold r wifi in T. fold ntp in T. fold mem in T. fold pre in T.
  rewrite Hw, Ht in T. fold t in T. fold ht in T. fold hum temp in T.
  rewrite Hnan, Hfit in T. exact T.
Qed.

(** A tick in whose trace the HTTP client is polled went that way. *)
Lemma served_tick (fuel : nat) (h : list event) (g : Globals) (p : option Request) :
  let r := loop env fuel h g in
  let wifi := checkWiFiConnection env (h ++ [EvWdtReset]) g in
  let ntp := checkNTPSync env ((h ++ [EvWdtReset]) ++ out wifi) (fin wifi) in
  let mem := checkMemory env (((h ++ [EvWdtReset]) ++ out wifi) ++ out ntp) (fin ntp) in
  let pre := [EvWdtReset] ++ out wifi ++ out ntp ++ out mem in
  In (EvHandleClient p) (out r) ->
  exists t0 w1 w2 w3 st,
    let t := int_tm t0 in
    let ht := env_aht env ((h ++ pre) ++ [EvGetLocalTime (Some t)]) in
    let hum := fst ht in
    let temp := snd ht in
    let g1 := set_status temp hum (format_time t) (format_date t) (fin ntp) in
    let mid := EvGetLocalTime (Some t) :: success_events t hum temp w1 w2 w3 st in
    let hc := server_handleClient env fuel (h ++ pre ++ mid) g1 in
    res wifi = Returned tt /\
    env_getLocalTime env (h ++ pre) = Some t0 /\
    CFloat.isnan temp || CFloat.isnan hum = false /\
    texts_fit t hum temp = true /\
    r = mkResult (end_of_tick (res hc)) g1 (pre ++ mid ++ out hc ++ tick_sleep (res hc)).
Proof.
  intros r wifi ntp mem pre Hin.
  pose proof (loop_trace env fuel h g) as T. cbv zeta in T.
  fold r wifi in T. fold ntp in T. fold mem in T. fold pre in T.
  pose proof (tick_prefix_guardian h g) as Hg. cbv zeta in Hg.
  fold wifi in Hg. fold ntp in Hg. fold mem in Hg. fold pre in Hg.
  assert (Hpre : filter is_handle_client pre = [])
    by exact (proj1 (guardian_events_facts _ Hg)).
  assert (Hwifi : filter is_handle_client ([EvWdtReset] ++ out wifi) = []).
  { apply Forall_app in Hg. destruct Hg as [_ Hg]. apply Forall_app in Hg.
    rewrite filter_app. cbn [filter is_handle_client app].
    exact (proj1 (guardian_events_facts _ (proj1 Hg))). }
  assert (Hno : forall tl, out r = tl -> filter is_handle_client tl = [] -> False).
  { intros tl E Htl. rewrite E in Hin.
    exact (filter_nil_not_in is_handle_client tl (EvHandleClient p) Htl eq_refl Hin). }
  destruct (res wifi) as [[]| | |] eqn:Hw.
  - destruct (env_getLocalTime env (h ++ pre)) as [t0|] eqn:Ht.
    + cbv zeta in T.
      destruct (CFloat.isnan _ || CFloat.isnan _) eqn:Hnan;
        [| destruct (texts_fit _ _ _) eqn:Hfit].
      * exfalso. eapply Hno; [rewrite T; reflexivity |]; cbn [out].
        rewrite filter_app, Hpre. reflexivity.
      * destruct T as (w1 & w2 & w3 & st & T).
        exists t0, w1, w2, w3, st. cbv zeta.
        repeat split; try assumption; reflexivity.
      * exfalso. destruct T as (_ & _ & post & Eo & Hpost & _).
        destruct (handler_events_facts post Hpost) as (_ & _ & Fc & _).
        eapply Hno; [exact Eo |].
        rewrite filter_app, Hpre. cbn [filter is_handle_client app]. exact Fc.
    + exfalso. eapply Hno; [rewrite T; reflexivity |]; cbn [out].
      rewrite filter_app, Hpre. reflexivity.
  - exfalso. eapply Hno; [rewrite T; reflexivity |]; cbn [out]. exact Hwifi.
  - exfalso. eapply Hno; [rewrite T; reflexivity |]; cbn [out]. exact Hwifi.
  - exfalso. eapply Hno; [rewrite T; reflexivity |]; cbn [out]. exact Hwifi.
Qed.

(** The only sensor read of a tick, when there is one, comes right after the
    time query that follows the guardians. *)
Lemma reading_tick (fuel : nat) (h : list event) (g : Globals)
  (hum temp : CFloat.float) :
  let r := loop env fuel h g in
  let wifi := checkWiFiConnection env (h ++ [EvWdtReset]) g in
  let ntp := checkNTPSync env ((h ++ [EvWdtReset]) ++ out wifi) (fin wifi) in
  let mem := checkMemory env (((h ++ [EvWdtReset]) ++ out wifi) ++ out ntp) (fin ntp) in
  let pre := [EvWdtReset] ++ out wifi ++ out ntp ++ out mem in
  In (EvAhtGetEvent hum temp) (out r) ->
  res wifi = Returned tt /\
  exists t0,
    env_getLocalTime env (h ++ pre) = Some t0 /\
    env_aht env ((h ++ pre) ++ [EvGetLocalTime (Some (int_tm t0))]) = (hum, temp) /\
    filter is_sensor_read (out r) = [EvAhtGetEvent hum temp].
Proof.
  intros r wifi ntp mem pre Hin.
  pose proof (loop_trace env fuel h g) as T. cbv zeta in T.
  fold r wifi in T. fold ntp in T. fold mem in T. fold pre in T.
  pose proof (tick_prefix_guardian h g) as Hg. cbv zeta in Hg.
  fold wifi in Hg. fold ntp in Hg. fold mem in Hg. fold pre in Hg.
  assert (Hpre : filter is_sensor_read pre = [])
    by exact (proj2 (guardian_events_facts _ Hg)).
  assert (Hwifi : filter is_sensor_read ([EvWdtReset] ++ out wifi) = []).
  { apply Forall_app in Hg. destruct Hg as [_ Hg]. apply Forall_app in Hg.
    rewrite filter_app. cbn [filter is_sensor_read app].
    exact (proj2 (guardian_events_facts _ (proj1 Hg))). }
  assert (Hone : forall tl, out r = tl -> In (EvAhtGetEvent hum temp) (filter is_sensor_read tl)).
  { intros tl E. rewrite <- E. apply filter_In. split; [exact Hin | reflexivity]. }
  destruct (res wifi) as [[]| | |] eqn:Hw.
  - split; [reflexivity |].
    destruct (env_getLocalTime env (h ++ pre)) as [t0|] eqn:Ht.
    + exists t0. split; [reflexivity |]. cbv zeta in T.
      destruct (env_aht env _) as [hum' temp'] eqn:Ha. cbn [fst snd] in T.
      destruct (CFloat.isnan temp' || CFloat.isnan hum') eqn:Hnan;
        [| destruct (texts_fit _ _ _) eqn:Hfit].
      * pose proof (Hone _ (f_equal out T)) as H1. cbn [out] in H1.
        rewrite T. cbn [out].
        rewrite filter_app, Hpre in H1 |- *.
        cbn [filter is_sensor_read sensor_fault_events app In] in H1 |- *.
        destruct H1 as [H1 | []]. injection H1 as -> ->. split; reflexivity.
      * destruct T as (w1 & w2 & w3 & st & T). cbv zeta in T.
        pose proof (Hone _ (f_equal out T)) as H1. cbn [out] in H1.
        rewrite T. cbn [out].
        match type of H1 with
        | context [out (server_handleClient env fuel ?h' ?g')] =>
            destruct (server_handleClient_facts env fuel h' g') as (_ & rest & Eo & Hr);
            cbv zeta in Eo; rewrite Eo in H1 |- *;
            destruct (tick_sleep_facts (res (server_handleClient env fuel h' g')))
              as (_ & Fs & _)
        end.
        destruct (handler_events_facts rest Hr) as (_ & _ & _ & Fr).
        rewrite filter_app, Hpre, !filter_app, Fs in H1 |- *.
        cbn [filter is_sensor_read success_events app] in H1 |- *.
        rewrite Fr in H1 |- *.
        destruct H1 as [H1 | []]. injection H1 as -> ->. split; reflexivity.
      * destruct T as (_ & _ & post & Eo & Hpost & _).
        destruct (handler_events_facts post Hpost) as (_ & _ & _ & Fr).
        pose proof (Hone _ Eo) as H1. rewrite Eo.
        rewrite filter_app, Hpre in H1 |- *.
        cbn [filter is_sensor_read app] in H1 |- *. rewrite Fr in H1 |- *.
        destruct H1 as [H1 | []]. injection H1 as -> ->. split; reflexivity.
    + exfalso. specialize (Hone _ (f_equal out T)). cbn [out] in Hone.
      rewrite filter_app, Hpre in Hone. exact Hone.
  - exfalso. specialize (Hone _ (f_equal out T)). cbn [out] in Hone.
    rewrite Hwifi in Hone. exact Hone.
  - exfalso. specialize (Hone _ (f_equal out T)). cbn [out] in Hone.
    rewrite Hwifi in Hone. exact Hone.
  - exfalso. specialize (Hone _ (f_equal out T)). cbn [out] in Hone.
    rewrite Hwifi in Hone. exact Hone.
Qed.

Lemma not_served_nil (l : list event) :
  (forall p, ~ In (EvHandleClient p) l) -> filter is_handle_client l = [].
Proof.
  induction l as [|e l IH]; intros H; [reflexivity |].
  cbn [filter].
  destruct e; cbn [is_handle_client];
    try (apply IH; intros p Hp; apply (H p); right; exact Hp).
  exfalso. eapply H. left. reflexivity.
Qed.


(** X9.  When the network guardian returns and [getLocalTime] fails after
    the guardians, the tick shows the syncing notice, sleeps 500 ms and
    returns: it reads no sensor, serves no request and leaves the shared
    status and the first-data flag as they were. *)
Theorem time_fault_tick (fuel : nat) (h : list event) (g : Globals) :
  let r := loop env fuel h g in
  let wifi := checkWiFiConnection env (h ++ [EvWdtReset]) g in
  let ntp := checkNTPSync env ((h ++ [EvWdtReset]) ++ out wifi) (fin wifi) in
  let mem := checkMemory env (((h ++ [EvWdtReset]) ++ out wifi) ++ out ntp) (fin ntp) in
  let pre := [EvWdtReset] ++ out wifi ++ out ntp ++ out mem in
  res wifi = Returned tt ->
  env_getLocalTime env (h ++ pre) = None ->
  res r = Returned tt /\
  out r = pre ++ time_fault_events /\
  filter is_sensor_read (out r) = [] /\
  filter is_handle_client (out r) = [] /\
  same_status g (fin r).
Proof.
  intros r wifi ntp mem pre Hw Ht.
  pose proof (loop_trace env fuel h g) as T. cbv zeta in T.
  fold r wifi in T. fold ntp in T. fold mem in T. fold pre in T.
  unfold pre in Ht, T. rewrite Hw, Ht in T.
  pose proof (tick_prefix_guardian h g) as Hg. cbv zeta in Hg.
  fold wifi in Hg. fold ntp in Hg. fold mem in Hg.
  destruct (guardian_events_facts _ Hg) as [G1 G2].
  destruct (guardians_status env (h ++ [EvWdtReset]) g) as (_ & Hs & _).
  fold wifi in Hs. fold ntp in Hs.
  rewrite T. cbn [res out fin]. unfold pre.
  split; [reflexivity | split; [reflexivity |]].
  rewrite !(filter_app _ ([EvWdtReset] ++ _)), G1, G2.
  split; [reflexivity | split; [reflexivity | exact Hs]].
Qed.


End TickFacts.

(** ** The status server, request by request *)

Lemma notFound_args_wraps (r : Request) :
  256 <= server_args r ->
  forall fuel i message,
    0 <= i < 256 -> notFound_args fuel r i message = None.
Proof.
  intros Hn. induction fuel as [|k IH]; intros i message Hi; [reflexivity |].
  cbn [notFound_args].
  replace (i <? server_args r) with true by (symmetry; apply Z.ltb_lt; lia).
  apply IH. unfold CInt.to_uint8. change (2 ^ 8) with 256.
  apply Z.mod_pos_bound. lia.
Qed.

Lemma notFound_args_more_fuel (r : Request) (k : nat) :
  forall k' i message m,
    (k <= k')%nat ->
    notFound_args k r i message = Some m ->
    notFound_args k' r i message = Some m.
Proof.
  induction k as [|k IH]; intros k' i message m Hk; [discriminate |].
  destruct k' as [|k']; [lia |].
  cbn [notFound_args]. destruct (i <? server_args r); [| trivial].
  apply IH. lia.
Qed.

Lemma registered_find_route (uri : string) :
  registered uri = true ->
  exists handler,
    find_route uri routes = Some handler /\
    (handler = handleRoot \/ handler = handleTemperature \/
     handler = handleHumidity \/ handler = handleJson).
Proof.
  unfold registered, routes. cbn [map fst existsb find_route].
  destruct (String.eqb uri "/"); [eexists; split; [reflexivity | tauto] |].
  destruct (String.eqb uri "/temperature"); [eexists; split; [reflexivity | tauto] |].
  destruct (String.eqb uri "/humidity"); [eexists; split; [reflexivity | tauto] |].
  destruct (String.eqb uri "/json"); [eexists; split; [reflexivity | tauto] |].
  discriminate.
Qed.

Lemma unregistered_find_route (uri : string) :
  registered uri = false -> find_route uri routes = None.
Proof.
  unfold registered, routes. cbn [map fst existsb find_route].
  destruct (String.eqb uri "/"); [discriminate |].
  destruct (String.eqb uri "/temperature"); [discriminate |].
  destruct (String.eqb uri "/humidity"); [discriminate |].
  destruct (String.eqb uri "/json"); [discriminate |].
  reflexivity.
Qed.

Section ServerFacts.

Variable env : Env.

(** X11.  How [server.handleClient()] answers a pending request, whatever
    its method.  A request for one of the four registered paths gets the three
    cross-origin headers and one 200 response, and the call returns with the
    globals unchanged.  Every other path goes to the 404 handler, which sends
    no cross-origin header; with at most 255 arguments it sends one 404 text
    response and returns. *)
Theorem server_dispatch (fuel : nat) (h : list event) (g : Globals) (rq : Request) :
  env_client env h = Some rq ->
  let hc := server_handleClient env fuel h g in
  (registered (req_uri rq) = true ->
   exists type body,
     hc = mkResult (Returned tt) g
            (EvHandleClient (Some rq) :: cors_events ++ [EvSend 200 type body])) /\
  (registered (req_uri rq) = false ->
   fin hc = g /\
   filter is_send_header (out hc) = [] /\
   (server_args rq <= 255 -> (List.length (req_args rq) < fuel)%nat ->
    exists body,
      hc = mkResult (Returned tt) g
             [EvHandleClient (Some rq); EvSend 404 "text/plain" body])).
Proof.
  intros Hc hc. subst hc. rewrite server_handleClient_trace, Hc. split.
  - intros Hreg. destruct (registered_find_route _ Hreg) as (handler & Hf & Hh).
    rewrite Hf.
    destruct (handlers_from_shared (h ++ [EvHandleClient (Some rq)]) g)
      as (H1 & H2 & H3 & H4). cbv zeta in H1, H2, H3, H4.
    destruct Hh as [-> | [-> | [-> | ->]]];
      [rewrite H1 | rewrite H2 | rewrite H3 | rewrite H4];
      unfold extend; cbn [res fin out app]; eexists; eexists; reflexivity.
  - intros Hreg. rewrite (unregistered_find_route _ Hreg).
    unfold handleNotFound.
    split; [| split].
    + destruct (notFound_args fuel rq 0 (notFound_head rq)); reflexivity.
    + destruct (notFound_args fuel rq 0 (notFound_head rq)); reflexivity.
    + intros Hn Hfuel.
      destruct fuel as [|k]; [lia |].
      destruct (notFound_args_terminates rq Hn (List.length (req_args rq)) 0
                  (notFound_head rq)) as [m Hm]; [lia | unfold server_args; lia |].
      assert (Hk : notFound_args (S k) rq 0 (notFound_head rq) = Some m).
      { apply (notFound_args_more_fuel rq (S (List.length (req_args rq)))); [lia | exact Hm]. }
      rewrite Hk. exists m. reflexivity.
Qed.

(** X12.  A request for an unregistered path with 256 or more arguments is
    never answered: the [uint8_t] counter of the argument loop of the 404
    handler wraps to 0 before it reaches [server.args()], so the loop goes on
    however many iterations are allowed, and nothing is sent. *)
Theorem many_arguments_never_answered (fuel : nat) (h : list event) (g : Globals)
  (rq : Request) :
  env_client env h = Some rq ->
  registered (req_uri rq) = false ->
  256 <= server_args rq ->
  server_handleClient env fuel h g =
    mkResult OutOfFuel g [EvHandleClient (Some rq)].
Proof.
  intros Hc Hreg Hn.
  rewrite server_handleClient_trace, Hc, (unregistered_find_route _ Hreg).
  unfold handleNotFound.
  rewrite (notFound_args_wraps rq Hn fuel 0 (notFound_head rq)) by lia.
  reflexivity.
Qed.

(** X13.  Which globals each part of a tick may change.  The network guardian
    changes at most [lastWiFiCheck] and [reconnectCount], the time guardian
    at most [lastNTPCheck]; the memory guardian and the status server change
    none.  So the shared status is written by the tick itself only. *)
Theorem guardians_own_their_fields (fuel : nat) (h : list event) (g : Globals) :
  network_fields_only g (fin (checkWiFiConnection env h g)) /\
  time_field_only g (fin (checkNTPSync env h g)) /\
  fin (checkMemory env h g) = g /\
  fin (server_handleClient env fuel h g) = g.
Proof.
  split; [| split; [| split]].
  - pose proof (checkWiFi_trace env h g) as T. cbv zeta in T.
    destruct (wifiCheckInterval <=? _).
    + destruct (is_connected _).
      * rewrite T. repeat split.
      * destruct (is_connected _).
        -- destruct T as (ip & ok & ->). repeat split.
        -- destruct (maxReconnectCount <=? _); rewrite T; repeat split.
    + rewrite T. repeat split.
  - pose proof (checkNTPSync_trace env h g) as T. cbv zeta in T.
    destruct (_ <=? _); rewrite T; repeat split.
  - exact (proj1 (proj2 (checkMemory_cases env h g))).
  - exact (proj1 (server_handleClient_facts env fuel h g)).
Qed.

End ServerFacts.

(** ** Presentation: texts and coordinates *)

Lemma length_append (a b : string) :
  String.length (a +++ b) = (String.length a + String.length b)%nat.
Proof. induction a as [|x a IH]; simpl; [reflexivity | rewrite IH; reflexivity]. Qed.

Lemma zeros_length (n : nat) : String.length (Text.zeros n) = n.
Proof. induction n as [|n IH]; simpl; [reflexivity | rewrite IH; reflexivity]. Qed.

(** *** The number of decimal digits *)

Lemma string_of_uint_length (d : Decimal.uint) :
  d <> Decimal.Nil ->
  String.length (NilZero.string_of_uint d) = Decimal.nb_digits d.
Proof.
  assert (H : forall u, String.length (NilEmpty.string_of_uint u) = Decimal.nb_digits u).
  { induction u; simpl; congruence. }
  intros Hd. destruct d; [contradiction | ..]; apply H.
Qed.

Lemma usize_nb_digits (d : Decimal.uint) :
  DecimalPos.Unsigned.usize d = N.of_nat (Decimal.nb_digits d).
Proof.
  induction d; cbn [DecimalPos.Unsigned.usize Decimal.nb_digits];
    try reflexivity; rewrite IHd; lia.
Qed.

Lemma of_uint_acc_lower (l : Decimal.uint) (k : positive) :
  (10 ^ N.of_nat (Decimal.nb_digits l) <= N.pos (Pos.of_uint_acc l k))%N.
Proof.
  rewrite DecimalPos.Unsigned.of_uint_acc_rev, usize_nb_digits.
  assert (H : (0 < 10 ^ N.of_nat (Decimal.nb_digits l))%N)
    by (apply N.neq_0_lt_0, N.pow_nonzero; discriminate).
  nia.
Qed.

Lemma to_uint_normal (p : positive) :
  Pos.to_uint p = Decimal.unorm (Pos.to_uint p).
Proof.
  pose proof (DecimalPos.Unsigned.to_of (Pos.to_uint p)) as H.
  rewrite DecimalPos.Unsigned.of_to in H. exact H.
Qed.

(** A positive number below [10 ^ w] has at most [w] digits, and at least
    one. *)
Lemma to_uint_digits (p : positive) (w : nat) :
  (N.pos p < 10 ^ N.of_nat w)%N ->
  Pos.to_uint p <> Decimal.Nil /\ (Decimal.nb_digits (Pos.to_uint p) <= w)%nat.
Proof.
  intros Hp.
  pose proof (DecimalPos.Unsigned.of_to p) as Hof.
  pose proof (to_uint_normal p) as Hn.
  assert (Hlow : forall l k,
             Pos.of_uint (Pos.to_uint p) = N.pos (Pos.of_uint_acc l k) ->
             (Decimal.nb_digits l < w)%nat).
  { intros l k E. rewrite Hof in E.
    pose proof (of_uint_acc_lower l k) as L. rewrite <- E in L.
    assert (Hlt : (N.of_nat (Decimal.nb_digits l) < N.of_nat w)%N)
      by (apply (N.pow_lt_mono_r_iff 10); [reflexivity | lia]).
    lia. }
  destruct (Pos.to_uint p) as [|l|l|l|l|l|l|l|l|l|l] eqn:Ed.
  - discriminate Hof.
  - exfalso. unfold Decimal.unorm in Hn. cbn [Decimal.nzhead] in Hn.
    pose proof (DecimalFacts.nb_digits_nzhead l) as Hz.
    destruct (Decimal.nzhead l) eqn:Ez;
      try (rewrite <- Hn in Hz; cbn [Decimal.nb_digits] in Hz; lia).
    injection Hn as ->. cbn in Hof. discriminate Hof.
  - split; [discriminate |]. cbn [Decimal.nb_digits]. specialize (Hlow l 1%positive eq_refl). lia.
  - split; [discriminate |]. cbn [Decimal.nb_digits]. specialize (Hlow l 2%positive eq_refl). lia.
  - split; [discriminate |]. cbn [Decimal.nb_digits]. specialize (Hlow l 3%positive eq_refl). lia.
  - split; [discriminate |]. cbn [Decimal.nb_digits]. specialize (Hlow l 4%positive eq_refl). lia.
  - split; [discriminate |]. cbn [Decimal.nb_digits]. specialize (Hlow l 5%positive eq_refl). lia.
  - split; [discriminate |]. cbn [Decimal.nb_digits]. specialize (Hlow l 6%positive eq_refl). lia.
  - split; [discriminate |]. cbn [Decimal.nb_digits]. specialize (Hlow l 7%positive eq_refl). lia.
  - split; [discriminate |]. cbn [Decimal.nb_digits]. specialize (Hlow l 8%positive eq_refl). lia.
  - split; [discriminate |]. cbn [Decimal.nb_digits]. specialize (Hlow l 9%positive eq_refl). lia.
Qed.

Lemma decimal_length (z : Z) (w : nat) :
  (1 <= w)%nat -> 0 <= z < 10 ^ Z.of_nat w ->
  (String.length (Text.decimal z) <= w)%nat.
Proof.
  intros Hw Hz. unfold Text.decimal.
  destruct z as [|p|p]; [exact Hw | | lia].
  cbn [Z.to_int NilZero.string_of_int].
  assert (Hp : (N.pos p < 10 ^ N.of_nat w)%N).
  { apply N2Z.inj_lt. rewrite N2Z.inj_pow, nat_N_Z. exact (proj2 Hz). }
  destruct (to_uint_digits p w Hp) as [Hnil Hd].
  rewrite string_of_uint_length by exact Hnil. exact Hd.
Qed.

(** The [%0<w>d] conversion of a number from 0 to [10 ^ w - 1] has exactly
    [w] characters. *)
Lemma fmt_0d_width (w : nat) (z : Z) :
  (1 <= w)%nat -> 0 <= z < 10 ^ Z.of_nat w ->
  String.length (Text.fmt_0d w z) = w.
Proof.
  intros Hw Hz. unfold Text.fmt_0d. cbv zeta.
  replace (z <? 0) with false by (symmetry; apply Z.ltb_ge; lia).
  rewrite Z.abs_eq by lia.
  pose proof (decimal_length z w Hw Hz) as Hd.
  rewrite length_append, zeros_length. lia.
Qed.

Lemma fmt_0d_2_width (z : Z) :
  0 <= z < 100 -> String.length (Text.fmt_0d 2 z) = 2%nat.
Proof. intros Hz. apply fmt_0d_width; [lia | exact Hz]. Qed.

Lemma fmt_0d_4_width (z : Z) :
  0 <= z < 10000 -> String.length (Text.fmt_0d 4 z) = 4%nat.
Proof. intros Hz. apply fmt_0d_width; [lia | exact Hz]. Qed.

(** X14.  For a calendar time in range (hours, minutes, seconds and day
    below 100 and not negative, month 0 to 11, year 0 to 9999) the time text
    has exactly 8 characters and the date text exactly 10, so both fit their
    buffers of 16 and 20 bytes with the terminating zero. *)
Theorem time_and_date_fixed_width (t : tm) :
  0 <= tm_hour t < 100 -> 0 <= tm_min t < 100 -> 0 <= tm_sec t < 100 ->
  0 <= tm_mday t < 100 -> 0 <= tm_mon t <= 11 -> -1900 <= tm_year t <= 8099 ->
  String.length (format_time t) = 8%nat /\
  String.length (format_date t) = 10%nat.
Proof.
  intros Hh Hm Hs Hd Hmo Hy. unfold format_time, format_date, CInt.int_add.
  rewrite !to_int32_small by lia.
  rewrite !length_append.
  rewrite !fmt_0d_2_width by lia. rewrite fmt_0d_4_width by lia.
  split; reflexivity.
Qed.

Lemma time_and_date_fixed_width_witness :
  String.length (format_time (mkTm 0 30 14 4 6 125)) = 8%nat /\
  String.length (format_date (mkTm 0 30 14 4 6 125)) = 10%nat.
Proof.
  apply (time_and_date_fixed_width (mkTm 0 30 14 4 6 125)); simpl; lia.
Defined.

Ltac small_ints :=
  repeat match goal with
    | |- context [CInt.to_int32 ?z] => rewrite (to_int32_small z) by lia
    | |- context [CInt.to_int16 ?z] => rewrite (to_int16_small z) by lia
    | |- context [CInt.to_uint16 ?z] => rewrite (to_uint16_small z) by lia
    end.

(** X15.  A text wider than the display: for a measured width [w] between
    130 and 32767, [printCentered] computes the negative origin
    [-((w - 128) / 2)] (C division truncates toward zero) and hands it to
    [drawStr], whose unsigned 16-bit coordinate turns it into
    [65536 - (w - 128) / 2]. *)
Theorem printCentered_wide_text
  (env : Env) (h : list event) (g : Globals) (text : string) (y : Z) (f : font) :
  let w := CInt.to_uint16 (env_utf8_width env (h ++ [EvSetFont f]) text) in
  130 <= w <= 32767 ->
  centered_x (CInt.to_int16 w) = - ((w - 128) / 2) /\
  printCentered env text y f h g =
    mkResult (Returned tt) g
      [EvSetFont f; EvGetUTF8Width text w;
       EvDrawStr (65536 - (w - 128) / 2) (CInt.to_uint16 y) text].
Proof.
  intros w Hw.
  assert (Hx : centered_x (CInt.to_int16 w) = - ((w - 128) / 2)).
  { unfold centered_x, CInt.int_div, CInt.int_sub.
    rewrite (to_int16_small w) by lia.
    rewrite (to_int32_small (128 - w)) by lia.
    replace (128 - w) with (- (w - 128)) by lia.
    rewrite Z.quot_opp_l by lia. rewrite Z.quot_div_nonneg by lia.
    assert (Hq : 0 <= (w - 128) / 2 <= 16320).
    { split; [apply Z.div_pos; lia | apply Z.div_le_upper_bound; lia]. }
    rewrite to_int32_small by lia. rewrite to_int16_small by lia. reflexivity. }
  split; [exact Hx |].
  assert (Hq : 0 < (w - 128) / 2 <= 16320).
  { split; [apply Z.div_str_pos; lia | apply Z.div_le_upper_bound; lia]. }
  assert (Hwrap : CInt.to_uint16 (- ((w - 128) / 2)) = 65536 - (w - 128) / 2).
  { unfold CInt.to_uint16. change (2 ^ 16) with 65536.
    symmetry. apply Z.mod_unique with (q := -1); lia. }
  unfold printCentered. unfold_calls. run. subst a.
  fold w. rewrite Hx, Hwrap.
  unfold extend, emit. cbn [res fin out app]. reflexivity.
Qed.

(** X16.  The earlier sketch draws the temperature as the number, a circle
    for the degree sign and the letter C.  When the number and the letter
    together are at most 116 pixels wide, the group starts at
    [startX = (128 - total) / 2] with [total = numWidth + cWidth + 12]: it is
    centred within one pixel and ends inside the display; the circle of
    radius 3 has its centre 6 pixels after the number, so it lies strictly
    between the number and the letter, which starts 12 pixels after the
    number. *)
Theorem printTempCentered_layout
  (fontAscent fontDescent numWidth cWidth y : Z) (tempNumStr : string) :
  0 <= numWidth -> 0 <= cWidth -> numWidth + cWidth <= 116 ->
  -128 <= fontDescent <= fontAscent -> fontAscent <= 127 ->
  (fontAscent - fontDescent) / 2 + 2 <= y <= 32767 ->
  let total := numWidth + cWidth + 12 in
  let startX := (128 - total) / 2 in
  SketchV1.printTempCentered_calls fontAscent fontDescent numWidth cWidth y tempNumStr =
    [ SketchV1.DrawStr startX y tempNumStr;
      SketchV1.DrawCircle (startX + numWidth + 6)
        (y - (fontAscent - fontDescent) / 2 - 2) 3;
      SketchV1.DrawStr (startX + numWidth + 12) y "C" ] /\
  0 <= startX /\
  startX + total <= 128 /\
  0 <= (128 - (startX + total)) - startX <= 1.
Proof.
  intros Hn Hc Hw Hd Ha Hy total startX.
  assert (Hs : 0 <= startX <= 58).
  { subst startX total. split; [apply Z.div_pos; lia | apply Z.div_le_upper_bound; lia]. }
  assert (Hs2 : 128 - total - 1 <= 2 * startX <= 128 - total).
  { subst startX. pose proof (Z.div_mod (128 - total) 2 ltac:(lia)) as E.
    pose proof (Z.mod_pos_bound (128 - total) 2 ltac:(lia)). lia. }
  assert (Hf : 0 <= (fontAscent - fontDescent) / 2 <= 127).
  { pose proof (Z.div_mod (fontAscent - fontDescent) 2 ltac:(lia)) as E.
    pose proof (Z.mod_pos_bound (fontAscent - fontDescent) 2 ltac:(lia)). lia. }
  split; [| lia].
  unfold SketchV1.printTempCentered_calls, SketchV1.add16, SketchV1.sub16,
    CInt.int_add, CInt.int_sub, CInt.int_div.
  cbv zeta.
  change (Z.quot 8 2) with 4.
  change (2 * 2) with 4.
  small_ints.
  replace (numWidth + 8 + cWidth + 4) with total by (subst total; lia).
  small_ints.
  rewrite (Z.quot_div_nonneg (128 - total) 2) by lia. fold startX.
  small_ints.
  rewrite (Z.quot_div_nonneg (fontAscent - fontDescent) 2) by lia.
  small_ints.
  repeat (f_equal; try lia).
Qed.

Lemma printTempCentered_layout_witness :
  SketchV1.printTempCentered_calls 14 (-4) 40 12 60 "25.3" =
    [ SketchV1.DrawStr 32 60 "25.3";
      SketchV1.DrawCircle 78 49 3;
      SketchV1.DrawStr 84 60 "C" ].
Proof.
  exact (proj1 (printTempCentered_layout 14 (-4) 40 12 60 "25.3"
                  ltac:(lia) ltac:(lia) ltac:(lia) ltac:(lia) ltac:(lia)
                  ltac:(simpl; lia))).
Defined.

(** X17.  The first sketch computes the origin of a centred text in
    unsigned 32-bit arithmetic because [strlen] is unsigned.  The value that
    reaches the 16-bit [x] is still the signed [(128 - width) / 2] with
    [width = 6 * strlen(text) * textSize], also for a text wider than the
    display, as long as the width is at most 65664. *)
Theorem gfx_printCentered_signed (len textSize : Z) :
  0 <= len -> 0 <= textSize -> len * 6 * textSize <= 65664 ->
  SketchGfx.printCentered_x len textSize = (128 - len * 6 * textSize) / 2.
Proof.
  intros Hl Ht Hw.
  unfold SketchGfx.printCentered_x, SketchGfx.SCREEN_WIDTH, CInt.to_uint32, CInt.to_int16,
    CInt.to_signed.
  change (2 ^ 32) with 4294967296. change (2 ^ (16 - 1)) with 32768.
  change (2 ^ 16) with 65536.
  cbv zeta.
  assert (Hp : 0 <= len * 6 * textSize) by (apply Z.mul_nonneg_nonneg; lia).
  rewrite <- Z.mul_mod by lia.
  rewrite (Z.mod_small (len * 6 * textSize)) by lia.
  change (128 mod 4294967296) with 128.
  set (width := len * 6 * textSize) in *. clearbody width.
  pose proof (Z.div_mod (128 - width) 2 ltac:(lia)) as E.
  pose proof (Z.mod_pos_bound (128 - width) 2 ltac:(lia)) as B.
  set (q := (128 - width) / 2) in *.
  destruct (Z_le_gt_dec width 128) as [Hle | Hgt].
  - rewrite (Z.mod_small (128 - width)) by lia. fold q.
    rewrite Z.mod_small by lia. lia.
  - replace ((128 - width) mod 4294967296) with (2147483648 * 2 + (128 - width))
      by (apply Z.mod_unique with (q := -1); lia).
    rewrite Z.div_add_l by lia. fold q.
    replace ((2147483648 + q + 32768) mod 65536) with (q + 32768)
      by (apply Z.mod_unique with (q := 32768); lia).
    lia.
Qed.

Lemma gfx_printCentered_signed_witness :
  SketchGfx.printCentered_x 8 2 = 16 /\
  SketchGfx.printCentered_x 12 2 = -8.
Proof.
  split.
  - exact (gfx_printCentered_signed 8 2 ltac:(lia) ltac:(lia) ltac:(lia)).
  - exact (gfx_printCentered_signed 12 2 ltac:(lia) ltac:(lia) ltac:(lia)).
Defined.

(** ** The waiting loops of [setup] *)

Lemma last_status_in (l : list event) (s : wl_status_t) :
  last_status l = Some s -> In (EvWiFiStatus s) l.
Proof.
  induction l as [|e l IH] using rev_ind; [discriminate |].
  rewrite last_status_app. intros H. apply in_or_app.
  destruct e; cbn in H; try (left; exact (IH H)).
  injection H as <-. right. left. reflexivity.
Qed.

Section SetupFacts.

Variable env : Env.

Lemma setup_wait_wifi_facts (fuel : nat) :
  forall h g,
    let r := setup_wait_wifi env fuel h g in
    fin r = g /\
    sleep_ms (out r) = 500 * Z.of_nat (wdt_feeds (out r)) /\
    ((res r = Returned tt /\
      last_status (out r) = Some WL_CONNECTED /\
      status_polls (out r) = S (wdt_feeds (out r))) \/
     (res r = OutOfFuel /\
      wdt_feeds (out r) = fuel /\
      status_polls (out r) = fuel /\
      ~ In (EvWiFiStatus WL_CONNECTED) (out r))).
Proof.
  induction fuel as [|k IH]; intros h g r; subst r; cbn [setup_wait_wifi].
  - cbn. split; [reflexivity | split; [reflexivity |]].
    right. repeat split. intros [].
  - unfold_calls. run. clear Ha. rename a into s.
    destruct (is_connected s) eqn:Hs; cbn [negb].
    + finish_run. destruct s; try discriminate Hs.
      cbn. split; [reflexivity | split; [reflexivity |]].
      left. repeat split.
    + run. finish_run.
      match goal with
      | |- context [out (setup_wait_wifi env k ?h' ?g')] =>
          specialize (IH h' g'); cbv zeta in IH;
          set (w := setup_wait_wifi env k h' g') in *
      end.
      destruct IH as (I1 & I2 & I3).
      change (EvWiFiStatus s :: EvDelay 500 :: EvSerialPrint (PStr ".")
                :: EvWdtReset :: out w)
        with ([EvWiFiStatus s; EvDelay 500; EvSerialPrint (PStr "."); EvWdtReset] ++ out w).
      rewrite status_polls_app, sleep_ms_app, wdt_feeds_app, last_status_app.
      change (status_polls [EvWiFiStatus s; EvDelay 500; EvSerialPrint (PStr "."); EvWdtReset])
        with 1%nat.
      change (sleep_ms [EvWiFiStatus s; EvDelay 500; EvSerialPrint (PStr "."); EvWdtReset])
        with 500.
      change (wdt_feeds [EvWiFiStatus s; EvDelay 500; EvSerialPrint (PStr "."); EvWdtReset])
        with 1%nat.
      split; [exact I1 | split; [lia |]].
      destruct I3 as [(R1 & R2 & R3) | (R1 & R2 & R3 & R4)].
      * left. rewrite R2. repeat split; [exact R1 | lia].
      * right. repeat split; [exact R1 | lia | lia |].
        intros Hin. apply in_app_or in Hin. destruct Hin as [Hin | Hin]; [| exact (R4 Hin)].
        destruct Hin as [Hin | Hin]; [injection Hin as ->; discriminate Hs |].
        repeat (destruct Hin as [Hin | Hin]; [discriminate Hin |]). exact Hin.
Qed.

(** X18.  The loop in which [setup] waits for the link: every round reads
    the status, sleeps 500 ms, prints a dot and feeds the watchdog; the loop
    is left only right after a connected status, at once when the link is up
    at the first read, and it changes no global.  As long as no read is
    connected the rounds go on, one watchdog feed each. *)
Theorem setup_waits_for_link (fuel : nat) (h : list event) (g : Globals) :
  let r := setup_wait_wifi env fuel h g in
  fin r = g /\
  sleep_ms (out r) = 500 * Z.of_nat (wdt_feeds (out r)) /\
  ((res r = Returned tt /\
    last_status (out r) = Some WL_CONNECTED /\
    status_polls (out r) = S (wdt_feeds (out r))) \/
   (res r = OutOfFuel /\
    wdt_feeds (out r) = fuel /\
    status_polls (out r) = fuel /\
    ~ In (EvWiFiStatus WL_CONNECTED) (out r))) /\
  (is_connected (env_wifi_status env h) = true ->
   setup_wait_wifi env (S fuel) h g =
     mkResult (Returned tt) g [EvWiFiStatus WL_CONNECTED]).
Proof.
  intros r.
  destruct (setup_wait_wifi_facts fuel h g) as (H1 & H2 & H3). fold r in H1, H2, H3.
  split; [exact H1 | split; [exact H2 | split; [exact H3 |]]].
  intros Hc. cbn [setup_wait_wifi]. unfold_calls. run. subst a.
  rewrite Hc. cbn [negb]. finish_run.
  destruct (env_wifi_status env h); try discriminate Hc. reflexivity.
Qed.

(** X19.  On a platform whose link never comes up, [setup] never leaves the
    waiting loop: however many rounds are allowed, the loop is still running,
    and it has fed the watchdog in every round, so the watchdog does not end
    the wait either. *)
Theorem setup_never_leaves_without_link (fuel : nat) (h : list event) (g : Globals) :
  (forall h', is_connected (env_wifi_status env h') = false) ->
  let r := setup_wait_wifi env fuel h g in
  res r = OutOfFuel /\
  wdt_feeds (out r) = fuel /\
  sleep_ms (out r) = 500 * Z.of_nat fuel.
Proof.
  intros Hdown r.
  assert (Hall : forall k h0 g0,
             Forall (fun e => forall s, e = EvWiFiStatus s -> is_connected s = false)
               (out (setup_wait_wifi env k h0 g0))).
  { induction k as [|k IH]; intros h0 g0; cbn [setup_wait_wifi]; [constructor |].
    unfold_calls. run. subst a. rewrite Hdown. cbn [negb]. run. finish_run.
    constructor; [intros s E; injection E as <-; apply Hdown |].
    constructor; [intros s E; discriminate E |].
    constructor; [intros s E; discriminate E |].
    constructor; [intros s E; discriminate E |].
    apply IH. }
  destruct (setup_wait_wifi_facts fuel h g) as (_ & H2 & H3). fold r in H2, H3.
  destruct H3 as [(R1 & R2 & _) | (R1 & R2 & _)].
  - exfalso. specialize (Hall fuel h g). fold r in Hall.
    rewrite Forall_forall in Hall.
    specialize (Hall _ (last_status_in _ _ R2) _ eq_refl). discriminate Hall.
  - rewrite H2, R2. repeat split. exact R1.
Qed.

Lemma setup_wait_ntp_facts (n : nat) :
  forall h g,
    let r := setup_wait_ntp env n h g in
    res r = Returned tt /\ fin r = g /\
    (wdt_feeds (out r) <= n)%nat /\
    sleep_ms (out r) = 500 * Z.of_nat (wdt_feeds (out r)) /\
    time_queries (out r) = S (wdt_feeds (out r)) /\
    exists p t,
      out r = p ++ [EvGetLocalTime t] /\
      (t = None -> wdt_feeds (out r) = n).
Proof.
  induction n as [|k IH]; intros h g r; subst r; cbn [setup_wait_ntp];
    unfold_calls; run; clear Ha; rename a into t.
  - destruct t as [t|]; finish_run; cbn;
      (repeat split; try lia); eexists [], _; (split; [reflexivity |]);
      first [discriminate | reflexivity].
  - destruct t as [t|].
    + finish_run. cbn. repeat split; try lia.
      eexists [], _. split; [reflexivity | discriminate].
    + run. finish_run.
      match goal with
      | |- context [out (setup_wait_ntp env k ?h' ?g')] =>
          specialize (IH h' g'); cbv zeta in IH;
          set (w := setup_wait_ntp env k h' g') in *
      end.
      destruct IH as (I1 & I2 & I3 & I4 & I5 & p & t & I6 & I7).
      change (EvGetLocalTime None :: EvSerialPrint (PStr ".") :: EvDelay 500
                :: EvWdtReset :: out w)
        with ([EvGetLocalTime None; EvSerialPrint (PStr "."); EvDelay 500; EvWdtReset]
                ++ out w).
      unfold time_queries in *.
      rewrite sleep_ms_app, wdt_feeds_app, filter_app, length_app.
      change (sleep_ms [EvGetLocalTime None; EvSerialPrint (PStr "."); EvDelay 500; EvWdtReset])
        with 500.
      change (wdt_feeds [EvGetLocalTime None; EvSerialPrint (PStr "."); EvDelay 500; EvWdtReset])
        with 1%nat.
      cbn [filter is_time_query List.length].
      split; [exact I1 | split; [exact I2 | split; [lia | split; [lia | split; [lia |]]]]].
      exists ([EvGetLocalTime None; EvSerialPrint (PStr "."); EvDelay 500; EvWdtReset] ++ p), t.
      split; [rewrite I6, <- app_assoc; reflexivity |].
      intros Ht. rewrite (I7 Ht). reflexivity.
Qed.

(** X20.  The loop in which [setup] waits for the time always ends: it makes
    at most 10 rounds of a dot, 500 ms and a watchdog feed (5 s of its own
    delays at most), asks for the time once more than it sleeps, changes no
    global, and when it has made fewer than 10 rounds the last answer was a
    time. *)
Theorem setup_time_wait_bounded (h : list event) (g : Globals) :
  let r := setup_wait_ntp env 10 h g in
  res r = Returned tt /\ fin r = g /\
  (wdt_feeds (out r) <= 10)%nat /\
  sleep_ms (out r) = 500 * Z.of_nat (wdt_feeds (out r)) /\
  sleep_ms (out r) <= 5000 /\
  time_queries (out r) = S (wdt_feeds (out r)) /\
  exists p t,
    out r = p ++ [EvGetLocalTime t] /\
    ((wdt_feeds (out r) < 10)%nat -> t <> None).
Proof.
  intros r.
  destruct (setup_wait_ntp_facts 10 h g) as (H1 & H2 & H3 & H4 & H5 & p & t & H6 & H7).
  fold r in H1, H2, H3, H4, H5, H6, H7.
  repeat (split; [first [assumption | lia] |]).
  exists p, t. split; [exact H6 |].
  intros Hlt Ht. specialize (H7 Ht). lia.
Qed.

End SetupFacts.

(** ** Runs of ticks *)

Lemma sleep_gaps_no_feed (l tl : list event) :
  forall acc,
    wdt_feeds l = 0%nat ->
    sleep_gaps (l ++ tl) acc = sleep_gaps tl (acc + sleep_ms l).
Proof.
  induction l as [|e l IH]; intros acc Hf.
  - cbn. f_equal. lia.
  - unfold wdt_feeds in Hf. cbn [filter] in Hf.
    destruct (is_wdt_reset e) eqn:He; [discriminate Hf |].
    cbn [app sleep_ms fold_right]. fold (sleep_ms l).
    replace (acc + (sleep_of e + sleep_ms l)) with ((acc + sleep_of e) + sleep_ms l) by lia.
    rewrite <- (IH (acc + sleep_of e) Hf).
    destruct e; try reflexivity. discriminate He.
Qed.

Lemma stays_ready_refl g : stays_ready g g.
Proof. intros H. exact H. Qed.

Lemma stays_ready_trans a b c : stays_ready a b -> stays_ready b c -> stays_ready a c.
Proof. intros H1 H2 H. exact (H2 (H1 H)). Qed.

Lemma keeps_valid_refl g : keeps_valid g g.
Proof. intros H. exact H. Qed.

Lemma keeps_valid_trans a b c : keeps_valid a b -> keeps_valid b c -> keeps_valid a c.
Proof. intros H1 H2 H. exact (H2 (H1 H)). Qed.

Section RunFacts.

Variable env : Env.

(** The globals at the end of a tick: those the guardians left, or those
    with a valid reading stored. *)
Lemma loop_fin (fuel : nat) (h : list event) (g : Globals) :
  let r := loop env fuel h g in
  same_status g (fin r) \/
  exists hum temp,
    CFloat.isnan temp || CFloat.isnan hum = false /\
    currentTemperature (fin r) = temp /\
    currentHumidity (fin r) = hum /\
    stays_ready g (fin r).
Proof.
  intros r.
  pose proof (loop_trace env fuel h g) as T. cbv zeta in T. fold r in T.
  destruct (guardians_status env (h ++ [EvWdtReset]) g) as (Hs1 & Hs2 & _).
  set (wifi := checkWiFiConnection env (h ++ [EvWdtReset]) g) in *.
  set (ntp := checkNTPSync env ((h ++ [EvWdtReset]) ++ out wifi) (fin wifi)) in *.
  destruct (res wifi) as [[]| | |].
  - destruct (env_getLocalTime env _) as [t0|]; [pose (t := int_tm t0); fold t in T |].
    + cbv zeta in T. destruct (env_aht env _) as [hum temp]. cbn [fst snd] in T.
      destruct (CFloat.isnan temp || CFloat.isnan hum) eqn:Hnan;
        [| destruct (texts_fit t hum temp)].
      * left. rewrite T. exact Hs2.
      * right. destruct T as (w1 & w2 & w3 & st & T). cbv zeta in T.
        exists hum, temp. split; [exact Hnan |]. rewrite T.
        split; [reflexivity | split; [reflexivity | intros _; reflexivity]].
      * right. destruct T as (_ & Hfin & _).
        exists hum, temp. split; [exact Hnan |].
        destruct Hs2 as [_ Hf].
        destruct Hfin as [E | [E | E]]; rewrite E;
          (split; [reflexivity | split; [reflexivity |]]); intros Hr;
          cbn [set_reading set_currentTime set_status firstDataReady];
          try reflexivity; rewrite Hf; exact Hr.
    + left. rewrite T. exact Hs2.
  - left. rewrite T. exact Hs1.
  - left. rewrite T. exact Hs1.
  - left. rewrite T. exact Hs1.
Qed.

Lemma loop_stays_ready (fuel : nat) : preserves stays_ready (loop env fuel).
Proof.
  intros h g Hr.
  destruct (loop_fin fuel h g) as [[_ Hs] | (hum & temp & _ & _ & _ & E)].
  - rewrite Hs. exact Hr.
  - exact (E Hr).
Qed.

Lemma loop_keeps_valid (fuel : nat) : preserves keeps_valid (loop env fuel).
Proof.
  intros h g [Ht Hh].
  destruct (loop_fin fuel h g) as [[Hs _] | (hum & temp & Hok & Et & Eh & _)].
  - unfold valid_status.
    change (currentTemperature (fin (loop env fuel h g)))
      with (sh_temperature (shared (fin (loop env fuel h g)))).
    change (currentHumidity (fin (loop env fuel h g)))
      with (sh_humidity (shared (fin (loop env fuel h g)))).
    rewrite Hs. split; assumption.
  - unfold valid_status. rewrite Et, Eh.
    apply Bool.orb_false_iff in Hok. tauto.
Qed.

(** X21.  Over any number of ticks the first-data flag never goes back:
    once a reading has been stored it stays set, whatever the guardians and
    the later readings do. *)
Theorem first_data_flag_is_sticky (fuel n : nat) (h : list event) (g : Globals) :
  firstDataReady g = true ->
  firstDataReady (fin (ticks env fuel n h g)) = true.
Proof.
  exact (times_preserves stays_ready (loop env fuel) n
           stays_ready_refl stays_ready_trans (loop_stays_ready fuel) h g).
Qed.

(** X22.  The status server never publishes an invalid reading: after any
    number of ticks from the initial state, on any platform, the stored
    temperature and humidity are not NaN, because a tick stores a reading
    only after it has checked it. *)
Theorem published_reading_is_never_nan (fuel n : nat) (h : list event) :
  let g := fin (ticks env fuel n h initial_globals) in
  CFloat.isnan (sh_temperature (shared g)) = false /\
  CFloat.isnan (sh_humidity (shared g)) = false.
Proof.
  intros g.
  apply (times_preserves keeps_valid (loop env fuel) n
           keeps_valid_refl keeps_valid_trans (loop_keeps_valid fuel) h initial_globals).
  split; reflexivity.
Qed.

Lemma ticks_gaps (fuel n : nat) :
  forall h g acc,
    0 <= acc <= 14000 ->
    Forall (fun d => 0 <= d <= 14000) (sleep_gaps (out (ticks env fuel n h g)) acc).
Proof.
  induction n as [|n IH]; intros h g acc Hacc.
  - cbn. constructor; [exact Hacc | constructor].
  - unfold ticks. cbn [times]. fold (ticks env fuel n).
    destruct (tick_summary env fuel h g) as (rest & E & F & S1 & _).
    destruct (res (loop env fuel h g)) as [[]| | |] eqn:Hres.
    + rewrite (bind_returned _ _ _ _ tt Hres). unfold extend. cbn [out].
      rewrite E. cbn [app sleep_gaps].
      constructor; [exact Hacc |].
      rewrite (sleep_gaps_no_feed rest _ 0 F).
      apply IH. lia.
    + rewrite (bind_restarted _ _ _ _ Hres). cbn [out].
      rewrite E. cbn [sleep_gaps].
      constructor; [exact Hacc |].
      rewrite <- (app_nil_r rest), (sleep_gaps_no_feed rest [] 0 F). cbn.
      constructor; [lia | constructor].
    + rewrite (bind_out_of_fuel _ _ _ _ Hres). cbn [out].
      rewrite E. cbn [sleep_gaps].
      constructor; [exact Hacc |].
      rewrite <- (app_nil_r rest), (sleep_gaps_no_feed rest [] 0 F). cbn.
      constructor; [lia | constructor].
    + rewrite (bind_undefined _ _ _ _ Hres). cbn [out].
      rewrite E. cbn [sleep_gaps].
      constructor; [exact Hacc |].
      rewrite <- (app_nil_r rest), (sleep_gaps_no_feed rest [] 0 F). cbn.
      constructor; [lia | constructor].
Qed.

(** X23.  The sketch's own delays never starve the watchdog: in any run of
    ticks, on any platform, the delays between two consecutive watchdog
    feeds (and after the last one) add up to 14 s at most, less than half of
    the 30 s timeout. *)
Theorem watchdog_margin (fuel n : nat) (h : list event) (g : Globals) :
  Forall (fun d => 0 <= d <= 14000) (sleep_gaps (out (ticks env fuel n h g)) 0).
Proof. apply ticks_gaps. lia. Qed.

End RunFacts.

(** ** The 404 page, argument by argument *)

Lemma append_empty (s : string) : s +++ EmptyString = s.
Proof. induction s as [|x s IH]; simpl; [reflexivity | rewrite IH; reflexivity]. Qed.

Lemma skipn_nth {A : Type} (d : A) (l : list A) :
  forall n, (n < List.length l)%nat -> skipn n l = nth n l d :: skipn (S n) l.
Proof.
  induction l as [|x l IH]; intros n Hn; [cbn in Hn; lia |].
  destruct n as [|n]; [reflexivity |].
  cbn [skipn nth]. apply IH. cbn in Hn. lia.
Qed.

Lemma notFound_args_step (k : nat) (r : Request) (i : Z) (message : string) :
  notFound_args (S k) r i message =
    if i <? server_args r
    then notFound_args k r (CInt.to_uint8 (i + 1))
           (message +++ " " +++ server_argName r i +++ ": "
                    +++ server_arg r i +++ Text.nl)
    else Some message.
Proof. reflexivity. Qed.

Lemma notFound_args_closed (r : Request) :
  server_args r <= 255 ->
  forall k i message,
    0 <= i -> server_args r - i = Z.of_nat k ->
    notFound_args (S k) r i message =
      Some (message +++ arg_lines (skipn (Z.to_nat i) (req_args r))).
Proof.
  intros Hn. induction k as [|k IH]; intros i message Hi Hk.
  - cbn [notFound_args].
    replace (i <? server_args r) with false by (symmetry; apply Z.ltb_ge; lia).
    rewrite skipn_all2 by (unfold server_args in Hk; lia).
    cbn [arg_lines]. rewrite append_empty. reflexivity.
  - rewrite notFound_args_step.
    replace (i <? server_args r) with true by (symmetry; apply Z.ltb_lt; lia).
    assert (Hw : CInt.to_uint8 (i + 1) = i + 1).
    { unfold CInt.to_uint8. change (2 ^ 8) with 256. apply Z.mod_small. lia. }
    rewrite Hw, IH by lia.
    rewrite (skipn_nth (EmptyString, EmptyString) (req_args r) (Z.to_nat i))
      by (unfold server_args in Hk; lia).
    replace (Z.to_nat (i + 1)) with (S (Z.to_nat i)) by lia.
    cbn [arg_lines]. unfold arg_line, server_argName, server_arg.
    rewrite !append_assoc. reflexivity.
Qed.

(** X24.  With at most 255 arguments the 404 page lists every argument of
    the request once, in order, one line each, after the line that counts
    them. *)
Theorem notFound_lists_arguments (r : Request) (h : list event) (g : Globals) :
  server_args r <= 255 ->
  handleNotFound (S (List.length (req_args r))) r h g =
    mkResult (Returned tt) g
      [EvSend 404 "text/plain" (notFound_head r +++ arg_lines (req_args r))].
Proof.
  intros Hn. unfold handleNotFound.
  rewrite (notFound_args_closed r Hn (List.length (req_args r)) 0 (notFound_head r))
    by (unfold server_args; lia).
  reflexivity.
Qed.

(** ** Restart and termination of a tick *)

Lemma to_uint32_small z : 0 <= z < 4294967296 -> CInt.to_uint32 z = z.
Proof. intros Hz. unfold CInt.to_uint32. apply Z.mod_small. exact Hz. Qed.

(** X25.  The first sketch centres the temperature text exactly: with
    [total = 6 * textSize * (strlen + 2)] pixels for the number, the degree
    sign and the letter C, and [total <= 128], the cursor is set to
    [x = (128 - total) / 2], the text ends inside the display and the margins
    left and right are equal. *)
Theorem gfx_printTempCentered_centred (len textSize : Z) :
  0 <= len -> 0 <= textSize -> 6 * textSize * (len + 2) <= 128 ->
  let total := 6 * textSize * (len + 2) in
  let x := SketchGfx.printTempCentered_x len textSize in
  x = (128 - total) / 2 /\
  0 <= x /\ x + total <= 128 /\
  128 - (x + total) = x.
Proof.
  intros Hl Ht Hw total x.
  assert (Hp : 0 <= len * 6 * textSize) by (apply Z.mul_nonneg_nonneg; lia).
  assert (Hx : x = (128 - total) / 2).
  { subst x. unfold SketchGfx.printTempCentered_x, SketchGfx.int_mul,
      SketchGfx.SCREEN_WIDTH, CInt.int_add, CInt.int_sub, CInt.int_div.
    cbv zeta.
    assert (E : CInt.to_uint32 (CInt.to_uint32 (len * 6) * CInt.to_uint32 textSize) =
                len * 6 * textSize).
    { unfold CInt.to_uint32. change (2 ^ 32) with 4294967296.
      rewrite <- Z.mul_mod by lia. apply Z.mod_small. nia. }
    rewrite E. change (2 * 6) with 12.
    rewrite (to_int32_small 12) by lia.
    rewrite (to_int32_small (12 * textSize)) by nia.
    rewrite (to_int32_small (len * 6 * textSize)) by nia.
    rewrite (to_int32_small (len * 6 * textSize + 12 * textSize)) by nia.
    replace (len * 6 * textSize + 12 * textSize) with total by (subst total; ring).
    assert (Ht0 : 0 <= total) by (subst total; nia).
    rewrite (to_int32_small (128 - total)) by lia.
    rewrite Z.quot_div_nonneg by lia.
    pose proof (Z.div_mod (128 - total) 2 ltac:(lia)) as D.
    pose proof (Z.mod_pos_bound (128 - total) 2 ltac:(lia)) as B.
    rewrite to_int32_small by lia. rewrite to_int16_small by lia. reflexivity. }
  assert (Heven : (128 - total) mod 2 = 0).
  { replace (128 - total) with ((64 - 3 * textSize * (len + 2)) * 2)
      by (subst total; ring).
    apply Z.mod_mul. lia. }
  pose proof (Z.div_mod (128 - total) 2 ltac:(lia)) as D.
  assert (Ht0 : 0 <= total) by (subst total; nia).
  rewrite Hx. lia.
Qed.

Lemma gfx_printTempCentered_centred_witness :
  SketchGfx.printTempCentered_x 4 2 = 28.
Proof.
  exact (proj1 (gfx_printTempCentered_centred 4 2 ltac:(lia) ltac:(lia) ltac:(lia))).
Defined.

Section TickEnds.

Variable env : Env.

(** How a call of [server.handleClient()] ends: it never restarts the
    device, and with enough iterations for the argument loop it returns. *)
Lemma server_handleClient_res (fuel : nat) (h : list event) (g : Globals) :
  let hc := server_handleClient env fuel h g in
  res hc <> Restarted /\
  ((forall rq, env_client env h = Some rq -> server_args rq <= 255) ->
   (255 < fuel)%nat -> res hc = Returned tt).
Proof.
  intros hc. subst hc. rewrite server_handleClient_trace.
  destruct (env_client env h) as [rq|]; [| split; [discriminate | reflexivity]].
  destruct (registered (req_uri rq)) eqn:Hreg.
  - destruct (registered_find_route _ Hreg) as (handler & Hf & Hh). rewrite Hf.
    destruct (handlers_from_shared (h ++ [EvHandleClient (Some rq)]) g)
      as (H1 & H2 & H3 & H4). cbv zeta in H1, H2, H3, H4.
    destruct Hh as [-> | [-> | [-> | ->]]];
      [rewrite H1 | rewrite H2 | rewrite H3 | rewrite H4];
      (split; [discriminate | reflexivity]).
  - rewrite (unregistered_find_route _ Hreg). unfold handleNotFound.
    split.
    + destruct (notFound_args fuel rq 0 (notFound_head rq)); discriminate.
    + intros Hargs Hfuel. specialize (Hargs rq eq_refl).
      destruct (notFound_args_terminates rq Hargs (List.length (req_args rq)) 0
                  (notFound_head rq)) as [m Hm]; [lia | unfold server_args; lia |].
      rewrite (notFound_args_more_fuel rq (S (List.length (req_args rq))) fuel 0
                 (notFound_head rq) m); [reflexivity | | exact Hm].
      unfold server_args in Hargs. lia.
Qed.

Lemma server_handleClient_defined (fuel : nat) (h : list event) (g : Globals) :
  res (server_handleClient env fuel h g) <> Undefined.
Proof.
  rewrite server_handleClient_trace.
  destruct (env_client env h) as [rq|]; [| discriminate].
  destruct (registered (req_uri rq)) eqn:Hreg.
  - destruct (registered_find_route _ Hreg) as (handler & Hf & Hh). rewrite Hf.
    destruct (handlers_from_shared (h ++ [EvHandleClient (Some rq)]) g)
      as (H1 & H2 & H3 & H4). cbv zeta in H1, H2, H3, H4.
    destruct Hh as [-> | [-> | [-> | ->]]];
      [rewrite H1 | rewrite H2 | rewrite H3 | rewrite H4]; discriminate.
  - rewrite (unregistered_find_route _ Hreg). unfold handleNotFound.
    destruct (notFound_args fuel rq 0 (notFound_head rq)); discriminate.
Qed.

(** X26.  A tick restarts the device only through the network guardian:
    when [loop] ends in a restart, the failure counter has reached the
    maximum, the last platform calls are the restart notice, the 2000 ms wait
    and [ESP.restart()], and the tick has read no sensor, served no request
    and left the shared status as it was. *)
Theorem tick_restarts_only_for_the_link (fuel : nat) (h : list event) (g : Globals) :
  let r := loop env fuel h g in
  res r = Restarted ->
  (exists before, out r = before ++ restart_events) /\
  maxReconnectCount <= reconnectCount (fin r) /\
  filter is_sensor_read (out r) = [] /\
  filter is_handle_client (out r) = [] /\
  same_status g (fin r).
Proof.
  intros r Hres.
  pose proof (loop_trace env fuel h g) as T. cbv zeta in T. fold r in T.
  pose proof (checkWiFi_restart_shape env (h ++ [EvWdtReset]) g) as Hshape.
  cbv zeta in Hshape.
  destruct (guardians_status env (h ++ [EvWdtReset]) g) as (Hs1 & _ & Hg).
  apply Forall_app in Hg. destruct Hg as [Hg _].
  destruct (guardian_events_facts _ Hg) as [G1 G2].
  set (wifi := checkWiFiConnection env (h ++ [EvWdtReset]) g) in *.
  destruct (res wifi) as [[]| | |] eqn:Hw.
  - exfalso.
    destruct (env_getLocalTime env _) as [t0|]; [pose (t := int_tm t0); fold t in T |].
    + cbv zeta in T. destruct (env_aht env _) as [hum temp]. cbn [fst snd] in T.
      destruct (CFloat.isnan temp || CFloat.isnan hum);
        [| destruct (texts_fit t hum temp)].
      * rewrite T in Hres. discriminate Hres.
      * destruct T as (w1 & w2 & w3 & st & T). cbv zeta in T.
        rewrite T in Hres. cbn [res] in Hres.
        match type of Hres with
        | context [server_handleClient env fuel ?h' ?g'] =>
            destruct (server_handleClient_res fuel h' g') as [Hno _];
            destruct (res (server_handleClient env fuel h' g')) as [[]| | |]
        end; try discriminate Hres. apply Hno. reflexivity.
      * destruct T as (Hu & _). rewrite Hu in Hres. discriminate Hres.
    + rewrite T in Hres. discriminate Hres.
  - destruct (Hshape eq_refl) as [[before Eb] Hc].
    rewrite T. cbn [out fin].
    split; [exists ([EvWdtReset] ++ before); rewrite Eb, app_assoc; reflexivity |].
    split; [exact Hc |].
    rewrite !filter_app, G1, G2.
    split; [reflexivity | split; [reflexivity | exact Hs1]].
  - exfalso.
    destruct (checkWiFi_res env (h ++ [EvWdtReset]) g) as [E | E];
      fold wifi in E; rewrite Hw in E; discriminate E.
  - exfalso.
    destruct (checkWiFi_res env (h ++ [EvWdtReset]) g) as [E | E];
      fold wifi in E; rewrite Hw in E; discriminate E.
Qed.

End TickEnds.

(** ** What a tick serves *)

Lemma int_tm_calendar (t : tm) : calendar_time t -> int_tm t = t.
Proof.
  intros (Hh & Hm & Hs & Hd & Hmo & Hy). destruct t as [s m hr d mo y].
  cbn [tm_sec tm_min tm_hour tm_mday tm_mon tm_year] in *.
  unfold int_tm. cbn [tm_sec tm_min tm_hour tm_mday tm_mon tm_year].
  rewrite !to_int32_small by lia. reflexivity.
Qed.

(** The texts of a calendar time fit their buffers. *)
Lemma calendar_texts_fit (t : tm) (hum temp : CFloat.float) :
  calendar_time t ->
  (String.length (tempHum_text hum temp) < 30)%nat ->
  String.length (format_time t) = 8%nat /\
  String.length (format_date t) = 10%nat /\
  texts_fit t hum temp = true.
Proof.
  intros (Hh & Hm & Hs & Hd & Hmo & Hy) Hlen.
  assert (Ht : String.length (format_time t) = 8%nat).
  { unfold format_time. rewrite !length_append, !fmt_0d_2_width by lia. reflexivity. }
  assert (Hdt : String.length (format_date t) = 10%nat).
  { unfold format_date, CInt.int_add. rewrite !to_int32_small by lia.
    rewrite !length_append, !fmt_0d_2_width, fmt_0d_4_width by lia. reflexivity. }
  split; [exact Ht | split; [exact Hdt |]].
  unfold texts_fit. rewrite Ht, Hdt.
  apply Nat.ltb_lt in Hlen. rewrite Hlen. reflexivity.
Qed.

Section TickServes.

Variable env : Env.

(** X7.  A tick calls [server.handleClient()] at most once, and only after
    it has read a valid value from the sensor in this same tick and stored
    it: the call is made on globals that hold the temperature and the
    humidity just read with [firstDataReady] set.  A tick that restarts the
    device, a tick that finds no time after the guardians, a tick whose
    reading is NaN and a tick that reads no sensor do not look at the HTTP
    client. *)
Theorem served_only_after_store (fuel : nat) (h : list event) (g : Globals) :
  let r := loop env fuel h g in
  let wifi := checkWiFiConnection env (h ++ [EvWdtReset]) g in
  let ntp := checkNTPSync env ((h ++ [EvWdtReset]) ++ out wifi) (fin wifi) in
  let mem := checkMemory env (((h ++ [EvWdtReset]) ++ out wifi) ++ out ntp) (fin ntp) in
  let pre := [EvWdtReset] ++ out wifi ++ out ntp ++ out mem in
  (forall p, In (EvHandleClient p) (out r) ->
     exists hum temp b1 b2 g1 after,
       let before := b1 ++ EvAhtGetEvent hum temp :: b2 in
       let hc := server_handleClient env fuel (h ++ before) g1 in
       out r = before ++ out hc ++ after /\
       CFloat.isnan temp || CFloat.isnan hum = false /\
       currentTemperature g1 = temp /\
       currentHumidity g1 = hum /\
       firstDataReady g1 = true /\
       fin r = g1 /\
       filter is_handle_client before = [] /\
       filter is_handle_client (out hc) = [EvHandleClient p] /\
       filter is_handle_client after = []) /\
  (res r = Restarted -> filter is_handle_client (out r) = []) /\
  (env_getLocalTime env (h ++ pre) = None -> filter is_handle_client (out r) = []) /\
  (forall hum temp, In (EvAhtGetEvent hum temp) (out r) ->
     CFloat.isnan temp || CFloat.isnan hum = true ->
     filter is_handle_client (out r) = []) /\
  (filter is_sensor_read (out r) = [] -> filter is_handle_client (out r) = []).
Proof.
  intros r wifi0 ntp0 mem0 pre0.
  assert (Hserved : forall p, In (EvHandleClient p) (out r) ->
            exists hum temp b1 b2 g1 after,
              out r = (b1 ++ EvAhtGetEvent hum temp :: b2) ++
                      out (server_handleClient env fuel
                             (h ++ b1 ++ EvAhtGetEvent hum temp :: b2) g1) ++ after /\
              CFloat.isnan temp || CFloat.isnan hum = false /\
              currentTemperature g1 = temp /\
              currentHumidity g1 = hum /\
              firstDataReady g1 = true /\
              r = mkResult (end_of_tick (res (server_handleClient env fuel
                             (h ++ b1 ++ EvAhtGetEvent hum temp :: b2) g1))) g1 (out r) /\
              filter is_handle_client (b1 ++ EvAhtGetEvent hum temp :: b2) = [] /\
              filter is_handle_client
                (out (server_handleClient env fuel
                        (h ++ b1 ++ EvAhtGetEvent hum temp :: b2) g1)) = [EvHandleClient p] /\
              filter is_handle_client after = []).
  { intros p Hin.
    destruct (served_tick env fuel h g p Hin)
      as (t0 & w1 & w2 & w3 & st & Hw & Ht & Hnan & Hfit & E).
    cbv zeta in Hnan, Hfit, E. fold r in E.
    pose proof (tick_prefix_guardian env h g) as Hg. cbv zeta in Hg.
    destruct (guardian_events_facts _ Hg) as [G1 _].
    set (pre := [EvWdtReset] ++ _) in *.
    set (t := int_tm t0) in *.
    destruct (env_aht env ((h ++ pre) ++ [EvGetLocalTime (Some t)])) as [hum temp].
    cbn [fst snd] in *.
    set (g1 := set_status temp hum (format_time t) (format_date t) _) in *.
    exists hum, temp, (pre ++ [EvGetLocalTime (Some t)]),
      (List.tl (success_events t hum temp w1 w2 w3 st)), g1.
    assert (Emid : (pre ++ [EvGetLocalTime (Some t)]) ++ EvAhtGetEvent hum temp ::
                     List.tl (success_events t hum temp w1 w2 w3 st) =
                   pre ++ EvGetLocalTime (Some t) :: success_events t hum temp w1 w2 w3 st).
    { rewrite <- app_assoc. reflexivity. }
    rewrite Emid.
    set (mid := EvGetLocalTime (Some t) :: success_events t hum temp w1 w2 w3 st) in *.
    set (hc := server_handleClient env fuel (h ++ pre ++ mid) g1) in *.
    exists (tick_sleep (res hc)).
    destruct (server_handleClient_facts env fuel (h ++ pre ++ mid) g1)
      as (_ & rest & Eo & Hr).
    cbv zeta in Eo. fold hc in Eo.
    destruct (handler_events_facts rest Hr) as (_ & _ & Fr & _).
    destruct (tick_sleep_facts (res hc)) as (Fs & _).
    assert (Hout : out r = (pre ++ mid) ++ out hc ++ tick_sleep (res hc)).
    { rewrite E. cbn [out]. rewrite <- app_assoc. reflexivity. }
    assert (Hone : filter is_handle_client (out hc) = [EvHandleClient (env_client env (h ++ pre ++ mid))]).
    { rewrite Eo. cbn [filter is_handle_client]. rewrite Fr. reflexivity. }
    assert (Hbefore : filter is_handle_client (pre ++ mid) = []).
    { rewrite filter_app, G1. reflexivity. }
    split; [exact Hout |].
    split; [exact Hnan |].
    split; [reflexivity |]. split; [reflexivity |]. split; [reflexivity |].
    split; [rewrite E at 1; cbn [out]; rewrite E; reflexivity |].
    split; [exact Hbefore |].
    split; [| exact Fs].
    rewrite Hone. f_equal.
    assert (Hp : In (EvHandleClient p) (filter is_handle_client (out r)))
      by (apply filter_In; split; [exact Hin | reflexivity]).
    rewrite Hout, filter_app, Hbefore, filter_app, Hone, Fs in Hp.
    destruct Hp as [Hp | []]. exact Hp. }
  split.
  { intros p Hin.
    destruct (Hserved p Hin) as (hum & temp & b1 & b2 & g1 & after & H1 & H2 & H3 & H4 & H5 & H6 & H7).
    exists hum, temp, b1, b2, g1, after. cbv zeta.
    split; [exact H1 |]. split; [exact H2 |]. split; [exact H3 |].
    split; [exact H4 |]. split; [exact H5 |].
    split; [rewrite H6; reflexivity | exact H7]. }
  split.
  { intros Hres. apply not_served_nil. intros p Hin.
    destruct (Hserved p Hin) as (hum & temp & b1 & b2 & g1 & after & _ & _ & _ & _ & _ & E & _).
    rewrite E in Hres. cbn [res] in Hres.
    match type of Hres with
    | end_of_tick (res (server_handleClient env fuel ?h' ?g')) = _ =>
        pose proof (proj1 (server_handleClient_res env fuel h' g')) as Hr;
        cbv zeta in Hr;
        destruct (res (server_handleClient env fuel h' g')) as [[]| | |]
    end; try discriminate Hres. apply Hr. reflexivity. }
  split.
  { intros Hnone. apply not_served_nil. intros p Hp.
    destruct (served_tick env fuel h g p Hp)
      as (t0 & w1 & w2 & w3 & st & _ & Ht & _).
    fold wifi0 in Ht. fold ntp0 in Ht. fold mem0 in Ht. fold pre0 in Ht.
    rewrite Hnone in Ht. discriminate Ht. }
  split.
  { intros hum temp Hin Hnan. apply not_served_nil. intros p Hp.
    destruct (served_tick env fuel h g p Hp)
      as (t0 & w1 & w2 & w3 & st & Hw & Ht & Hok & _).
    destruct (reading_tick env fuel h g hum temp Hin) as (_ & t0' & Ht' & Ha & _).
    cbv zeta in Hok. rewrite Ht in Ht'. injection Ht' as <-.
    rewrite Ha in Hok. cbn [fst snd] in Hok. rewrite Hok in Hnan. discriminate Hnan. }
  intros Hnone. apply not_served_nil. intros p Hp.
  destruct (Hserved p Hp) as (hum & temp & b1 & b2 & g1 & after & E & _).
  rewrite E in Hnone. rewrite !filter_app in Hnone.
  cbn [filter is_sensor_read] in Hnone.
  destruct (filter is_sensor_read b1); discriminate Hnone.
Qed.

(** X8.  A tick whose sensor reading is valid publishes it.  When the
    network guardian returns, the time read after the guardians is a calendar
    time and the reading just taken is valid and prints in fewer than 30
    characters, the tick stores that temperature and humidity with the time
    and the date of this tick (8 and 10 characters, so they fit the buffers),
    sets the first-data flag, draws the date at row 12, the time at row 38 and
    the reading at row 60, logs, and only then calls [server.handleClient()]
    once; before the time query it has made the watchdog feed and the calls of
    the three guardians and nothing else. *)
Theorem valid_reading_is_published (fuel : nat) (h : list event) (g : Globals) (t0 : tm) :
  let r := loop env fuel h g in
  let wifi := checkWiFiConnection env (h ++ [EvWdtReset]) g in
  let ntp := checkNTPSync env ((h ++ [EvWdtReset]) ++ out wifi) (fin wifi) in
  let mem := checkMemory env (((h ++ [EvWdtReset]) ++ out wifi) ++ out ntp) (fin ntp) in
  let pre := [EvWdtReset] ++ out wifi ++ out ntp ++ out mem in
  let t := int_tm t0 in
  let ht := env_aht env ((h ++ pre) ++ [EvGetLocalTime (Some t)]) in
  let hum := fst ht in
  let temp := snd ht in
  res wifi = Returned tt ->
  env_getLocalTime env (h ++ pre) = Some t0 ->
  CFloat.isnan temp || CFloat.isnan hum = false ->
  calendar_time t ->
  (String.length (tempHum_text hum temp) < 30)%nat ->
  exists w1 w2 w3 st rest,
    let mid := EvGetLocalTime (Some t) :: success_events t hum temp w1 w2 w3 st in
    shared (fin r) = mkShared temp hum (format_time t) (format_date t) /\
    firstDataReady (fin r) = true /\
    String.length (currentTime (fin r)) = 8%nat /\
    String.length (currentDate (fin r)) = 10%nat /\
    lastWiFiCheck (fin r) = lastWiFiCheck (fin ntp) /\
    lastNTPCheck (fin r) = lastNTPCheck (fin ntp) /\
    reconnectCount (fin r) = reconnectCount (fin ntp) /\
    res r <> Restarted /\ res r <> Undefined /\
    out r = pre ++ mid ++ EvHandleClient (env_client env (h ++ pre ++ mid)) :: rest /\
    filter is_handle_client rest = [] /\
    filter is_sensor_read rest = [].
Proof.
  intros r wifi ntp mem pre t ht hum temp Hw Ht Hnan Hcal Hlen.
  destruct (calendar_texts_fit t hum temp Hcal Hlen) as (L1 & L2 & Hfit).
  destruct (published_tick env fuel h g t0 Hw Ht Hnan Hfit) as (w1 & w2 & w3 & st & E).
  cbv zeta in E. fold r wifi in E. fold ntp in E. fold mem in E. fold pre in E.
  fold t in E. fold ht in E. fold hum temp in E.
  set (mid := EvGetLocalTime (Some t) :: success_events t hum temp w1 w2 w3 st) in *.
  set (g1 := set_status temp hum (format_time t) (format_date t) (fin ntp)) in *.
  set (hc := server_handleClient env fuel (h ++ pre ++ mid) g1) in *.
  destruct (server_handleClient_facts env fuel (h ++ pre ++ mid) g1) as (_ & rest & Eo & Hr).
  cbv zeta in Eo. fold hc in Eo.
  destruct (handler_events_facts rest Hr) as (_ & _ & Fc & Fsr).
  destruct (tick_sleep_facts (res hc)) as (Fs1 & Fs2 & _).
  pose proof (proj1 (server_handleClient_res env fuel (h ++ pre ++ mid) g1)) as Hnr.
  cbv zeta in Hnr. fold hc in Hnr.
  pose proof (server_handleClient_defined env fuel (h ++ pre ++ mid) g1) as Hnu.
  fold hc in Hnu.
  exists w1, w2, w3, st, (rest ++ tick_sleep (res hc)). cbv zeta. fold mid.
  rewrite E. cbn [fin out res]. rewrite Eo.
  split; [reflexivity |]. split; [reflexivity |].
  split; [exact L1 |]. split; [exact L2 |].
  split; [reflexivity |]. split; [reflexivity |]. split; [reflexivity |].
  split; [destruct (res hc) as [[]| | |]; cbn; congruence |].
  split; [destruct (res hc) as [[]| | |]; cbn; congruence |].
  split; [reflexivity |].
  rewrite !filter_app, Fc, Fsr, Fs1, Fs2. split; reflexivity.
Qed.

(** X10.  A request served in a tick is answered from the reading of that
    same tick.  On a platform whose clock answers calendar times, for a
    reading that prints in fewer than 30 characters: [/temperature],
    [/humidity] and [/json] send the values that the sensor returned in this
    tick, rounded to one decimal, and [/json] the time and the date read in
    this tick, 8 and 10 characters long. *)
Theorem served_reading_is_fresh (fuel : nat) (h : list event) (g : Globals)
  (rq : Request) (hum temp : CFloat.float) :
  (forall h' t0, env_getLocalTime env h' = Some t0 -> calendar_time t0) ->
  (String.length (tempHum_text hum temp) < 30)%nat ->
  let r := loop env fuel h g in
  In (EvHandleClient (Some rq)) (out r) ->
  In (EvAhtGetEvent hum temp) (out r) ->
  (req_uri rq = "/temperature" ->
   In (EvSend 200 "text/plain" (CFloat.fixed1 temp +++ "°C")) (out r)) /\
  (req_uri rq = "/humidity" ->
   In (EvSend 200 "text/plain" (CFloat.fixed1 hum +++ "%")) (out r)) /\
  (req_uri rq = "/json" ->
   exists t,
     In (EvGetLocalTime (Some t)) (out r) /\
     calendar_time t /\
     String.length (format_time t) = 8%nat /\
     String.length (format_date t) = 10%nat /\
     In (EvSend 200 "application/json"
           (spaced_json_body (CFloat.fixed1 temp) (CFloat.fixed1 hum)
              (format_time t) (format_date t))) (out r)).
Proof.
  intros Hclock Hlen r Hc Hin.
  destruct (served_tick env fuel h g (Some rq) Hc)
    as (t0 & w1 & w2 & w3 & st & Hw & Ht & Hnan & Hfit & E).
  destruct (reading_tick env fuel h g hum temp Hin) as (_ & t0' & Ht' & Ha & _).
  rewrite Ht in Ht'. injection Ht' as <-.
  cbv zeta in Hnan, Hfit, E. fold r in E.
  pose proof (Hclock _ _ Ht) as Hcal.
  rewrite (int_tm_calendar t0 Hcal) in *.
  rewrite Ha in *. cbn [fst snd] in *.
  destruct (calendar_texts_fit t0 hum temp Hcal Hlen) as (L1 & L2 & _).
  pose proof (tick_prefix_guardian env h g) as Hg. cbv zeta in Hg.
  destruct (guardian_events_facts _ Hg) as [G1 _].
  assert (Hc' : In (EvHandleClient (Some rq)) (filter is_handle_client (out r)))
    by (apply filter_In; split; [exact Hc | reflexivity]).
  rewrite E in Hc'. cbn [out] in Hc'.
  match type of E with
  | context [out (server_handleClient env fuel ?h' ?g')] =>
      destruct (server_handleClient_facts env fuel h' g') as (_ & rest & Eo & Hr);
      cbv zeta in Eo;
      pose proof (server_handleClient_trace env fuel h' g') as Tr;
      destruct (tick_sleep_facts (res (server_handleClient env fuel h' g')))
        as (Fs & _);
      set (hh := h') in *;
      set (g1 := g') in *;
      set (hc := server_handleClient env fuel hh g1) in *;
      set (p0 := env_client env hh) in *
  end.
  destruct (handler_events_facts rest Hr) as (_ & _ & Fr & _).
  rewrite filter_app, G1, !filter_app, Fs, Eo in Hc'.
  cbn [filter is_handle_client success_events app] in Hc'. rewrite Fr in Hc'.
  destruct Hc' as [Hp | []]. injection Hp as Hp.
  rewrite Hp in Tr. cbv beta iota in Tr.
  assert (Hsend : forall e, In e (out hc) -> In e (out r)).
  { intros e He. rewrite E. cbn [out].
    apply in_or_app. right. apply in_or_app. right. apply in_or_app. left. exact He. }
  destruct (handlers_from_shared (hh ++ [EvHandleClient (Some rq)]) g1)
    as (_ & Hte & Hh & Hj).
  cbv zeta in Hte, Hh, Hj.
  assert (Hs : shared g1 = mkShared temp hum (format_time t0) (format_date t0))
    by reflexivity.
  rewrite Hs in Hte, Hh, Hj. cbn [sh_temperature sh_humidity sh_time sh_date] in Hte, Hh, Hj.
  split; [| split].
  - intros Hu. apply Hsend. rewrite Tr, Hu.
    change (find_route "/temperature" routes) with (Some handleTemperature). cbv beta iota.
    rewrite Hte. unfold extend. cbn [out].
    apply in_or_app. right. apply in_or_app. right. left. reflexivity.
  - intros Hu. apply Hsend. rewrite Tr, Hu.
    change (find_route "/humidity" routes) with (Some handleHumidity). cbv beta iota.
    rewrite Hh. unfold extend. cbn [out].
    apply in_or_app. right. apply in_or_app. right. left. reflexivity.
  - intros Hu. exists t0. split.
    + rewrite E. cbn [out]. apply in_or_app. right. left. reflexivity.
    + split; [exact Hcal |]. split; [exact L1 |]. split; [exact L2 |].
      apply Hsend. rewrite Tr, Hu.
      change (find_route "/json" routes) with (Some handleJson). cbv beta iota.
      rewrite Hj. unfold extend. cbn [out].
      apply in_or_app. right. apply in_or_app. right. left. reflexivity.
Qed.

(** X27.  A tick always ends: when every pending request has at most 255
    arguments, 256 iterations for the argument loop of the 404 page are
    enough, on any platform and from any state.  [loop] then returns, or
    restarts the device, or stops at a [sprintf] whose text does not fit its
    buffer, where C no longer says what the program does; that happens only
    after a time and a valid reading were read in this tick, for a text that
    is too long.  On a platform whose clock answers calendar times and whose
    readings print in fewer than 30 characters, [loop] returns or restarts
    the device. *)
Theorem tick_terminates (fuel : nat) (h : list event) (g : Globals) :
  (forall h' rq, env_client env h' = Some rq -> server_args rq <= 255) ->
  (255 < fuel)%nat ->
  let r := loop env fuel h g in
  res r <> OutOfFuel /\
  (res r = Returned tt \/ res r = Restarted \/
   (res r = Undefined /\
    exists t hum temp,
      In (EvGetLocalTime (Some t)) (out r) /\
      In (EvAhtGetEvent hum temp) (out r) /\
      CFloat.isnan temp || CFloat.isnan hum = false /\
      texts_fit t hum temp = false)) /\
  ((forall h' t0, env_getLocalTime env h' = Some t0 -> calendar_time t0) ->
   (forall h', (String.length (tempHum_text (fst (env_aht env h'))
                                 (snd (env_aht env h'))) < 30)%nat) ->
   res r = Returned tt \/ res r = Restarted).
Proof.
  intros Hargs Hfuel r.
  assert (H : (res r = Returned tt \/ res r = Restarted \/
               (res r = Undefined /\
                exists t hum temp,
                  In (EvGetLocalTime (Some t)) (out r) /\
                  In (EvAhtGetEvent hum temp) (out r) /\
                  CFloat.isnan temp || CFloat.isnan hum = false /\
                  texts_fit t hum temp = false)) /\
              ((forall h' t0, env_getLocalTime env h' = Some t0 -> calendar_time t0) ->
               (forall h', (String.length (tempHum_text (fst (env_aht env h'))
                                             (snd (env_aht env h'))) < 30)%nat) ->
               res r = Returned tt \/ res r = Restarted)).
  { pose proof (loop_trace env fuel h g) as T. cbv zeta in T. fold r in T.
    pose proof (checkWiFi_res env (h ++ [EvWdtReset]) g) as Hw.
    set (wifi := checkWiFiConnection env (h ++ [EvWdtReset]) g) in *.
    destruct (res wifi) as [[]| | |].
    - destruct (env_getLocalTime env _) as [t0|] eqn:Ht;
        [pose (t := int_tm t0); fold t in T |].
      + cbv zeta in T.
        match type of T with
        | context [env_aht env ?hh] =>
            assert (Hlen' : (forall h', (String.length
                                           (tempHum_text (fst (env_aht env h'))
                                              (snd (env_aht env h'))) < 30)%nat) ->
                            (String.length
                               (tempHum_text (fst (env_aht env hh))
                                  (snd (env_aht env hh))) < 30)%nat)
              by (intros Hl; apply Hl)
        end.
        destruct (env_aht env _) as [hum temp]. cbn [fst snd] in T, Hlen'.
        destruct (CFloat.isnan temp || CFloat.isnan hum) eqn:Hnan;
          [| destruct (texts_fit t hum temp) eqn:Hfit].
        * rewrite T. split; [left; reflexivity | intros _ _; left; reflexivity].
        * destruct T as (w1 & w2 & w3 & st & T). cbv zeta in T.
          rewrite T. cbn [res].
          match goal with
          | |- context [server_handleClient env fuel ?h' ?g'] =>
              destruct (server_handleClient_res env fuel h' g') as [_ Hret];
              rewrite (Hret (Hargs h') Hfuel)
          end.
          split; [left; reflexivity | intros _ _; left; reflexivity].
        * destruct T as (Hu & _ & post & Eo & _).
          split.
          -- right. right. split; [exact Hu |]. exists t, hum, temp. rewrite Eo.
             split; [apply in_or_app; right; left; reflexivity |].
             split; [apply in_or_app; right; right; left; reflexivity |].
             split; [exact Hnan | exact Hfit].
          -- intros Hclock Hlen. exfalso.
             pose proof (Hclock _ _ Ht) as Hcal.
             assert (Et : t = t0) by (apply int_tm_calendar; exact Hcal).
             rewrite <- Et in Hcal.
             destruct (calendar_texts_fit t hum temp Hcal (Hlen' Hlen)) as (_ & _ & F).
             rewrite F in Hfit. discriminate Hfit.
      + rewrite T. split; [left; reflexivity | intros _ _; left; reflexivity].
    - rewrite T. split; [right; left; reflexivity | intros _ _; right; reflexivity].
    - exfalso. destruct Hw as [Hw | Hw]; discriminate Hw.
    - exfalso. destruct Hw as [Hw | Hw]; discriminate Hw. }
  destruct H as [H1 H2].
  split; [| split; [exact H1 | exact H2]].
  destruct H1 as [H | [H | [H _]]]; rewrite H; discriminate.
Qed.

End TickServes.


Lemma tick_restarts_only_for_the_link_witness :
  maxReconnectCount <=
    reconnectCount (fin (loop (link_env WL_DISCONNECTED) 1 []
                           (set_reconnectCount 4 initial_globals))) /\
  filter is_handle_client
    (out (loop (link_env WL_DISCONNECTED) 1 []
            (set_reconnectCount 4 initial_globals))) = [].
Proof.
  pose proof (tick_restarts_only_for_the_link (link_env WL_DISCONNECTED) 1 []
                (set_reconnectCount 4 initial_globals)) as H.
  cbv zeta in H. specialize (H ltac:(vm_compute; reflexivity)).
  destruct H as (_ & H2 & _ & H4 & _).
  exact (conj H2 H4).
Defined.

Lemma tick_terminates_witness :
  res (loop (client_env (mkRequest "/x" HTTP_PUT [("a", "1"); ("b", "2")])) 256 []
         initial_globals) = Returned tt \/
  res (loop (client_env (mkRequest "/x" HTTP_PUT [("a", "1"); ("b", "2")])) 256 []
         initial_globals) = Restarted.
Proof.
  pose proof (tick_terminates (client_env (mkRequest "/x" HTTP_PUT [("a", "1"); ("b", "2")]))
                256 [] initial_globals) as H.
  cbv zeta in H.
  assert (Hargs : forall h' rq,
             env_client (client_env (mkRequest "/x" HTTP_PUT [("a", "1"); ("b", "2")])) h' =
               Some rq -> server_args rq <= 255)
    by (intros h' rq E; injection E as <-; vm_compute; discriminate).
  destruct (H Hargs ltac:(lia)) as (_ & _ & H3).
  apply H3.
  - intros h' t0 E. injection E as <-. vm_compute. repeat split; discriminate.
  - intros h'. vm_compute. lia.
Defined.

(** ** Before the first reading *)

Lemma no_answer_filter (l : list event) :
  Forall (fun e => is_answer e = false) l -> filter is_answer l = [].
Proof.
  induction 1 as [|e l He _ IH]; cbn [filter]; [reflexivity | rewrite He; exact IH].
Qed.

Section BeforeFirstReading.

Variable env : Env.

Lemma wifi_wait_no_answer n : emits (fun e => is_answer e = false) (wifi_wait env n).
Proof.
  induction n as [|n IH]; cbn [wifi_wait]; unfold_calls.
  - emit_walk; reflexivity.
  - emit_walk; try exact IH; reflexivity.
Qed.

Lemma checkWiFi_no_answer :
  emits (fun e => is_answer e = false) (checkWiFiConnection env).
Proof.
  unfold checkWiFiConnection. unfold_calls.
  emit_walk; try apply wifi_wait_no_answer; reflexivity.
Qed.

Lemma checkNTPSync_no_answer :
  emits (fun e => is_answer e = false) (checkNTPSync env).
Proof. unfold checkNTPSync. unfold_calls. emit_walk; reflexivity. Qed.

Lemma checkMemory_no_answer :
  emits (fun e => is_answer e = false) (checkMemory env).
Proof. unfold checkMemory. unfold_calls. emit_walk; reflexivity. Qed.

(** A tick that ends with the first-data flag not set started without it,
    has not looked at the HTTP client and has answered nothing; unless it
    stopped at a text that does not fit, the shared status is as it was. *)
Lemma tick_not_ready (fuel : nat) (h : list event) (g : Globals) :
  let r := loop env fuel h g in
  firstDataReady (fin r) = false ->
  firstDataReady g = false /\
  filter is_handle_client (out r) = [] /\
  filter is_answer (out r) = [] /\
  (res r <> Undefined -> shared (fin r) = shared g).
Proof.
  intros r Hflag.
  pose proof (loop_trace env fuel h g) as T. cbv zeta in T. fold r in T.
  destruct (guardians_status env (h ++ [EvWdtReset]) g) as (Hs1 & Hs2 & _).
  pose proof (tick_prefix_guardian env h g) as Hg. cbv zeta in Hg.
  pose proof (checkWiFi_no_answer (h ++ [EvWdtReset]) g) as A1.
  set (wifi := checkWiFiConnection env (h ++ [EvWdtReset]) g) in *.
  pose proof (checkNTPSync_no_answer ((h ++ [EvWdtReset]) ++ out wifi) (fin wifi)) as A2.
  set (ntp := checkNTPSync env ((h ++ [EvWdtReset]) ++ out wifi) (fin wifi)) in *.
  pose proof (checkMemory_no_answer (((h ++ [EvWdtReset]) ++ out wifi) ++ out ntp)
                (fin ntp)) as A3.
  set (mem := checkMemory env (((h ++ [EvWdtReset]) ++ out wifi) ++ out ntp) (fin ntp)) in *.
  apply no_answer_filter in A1, A2, A3.
  assert (Apre : filter is_answer ([EvWdtReset] ++ out wifi ++ out ntp ++ out mem) = []).
  { rewrite !filter_app, A1, A2, A3. reflexivity. }
  assert (Awifi : filter is_answer ([EvWdtReset] ++ out wifi) = []).
  { rewrite !filter_app, A1. reflexivity. }
  assert (Cpre : filter is_handle_client ([EvWdtReset] ++ out wifi ++ out ntp ++ out mem) = [])
    by exact (proj1 (guardian_events_facts _ Hg)).
  assert (Cwifi : filter is_handle_client ([EvWdtReset] ++ out wifi) = []).
  { apply Forall_app in Hg. destruct Hg as [_ Hg]. apply Forall_app in Hg.
    rewrite filter_app. cbn [filter is_handle_client app].
    exact (proj1 (guardian_events_facts _ (proj1 Hg))). }
  destruct Hs1 as [Hs1 Hf1]. destruct Hs2 as [Hs2 Hf2].
  destruct (res wifi) as [[]| | |].
  - destruct (env_getLocalTime env _) as [t0|]; [pose (t := int_tm t0); fold t in T |].
    + cbv zeta in T. destruct (env_aht env _) as [hum temp]. cbn [fst snd] in T.
      destruct (CFloat.isnan temp || CFloat.isnan hum);
        [| destruct (texts_fit t hum temp)].
      * rewrite T in *. cbn [fin out res] in *.
        split; [rewrite <- Hf2; exact Hflag |].
        rewrite !(filter_app _ ([EvWdtReset] ++ _)), Apre, Cpre.
        repeat split. intros _. exact Hs2.
      * exfalso. destruct T as (w1 & w2 & w3 & st & T). cbv zeta in T.
        rewrite T in Hflag. discriminate Hflag.
      * destruct T as (Hu & Hfin & post & Eo & Hpost & Apost).
        destruct (handler_events_facts post Hpost) as (_ & _ & Cpost & _).
        assert (Hg0 : firstDataReady g = false).
        { destruct Hfin as [E | [E | E]]; rewrite E in Hflag;
            cbn [set_reading set_currentTime set_status firstDataReady] in Hflag;
            [rewrite <- Hf2; exact Hflag | rewrite <- Hf2; exact Hflag
            | discriminate Hflag]. }
        split; [exact Hg0 |]. rewrite Eo.
        rewrite !(filter_app _ ([EvWdtReset] ++ _)), Apre, Cpre.
        cbn [filter is_answer is_handle_client app]. rewrite Apost, Cpost.
        repeat split. intros Hd. exfalso. exact (Hd Hu).
    + rewrite T in *. cbn [fin out res] in *.
      split; [rewrite <- Hf2; exact Hflag |].
      rewrite !(filter_app _ ([EvWdtReset] ++ _)), Apre, Cpre.
      repeat split. intros _. exact Hs2.
  - rewrite T in *. cbn [fin out res] in *.
    split; [rewrite <- Hf1; exact Hflag |].
    rewrite Awifi, Cwifi. repeat split. intros _. exact Hs1.
  - rewrite T in *. cbn [fin out res] in *.
    split; [rewrite <- Hf1; exact Hflag |].
    rewrite Awifi, Cwifi. repeat split. intros _. exact Hs1.
  - rewrite T in *. cbn [fin out res] in *.
    split; [rewrite <- Hf1; exact Hflag |].
    rewrite Awifi, Cwifi. repeat split. intros _. exact Hs1.
Qed.

Lemma ticks_not_ready (fuel n : nat) :
  forall h g,
    let r := ticks env fuel n h g in
    firstDataReady (fin r) = false ->
    firstDataReady g = false /\
    filter is_handle_client (out r) = [] /\
    filter is_answer (out r) = [] /\
    (res r <> Undefined -> shared (fin r) = shared g).
Proof.
  induction n as [|n IH]; intros h g r Hflag; subst r.
  - cbn in *. repeat split. exact Hflag.
  - revert Hflag. unfold ticks. cbn [times]. fold (ticks env fuel n).
    pose proof (tick_not_ready fuel h g) as Ht. cbv zeta in Ht.
    destruct (res (loop env fuel h g)) as [[]| | |] eqn:Hres.
    + rewrite (bind_returned _ _ _ _ tt Hres). unfold extend. cbn [res fin out].
      intros Hflag.
      destruct (IH _ _ Hflag) as (I1 & I2 & I3 & I4).
      destruct (Ht I1) as (T1 & T2 & T3 & T4).
      split; [exact T1 |].
      rewrite !filter_app, T2, T3, I2, I3.
      repeat split. intros Hd. rewrite (I4 Hd). apply T4. discriminate.
    + rewrite (bind_restarted _ _ _ _ Hres). cbn [res fin out]. intros Hflag.
      destruct (Ht Hflag) as (T1 & T2 & T3 & T4).
      repeat split; assumption.
    + rewrite (bind_out_of_fuel _ _ _ _ Hres). cbn [res fin out]. intros Hflag.
      destruct (Ht Hflag) as (T1 & T2 & T3 & T4).
      repeat split; assumption.
    + rewrite (bind_undefined _ _ _ _ Hres). cbn [res fin out]. intros Hflag.
      destruct (Ht Hflag) as (T1 & T2 & T3 & T4).
      repeat split; assumption.
Qed.

(** C9, as the sketch has it.  As long as no tick has stored a reading
    ([firstDataReady] is still false after any number of ticks from the
    initial state), no handler has been invoked: no tick has called
    [server.handleClient()] and nothing has been answered, so a request that
    came in is still pending; the shared status still holds its initial
    values.  A handler applied to globals with that status answers with HTTP
    200 built from them: [/temperature] sends 0.0 with the unit, [/humidity]
    0.0 percent, [/json] the record with 0.0, 0.0, the empty time and date
    and the status ok, and the page of [/] shows 0.0 twice, 0.0 as the script
    constant and an empty date and time line. *)
Theorem handlers_before_first_reading (fuel n : nat) (h : list event) :
  let r := ticks env fuel n h initial_globals in
  firstDataReady (fin r) = false ->
  filter is_handle_client (out r) = [] /\
  filter is_answer (out r) = [] /\
  (res r <> Undefined -> shared (fin r) = shared initial_globals) /\
  forall h' g,
    shared g = shared initial_globals ->
    (exists body,
       handleRoot h' g =
         mkResult (Returned tt) g (cors_events ++ [EvSend 200 "text/html" body]) /\
       forallb (fun part => occurs part body) not_ready_fragments = true) /\
    handleTemperature h' g =
      mkResult (Returned tt) g (cors_events ++ [EvSend 200 "text/plain" "0.0°C"]) /\
    handleHumidity h' g =
      mkResult (Returned tt) g (cors_events ++ [EvSend 200 "text/plain" "0.0%"]) /\
    handleJson h' g =
      mkResult (Returned tt) g
        (cors_events ++ [EvSend 200 "application/json" not_ready_json]).
Proof.
  intros r Hflag.
  destruct (ticks_not_ready fuel n h initial_globals Hflag) as (_ & H1 & H2 & H3).
  split; [exact H1 | split; [exact H2 | split; [exact H3 |]]].
  intros h' g Hs.
  pose proof (handlers_from_shared h' g) as H. cbv zeta in H.
  rewrite Hs in H. destruct H as (Hr & Ht & Hh & Hj).
  split; [| split; [exact Ht | split; [exact Hh | exact Hj]]].
  eexists. split; [exact Hr |]. vm_compute. reflexivity.
Qed.

End BeforeFirstReading.

Lemma handlers_before_first_reading_witness :
  filter is_handle_client (out (ticks faulty_sensor_env 1 5 [] initial_globals)) = [] /\
  filter is_answer (out (ticks faulty_sensor_env 1 5 [] initial_globals)) = [] /\
  handleJson (out (ticks faulty_sensor_env 1 5 [] initial_globals))
    (fin (ticks faulty_sensor_env 1 5 [] initial_globals)) =
    mkResult (Returned tt) (fin (ticks faulty_sensor_env 1 5 [] initial_globals))
      (cors_events ++ [EvSend 200 "application/json" not_ready_json]).
Proof.
  pose proof (handlers_before_first_reading faulty_sensor_env 1 5 []) as H.
  cbv zeta in H. specialize (H ltac:(vm_compute; reflexivity)).
  destruct H as (H1 & H2 & H3 & H4).
  split; [exact H1 | split; [exact H2 |]].
  apply H4. apply H3. vm_compute. discriminate.
Defined.

(** The claim as the spec words it fails for a request that comes in
    before the first successful tick: with GET /json pending and a sensor
    that answers NaN, five ticks return without a call of
    [server.handleClient()] and without an answer; the request is still
    pending after them. *)
Lemma pending_request_is_not_answered :
  res (ticks faulty_sensor_env 1 5 [] initial_globals) = Returned tt /\
  firstDataReady (fin (ticks faulty_sensor_env 1 5 [] initial_globals)) = false /\
  env_client faulty_sensor_env (out (ticks faulty_sensor_env 1 5 [] initial_globals)) =
    Some (mkRequest "/json" HTTP_GET []) /\
  wdt_feeds (out (ticks faulty_sensor_env 1 5 [] initial_globals)) = 5%nat /\
  filter is_handle_client (out (ticks faulty_sensor_env 1 5 [] initial_globals)) = [] /\
  filter is_answer (out (ticks faulty_sensor_env 1 5 [] initial_globals)) = [].
Proof. repeat split; vm_compute; reflexivity. Qed.

(** ** The further properties on the scenarios *)

Lemma restart_leaves_message_witness :
  (exists before,
     out (checkWiFiConnection (link_env WL_DISCONNECTED) []
            (set_reconnectCount 4 initial_globals)) = before ++ restart_events) /\
  maxReconnectCount <=
    reconnectCount (fin (checkWiFiConnection (link_env WL_DISCONNECTED) []
                           (set_reconnectCount 4 initial_globals))).
Proof.
  assert (H : res (checkWiFiConnection (link_env WL_DISCONNECTED) []
                     (set_reconnectCount 4 initial_globals)) = Restarted)
    by (vm_compute; reflexivity).
  exact (restart_leaves_message (link_env WL_DISCONNECTED) []
           (set_reconnectCount 4 initial_globals) H).
Defined.

Lemma served_only_after_store_witness :
  exists hum temp,
    CFloat.isnan temp || CFloat.isnan hum = false /\
    currentTemperature (fin (loop calm_env 1 [] initial_globals)) = temp /\
    currentHumidity (fin (loop calm_env 1 [] initial_globals)) = hum /\
    firstDataReady (fin (loop calm_env 1 [] initial_globals)) = true.
Proof.
  assert (H : In (EvHandleClient None) (out (loop calm_env 1 [] initial_globals)))
    by (vm_compute; repeat (first [left; reflexivity | right])).
  destruct (proj1 (served_only_after_store calm_env 1 [] initial_globals) None H)
    as (hum & temp & b1 & b2 & g1 & after & _ & H2 & H3 & H4 & H5 & H6 & _).
  exists hum, temp. rewrite H6.
  exact (conj H2 (conj H3 (conj H4 H5))).
Defined.

Lemma valid_reading_is_published_witness :
  shared (fin (loop calm_env 1 [] initial_globals)) =
    mkShared (CFloat.of_Z 25) (CFloat.of_Z 60) "14:30:00" "2025-07-04" /\
  firstDataReady (fin (loop calm_env 1 [] initial_globals)) = true /\
  String.length (currentTime (fin (loop calm_env 1 [] initial_globals))) = 8%nat /\
  String.length (currentDate (fin (loop calm_env 1 [] initial_globals))) = 10%nat.
Proof.
  pose proof (valid_reading_is_published calm_env 1 [] initial_globals
                (mkTm 0 30 14 4 6 125)) as H.
  cbv zeta in H.
  specialize (H ltac:(vm_compute; reflexivity) eq_refl ltac:(vm_compute; reflexivity)
                ltac:(vm_compute; repeat split; discriminate)
                ltac:(vm_compute; lia)).
  destruct H as (w1 & w2 & w3 & st & rest & H1 & H2 & H3 & H4 & _).
  exact (conj H1 (conj H2 (conj H3 H4))).
Defined.

Lemma time_fault_tick_witness :
  res (loop timeless_env 1 [] initial_globals) = Returned tt /\
  filter is_sensor_read (out (loop timeless_env 1 [] initial_globals)) = [] /\
  filter is_handle_client (out (loop timeless_env 1 [] initial_globals)) = [].
Proof.
  pose proof (time_fault_tick timeless_env 1 [] initial_globals) as H.
  cbv zeta in H.
  specialize (H ltac:(vm_compute; reflexivity) eq_refl).
  destruct H as (H1 & _ & H3 & H4 & _).
  exact (conj H1 (conj H3 H4)).
Defined.

Lemma served_reading_is_fresh_witness :
  exists t,
    In (EvGetLocalTime (Some t))
       (out (loop (client_env (mkRequest "/json" HTTP_GET [])) 1 [] initial_globals)) /\
    In (EvSend 200 "application/json"
          (spaced_json_body (CFloat.fixed1 (CFloat.of_Z 25))
             (CFloat.fixed1 (CFloat.of_Z 60)) (format_time t) (format_date t)))
       (out (loop (client_env (mkRequest "/json" HTTP_GET [])) 1 [] initial_globals)).
Proof.
  assert (H0 : forall h' t0,
             env_getLocalTime (client_env (mkRequest "/json" HTTP_GET [])) h' = Some t0 ->
             calendar_time t0)
    by (intros h' t0 E; injection E as <-; vm_compute; repeat split; discriminate).
  assert (H1 : In (EvHandleClient (Some (mkRequest "/json" HTTP_GET [])))
                 (out (loop (client_env (mkRequest "/json" HTTP_GET [])) 1 []
                         initial_globals)))
    by (vm_compute; repeat (first [left; reflexivity | right])).
  assert (H2 : In (EvAhtGetEvent (CFloat.of_Z 60) (CFloat.of_Z 25))
                 (out (loop (client_env (mkRequest "/json" HTTP_GET [])) 1 []
                         initial_globals)))
    by (vm_compute; repeat (first [left; reflexivity | right])).
  destruct (proj2 (proj2 (served_reading_is_fresh
                         (client_env (mkRequest "/json" HTTP_GET [])) 1 []
                         initial_globals (mkRequest "/json" HTTP_GET [])
                         (CFloat.of_Z 60) (CFloat.of_Z 25) H0
                         ltac:(vm_compute; lia) H1 H2)) eq_refl)
    as (t & T1 & _ & _ & _ & T2).
  exists t. exact (conj T1 T2).
Defined.

Lemma server_dispatch_witness :
  exists type body,
    server_handleClient (client_env (mkRequest "/humidity" HTTP_POST [])) 0 []
      scenario_globals =
    mkResult (Returned tt) scenario_globals
      (EvHandleClient (Some (mkRequest "/humidity" HTTP_POST [])) ::
       cors_events ++ [EvSend 200 type body]).
Proof.
  exact (proj1 (server_dispatch (client_env (mkRequest "/humidity" HTTP_POST [])) 0 []
                  scenario_globals (mkRequest "/humidity" HTTP_POST []) eq_refl)
           eq_refl).
Defined.

Lemma many_arguments_never_answered_witness :
  server_handleClient (client_env crowded_request) 1000 [] initial_globals =
    mkResult OutOfFuel initial_globals [EvHandleClient (Some crowded_request)].
Proof.
  exact (many_arguments_never_answered (client_env crowded_request) 1000 []
           initial_globals crowded_request eq_refl eq_refl
           ltac:(vm_compute; discriminate)).
Defined.

Lemma printCentered_wide_text_witness :
  centered_x (CInt.to_int16 200) = -36 /\
  printCentered (width_env 200) "a long line of text" 12 u8g2_font_ncenB08_tr []
    initial_globals =
    mkResult (Returned tt) initial_globals
      [EvSetFont u8g2_font_ncenB08_tr; EvGetUTF8Width "a long line of text" 200;
       EvDrawStr 65500 12 "a long line of text"].
Proof.
  exact (printCentered_wide_text (width_env 200) [] initial_globals
           "a long line of text" 12 u8g2_font_ncenB08_tr
           ltac:(vm_compute; split; discriminate)).
Defined.

Lemma setup_never_leaves_without_link_witness :
  res (setup_wait_wifi (link_env WL_DISCONNECTED) 100 [] initial_globals) = OutOfFuel /\
  wdt_feeds (out (setup_wait_wifi (link_env WL_DISCONNECTED) 100 [] initial_globals)) =
    100%nat /\
  sleep_ms (out (setup_wait_wifi (link_env WL_DISCONNECTED) 100 [] initial_globals)) =
    50000.
Proof.
  exact (setup_never_leaves_without_link (link_env WL_DISCONNECTED) 100 []
           initial_globals (fun _ => eq_refl)).
Defined.

Lemma first_data_flag_is_sticky_witness :
  firstDataReady (fin (ticks faulty_sensor_env 1 3 [] scenario_globals)) = true.
Proof.
  exact (first_data_flag_is_sticky faulty_sensor_env 1 3 [] scenario_globals eq_refl).
Defined.

Lemma notFound_lists_arguments_witness :
  handleNotFound 3 (mkRequest "/x" HTTP_PUT [("a", "1"); ("b", "2")]) []
    initial_globals =
    mkResult (Returned tt) initial_globals
      [EvSend 404 "text/plain"
         (notFound_head (mkRequest "/x" HTTP_PUT [("a", "1"); ("b", "2")]) +++
          " a: 1" +++ Text.nl +++ " b: 2" +++ Text.nl)].
Proof.
  exact (notFound_lists_arguments (mkRequest "/x" HTTP_PUT [("a", "1"); ("b", "2")]) []
           initial_globals ltac:(vm_compute; discriminate)).
Defined.
